(** * Fermentation controller (NEW_GUI_VFINAL.py): model and verified properties

    The control core of the three-vessel fermentation GUI is embedded as
    executable definitions: the flow conversion functions, the calendar
    lookups, the per-vessel thermal state machine with its dosing timer, the
    DS18B20 read path and the CSV sinks.

    Conventions.
    - Python floats are modelled as exact rationals ([Q]): finite values,
      without the rounding of binary64. Where rounding or a nan decides a
      property, module [F64] has the function in binary64.
    - Python strings are [string]s of ASCII characters, compared by code
      point as Python does.
    - Python dictionaries keyed by strings are [gmap string _].
    - Tk variables ([DoubleVar], [BooleanVar]) are plain record fields.
    - LED and message-box calls have no effect on the modelled state and
      are omitted. The panel model leaves the GPIO calls out; module [Gpio]
      has the hardware layer and module [Dose] the stepper calls of the
      dosing part of a tick, with the exception line 1368 can raise.

    Part I holds the model, Part II the lemmas and theorems. *)

From Stdlib Require Import QArith Qround Lqa ZArith Lia List Bool Ascii String.
From Stdlib Require Import Sorted.
From Stdlib Require Floats.
From stdpp Require Import gmap strings list fin_maps.

(** * Part I: the model *)

(** ** Python builtins *)

Module Py.

(** [min(a, b)]: the first argument unless the second is strictly smaller. *)
Definition min (a b : Q) : Q := if Qlt_le_dec b a then b else a.

(** [max(a, b)]: the first argument unless the second is strictly larger. *)
Definition max (a b : Q) : Q := if Qlt_le_dec a b then b else a.

(** [a < b] and [a <= b] on floats, as booleans. *)
Definition ltb (a b : Q) : bool := if Qlt_le_dec a b then true else false.
Definition leb (a b : Q) : bool := if Qlt_le_dec b a then false else true.

(** [round(x)] on a float: to the nearest integer, ties to even. *)
Definition round (x : Q) : Z :=
  let f := Qfloor x in
  let r := (x - inject_Z f)%Q in
  if Qlt_le_dec r (1 # 2) then f
  else if Qlt_le_dec (1 # 2) r then (f + 1)%Z
  else if Z.even f then f else (f + 1)%Z.

(** String comparison [a <= b]: lexicographic on code points. *)
Definition str_le (a b : string) : bool := String.leb a b.
Definition str_lt (a b : string) : bool := String.ltb a b.

(** Characters that [str.strip()] and [int()] treat as white space. *)
Definition is_space (c : ascii) : bool :=
  let n := nat_of_ascii c in
  ((9 <=? n)%nat && (n <=? 13)%nat) || ((28 <=? n)%nat && (n <=? 32)%nat).

Fixpoint lstrip (s : string) : string :=
  match s with
  | String c r => if is_space c then lstrip r else s
  | EmptyString => EmptyString
  end.

Fixpoint rev_string (s acc : string) : string :=
  match s with
  | String c r => rev_string r (String c acc)
  | EmptyString => acc
  end.

Definition strip (s : string) : string :=
  rev_string (lstrip (rev_string (lstrip s) EmptyString)) EmptyString.

(** [s.split(sep)] for a one-character separator. *)
Fixpoint split (sep : ascii) (s : string) : list string :=
  match s with
  | EmptyString => [EmptyString]
  | String c r =>
      if Ascii.eqb c sep then EmptyString :: split sep r
      else match split sep r with
           | h :: t => String c h :: t
           | [] => [String c EmptyString]
           end
  end.

Definition is_digit (c : ascii) : bool :=
  let n := nat_of_ascii c in (48 <=? n)%nat && (n <=? 57)%nat.

Definition digit_val (c : ascii) : Z := Z.of_nat (nat_of_ascii c) - 48.

(** Decimal digits with single underscores allowed between digits. *)
Fixpoint digits (s : string) (acc : Z) (after_digit : bool) : option Z :=
  match s with
  | EmptyString => if after_digit then Some acc else None
  | String c r =>
      if is_digit c then digits r (acc * 10 + digit_val c)%Z true
      else if Ascii.eqb c "_" then
        if after_digit then digits r acc false else None
      else None
  end.

(** [int(s)] in base 10; [None] stands for [ValueError]. *)
Definition int (s : string) : option Z :=
  match strip s with
  | String "+" r => digits r 0 false
  | String "-" r => Z.opp <$> digits r 0 false
  | r => digits r 0 false
  end.

Definition digit_char (d : Z) : ascii := ascii_of_nat (48 + Z.to_nat d).

(** [str(n)] for a natural number: decimal, no padding. *)
Fixpoint str_aux (fuel : nat) (n : Z) (acc : string) : string :=
  let acc' := String (digit_char (n mod 10)) acc in
  match fuel with
  | O => acc'
  | S fuel' => if (n / 10 =? 0)%Z then acc' else str_aux fuel' (n / 10) acc'
  end.

Definition str (n : Z) : string := str_aux (Z.to_nat n) n EmptyString.

(** [%02d] and [%04d] of a non-negative number below 100, resp. 10000. *)
Definition fmt02 (n : Z) : string :=
  String (digit_char (n / 10)) (String (digit_char (n mod 10)) EmptyString).

Definition fmt04 (n : Z) : string :=
  String (digit_char (n / 1000))
    (String (digit_char (n / 100 mod 10)) (fmt02 (n mod 100))).

End Py.

(** ** [datetime]: dates, instants and durations *)

Module Dt.

Record date := { year : Z; month : Z; day : Z }.

Record datetime := {
  dt_date : date;
  hour : Z;
  minute : Z;
  second : Z;
  microsecond : Z
}.

Definition is_leap (y : Z) : bool :=
  (y mod 4 =? 0)%Z && (negb (y mod 100 =? 0)%Z || (y mod 400 =? 0)%Z).

Definition days_in_month (leap : bool) (m : Z) : Z :=
  if (m =? 2)%Z then (if leap then 29 else 28)%Z
  else if ((m =? 4) || (m =? 6) || (m =? 9) || (m =? 11))%Z then 30%Z
  else 31%Z.

Definition days_before_month_table : list Z :=
  [0; 0; 31; 59; 90; 120; 151; 181; 212; 243; 273; 304; 334]%Z.

Definition days_before_month (y m : Z) : Z :=
  (nth (Z.to_nat m) days_before_month_table 0
   + (if (2 <? m) && is_leap y then 1 else 0))%Z.

Definition days_before_year (y : Z) : Z :=
  let y := (y - 1)%Z in (y * 365 + y / 4 - y / 100 + y / 400)%Z.

(** [date.toordinal()]: 0001-01-01 is day 1. *)
Definition toordinal (d : date) : Z :=
  (days_before_year (year d) + days_before_month (year d) (month d) + day d)%Z.

(** [date.fromordinal(n)], following CPython's [_ord2ymd]. *)
Definition fromordinal (n : Z) : date :=
  let n := (n - 1)%Z in
  let n400 := (n / 146097)%Z in
  let n := (n mod 146097)%Z in
  let n100 := (n / 36524)%Z in
  let n := (n mod 36524)%Z in
  let n4 := (n / 1461)%Z in
  let n := (n mod 1461)%Z in
  let n1 := (n / 365)%Z in
  let n := (n mod 365)%Z in
  let y := (n400 * 400 + 1 + n100 * 100 + n4 * 4 + n1)%Z in
  if ((n1 =? 4) || (n100 =? 4))%Z then
    {| year := y - 1; month := 12; day := 31 |}
  else
    let leapyear := ((n1 =? 3) && (negb (n4 =? 24) || (n100 =? 3)))%Z in
    let m := Z.shiftr (n + 50) 5 in
    let preceding :=
      (nth (Z.to_nat m) days_before_month_table 0
       + (if (2 <? m) && leapyear then 1 else 0))%Z in
    if (n <? preceding)%Z then
      let m' := (m - 1)%Z in
      let preceding' :=
        (preceding - (days_in_month leapyear m'))%Z in
      {| year := y; month := m'; day := n - preceding' + 1 |}
    else
      {| year := y; month := m; day := n - preceding + 1 |}.

(** A [timedelta] is a number of microseconds. *)
Definition timedelta_seconds (s : Q) : Z := Py.round (s * 1000000).
Definition timedelta_hours (h : Z) : Z := (h * 3600 * 1000000)%Z.

Definition us_per_day : Z := 86400000000.

(** Microseconds since the start of day 0. *)
Definition to_us (t : datetime) : Z :=
  (toordinal (dt_date t) * us_per_day
   + ((hour t * 60 + minute t) * 60 + second t) * 1000000 + microsecond t)%Z.

Definition of_us (n : Z) : datetime :=
  let r := (n mod us_per_day)%Z in
  let s := (r / 1000000)%Z in
  {| dt_date := fromordinal (n / us_per_day);
     hour := s / 3600; minute := s mod 3600 / 60; second := s mod 60;
     microsecond := r mod 1000000 |}.

(** [t + delta] and [t - delta], without the range check of [datetime]
    ([Dose.add] has it). *)
Definition add (t : datetime) (delta : Z) : datetime := of_us (to_us t + delta).
Definition sub (t : datetime) (delta : Z) : datetime := of_us (to_us t - delta).

(** [(t1 - t2).total_seconds()]. *)
Definition diff_seconds (t1 t2 : datetime) : Q := (to_us t1 - to_us t2) # 1000000.

(** Field by field comparison, as [datetime.__lt__] does. *)
Definition fields (t : datetime) : list Z :=
  [year (dt_date t); month (dt_date t); day (dt_date t);
   hour t; minute t; second t; microsecond t].

Fixpoint lex_ltb (a b : list Z) : bool :=
  match a, b with
  | x :: a', y :: b' => (x <? y)%Z || ((x =? y)%Z && lex_ltb a' b')
  | [], _ :: _ => true
  | _, [] => false
  end.

Definition ltb (t1 t2 : datetime) : bool := lex_ltb (fields t1) (fields t2).
Definition leb (t1 t2 : datetime) : bool := negb (ltb t2 t1).

(** [strftime] with the three formats the program uses. *)
Definition ymd (d : date) : string :=
  Py.fmt04 (year d) +:+ "-" +:+ Py.fmt02 (month d) +:+ "-" +:+ Py.fmt02 (day d).

Definition hhmm (t : datetime) : string :=
  Py.fmt02 (hour t) +:+ ":" +:+ Py.fmt02 (minute t).

Definition ymd_hhmm (t : datetime) : string :=
  ymd (dt_date t) +:+ " " +:+ hhmm t.

Definition mk (y m d hh mm ss : Z) : datetime :=
  {| dt_date := {| year := y; month := m; day := d |};
     hour := hh; minute := mm; second := ss; microsecond := 0 |}.

End Dt.

(** ** Flow conversion model *)

Module Flow.

Local Open Scope Q_scope.

Inductive status := OK | BajoRango | AltoRango.

Definition voltage_to_current_ma (voltage shunt_ohms : Q) : Q :=
  (voltage / shunt_ohms) * 1000.

(** [FLOW_MIN_SCCM] and [FLOW_MAX_SCCM] are module-level constants read from
    the environment; they are parameters here. *)
Definition current_to_flow_sccm (FLOW_MIN_SCCM FLOW_MAX_SCCM current_ma : Q) : Q :=
  if Py.leb FLOW_MAX_SCCM FLOW_MIN_SCCM then 0
  else
    let current_ma := Py.max 4 (Py.min 20 current_ma) in
    let span := 16 in
    FLOW_MIN_SCCM + (current_ma - 4) * (FLOW_MAX_SCCM - FLOW_MIN_SCCM) / span.

(** The tuple [(ts, flow, current_ma, voltage, status)] kept in the history. *)
Record sample := {
  s_ts : Dt.datetime;
  s_flow : Q;
  s_current_ma : Q;
  s_voltage : Q;
  s_status : status
}.

(** Lines 2359-2365 of [_flow_take_sample]: conversion and classification. *)
Definition convert (FLOW_MIN_SCCM FLOW_MAX_SCCM : Q)
    (ts : Dt.datetime) (voltage shunt_ohms : Q) : sample :=
  let current_ma := voltage_to_current_ma voltage shunt_ohms in
  let flow := current_to_flow_sccm FLOW_MIN_SCCM FLOW_MAX_SCCM current_ma in
  let status :=
    if Py.ltb current_ma 3.8 then BajoRango
    else if Py.ltb 20.5 current_ma then AltoRango
    else OK in
  {| s_ts := ts; s_flow := flow; s_current_ma := current_ma;
     s_voltage := voltage; s_status := status |}.

Definition MAX_FLOW_HISTORY_HOURS : Z := 24 * 21.

(** Per-fermenter sampling state held by [App]. *)
Record channel := {
  shunt_ohms : Q;
  flow_sample_period : Z;
  flow_samples : list sample;
  flow_next_sample : option Dt.datetime
}.

(** [_flow_take_sample] on one channel; [reading] is what
    [reader.read_voltage()] gives, [None] when it raises. The two CSV writes
    are in [Csv]. *)
Definition _flow_take_sample (FLOW_MIN_SCCM FLOW_MAX_SCCM : Q)
    (c : channel) (ts : Dt.datetime) (reading : option Q) : channel :=
  let next_ts :=
    Dt.add ts (Dt.timedelta_seconds (inject_Z (flow_sample_period c))) in
  match reading with
  | None =>
      {| shunt_ohms := shunt_ohms c; flow_sample_period := flow_sample_period c;
         flow_samples := flow_samples c; flow_next_sample := Some next_ts |}
  | Some voltage =>
      let smp := convert FLOW_MIN_SCCM FLOW_MAX_SCCM ts voltage (shunt_ohms c) in
      let samples := flow_samples c ++ [smp] in
      let cutoff := Dt.sub ts (Dt.timedelta_hours MAX_FLOW_HISTORY_HOURS) in
      {| shunt_ohms := shunt_ohms c; flow_sample_period := flow_sample_period c;
         flow_samples := List.filter (fun r => Dt.leb cutoff (s_ts r)) samples;
         flow_next_sample := Some next_ts |}
  end.

End Flow.

(** ** Calendar store *)

Module Cal.

(** An event is the dictionary [{"time": t, "value": v}]. *)
Record event := { time : string; value : Q }.

(** Date key ([YYYY-MM-DD]) to the events of that day, in insertion order. *)
Abbreviation calendar := (gmap string (list event)).

(** [hhmm_ok]: any exception of [split], the unpacking or [int] gives
    [False]. *)
Definition hhmm_ok (s : string) : bool :=
  match Py.split ":" s with
  | [h; m] =>
      match Py.int h, Py.int m with
      | Some h, Some m => (0 <=? h)%Z && (h <=? 23)%Z && (0 <=? m)%Z && (m <=? 59)%Z
      | _, _ => false
      end
  | _ => false
  end.

(** [sorted(l, key=lambda e: e["time"])] is a stable sort; insertion from the
    right computes the same list. *)
Fixpoint insort (e : event) (l : list event) : list event :=
  match l with
  | [] => [e]
  | x :: r => if Py.str_le (time e) (time x) then e :: l else x :: insort e r
  end.

Definition sorted (l : list event) : list event := foldr insort [] l.

(** Truth value of a string: non-empty. *)
Definition truthy (s : string) : bool :=
  match s with EmptyString => false | _ => true end.

Definition get (events_dict : calendar) (key : string) : list event :=
  match events_dict !! key with Some l => l | None => [] end.

Definition sp_from_date_calendar (events_dict : calendar) (t : Dt.datetime)
    (default : option Q) : option Q :=
  if decide (events_dict = ∅) then default
  else
    let key := Dt.ymd (Dt.dt_date t) in
    let flist := get events_dict key in
    match flist with
    | [] => default
    | _ =>
        let hhmm_now := Dt.hhmm t in
        let todays :=
          List.filter (fun e => truthy (time e) && Py.str_le (time e) hhmm_now)
            flist in
        match last (sorted todays) with
        | None => default
        | Some e => Some (value e)
        end
    end.

Definition nut_fire_for_minute (events_dict : calendar) (t : Dt.datetime)
    : list Q :=
  if decide (events_dict = ∅) then []
  else
    let key := Dt.ymd (Dt.dt_date t) in
    let flist := get events_dict key in
    match flist with
    | [] => []
    | _ =>
        let hhmm_now := Dt.hhmm t in
        map value (List.filter (fun e => String.eqb (time e) hhmm_now) flist)
    end.

(** Every stored time passed [hhmm_ok]: [add_event], [edit_event] and
    [_events_from_rows] store nothing else. *)
Definition times_ok (c : calendar) : bool :=
  bool_decide
    (map_Forall (fun _ l => Forall (fun e => hhmm_ok (time e) = true) l) c).

(** [HH:MM] with padding, as [strftime("%H:%M")] prints it. *)
Definition padded (h m : Z) : string := Py.fmt02 h +:+ ":" +:+ Py.fmt02 m.

(** The decimal numerals of a number of hours or of minutes as an operator
    may type them: without padding, or padded to two digits. *)
Definition numerals (n : Z) : list string := [Py.str n; Py.fmt02 n].

(** The shape of every [strftime("%H:%M")] output: two digits, a colon, two
    digits. *)
Definition is_padded (s : string) : bool :=
  match s with
  | String a (String b (String c (String d (String e EmptyString)))) =>
      Py.is_digit a && Py.is_digit b && Ascii.eqb c ":"
      && Py.is_digit d && Py.is_digit e
  | _ => false
  end.

(** The order [sorted] sorts by. *)
Definition le_time (a b : event) : Prop := Py.str_le (time a) (time b) = true.

(** The condition of the comprehension of line 730. *)
Definition qualifies (hhmm_now : string) (e : event) : bool :=
  truthy (time e) && Py.str_le (time e) hhmm_now.

End Cal.

(** ** Hardware layer: DS18B20 read path *)

Module Hw.

Local Open Scope Q_scope.

Record Hardware := {
  sim : bool;
  ds_devices : list string;
  _last_temp_error : bool
}.

(** What the body of the [try] block does with the sensor file: it returns
    a temperature, or raises with a message. *)
Inductive w1_read := W1_ok (temp : Q) | W1_raise (msg : string).

(** A line printed to the console. *)
Inductive log_line := ErrorLeyendo (dev : string) (msg : string).

Definition set_last_temp_error (b : bool) (hw : Hardware) : Hardware :=
  {| sim := sim hw; ds_devices := ds_devices hw; _last_temp_error := b |}.

(** [read_temp_ds18b20]. [sim_value] is the value of the simulated branch
    (bias plus noise); [r] is the outcome of the [try] body. The [finally]
    clause runs after the body or the handler has fixed the return value. *)
Definition read_temp_ds18b20 (hw : Hardware) (index : nat)
    (sim_value : Q) (r : w1_read) : Q * list log_line * Hardware :=
  match ds_devices hw with
  | [] => (sim_value, [], hw)
  | d0 :: _ =>
      if sim hw then (sim_value, [], hw)
      else
        let index :=
          if (length (ds_devices hw) <=? index)%nat
          then (length (ds_devices hw) - 1)%nat else index in
        let dev := nth index (ds_devices hw) d0 in
        let '(ret, out, hw1) :=
          match r with
          | W1_ok temp => (temp, [], hw)
          | W1_raise msg =>
              if negb (_last_temp_error hw)
              then (20, [ErrorLeyendo dev msg], set_last_temp_error true hw)
              else (20, [], hw)
          end in
        (ret, out, set_last_temp_error false hw1)
  end.

(** A run of reads: the outputs of each call, threading the handle. *)
Fixpoint read_run (hw : Hardware) (index : nat) (rs : list w1_read)
    : list (Q * list log_line) * Hardware :=
  match rs with
  | [] => ([], hw)
  | r :: rs' =>
      let '(ret, out, hw1) := read_temp_ds18b20 hw index 0 r in
      let '(outs, hw2) := read_run hw1 index rs' in
      ((ret, out) :: outs, hw2)
  end.

(** The branch that reads a sensor file: not simulated, a device found. *)
Definition real_mode (hw : Hardware) : Prop :=
  sim hw = false /\ ds_devices hw <> [].

(** Whether the body of the [try] raised. *)
Definition is_raise (r : w1_read) : bool :=
  match r with W1_raise _ => true | W1_ok _ => false end.

End Hw.

(** ** CSV sinks *)

Module Csv.

Inductive cell :=
  | CStr (s : string)
  | CNum (q : Q)
  | CInt (z : Z)
  | CTime (t : Dt.datetime).

(** A line written by [csv.DictWriter]: [writeheader] or [writerow]. *)
Inductive line := Header (fields : list string) | Data (cells : list cell).

(** The file system: path to the lines of the file. A file of zero bytes is
    a file with no line, since every line written ends with a terminator. *)
Abbreviation files := (gmap string (list line)).

(** [os.path.exists(path)]. *)
Definition exists_ (fs : files) (path : string) : bool :=
  match fs !! path with Some _ => true | None => false end.

(** [os.path.getsize(path) == 0] for an existing file. *)
Definition size_is_zero (fs : files) (path : string) : bool :=
  match fs !! path with Some [] => true | _ => false end.

(** [open(path, "a")] followed by the writes: creates the file if needed. *)
Definition append (fs : files) (path : string) (ls : list line) : files :=
  <[path := match fs !! path with Some old => old ++ ls | None => ls end]> fs.

(** [os.remove(path)]. *)
Definition remove (fs : files) (path : string) : files := delete path fs.

Definition is_header (l : line) : bool :=
  match l with Header _ => true | Data _ => false end.

(** Number of header lines of a file. *)
Definition headers (fs : files) (path : string) : nat :=
  match fs !! path with
  | Some ls => length (List.filter is_header ls)
  | None => 0%nat
  end.

(** The per-channel sink of a writer: header when the file does not exist
    (lines 1290 and 2300). *)
Definition write_channel (fs : files) (ipath : string)
    (fields : list string) (cells : list cell) : files :=
  let cabe := negb (exists_ fs ipath) in
  append fs ipath ((if cabe then [Header fields] else []) ++ [Data cells]).

(** The global backup sink of a writer: header when the file does not exist
    or is empty (lines 1316 and 2321). *)
Definition write_backup (fs : files) (bpath : string)
    (fields : list string) (cells : list cell) : files :=
  let write_header := negb (exists_ fs bpath) || size_is_zero fs bpath in
  append fs bpath ((if write_header then [Header fields] else []) ++ [Data cells]).






End Csv.

(** ** The fermenter panel: thermal control, dosing timer, recording *)

Module Panel.

Local Open Scope Q_scope.

Record Panel := {
  name : string;
  t : Q;
  _sim_ambient : Q;
  _last_update : Dt.datetime;
  sp : Q;
  band : Q;
  manual_mode : bool;
  cold_in : bool;
  hot_in : bool;
  cal_sp : Cal.calendar;
  cal_nut : Cal.calendar;
  nut_running_until : option Dt.datetime;
  _nut_led_on : bool;
  _last_min : option string;
  freq_nut : Q;
  manual_nut_on : bool;
  csv_path : string;
  _csv_running : bool;
  _csv_paused : bool
}.

(** The state after [__init__]: [t0] is the first temperature, [amb] the
    simulated ambient temperature, [t_start] the construction instant. *)
Definition init (nm : string) (t0 amb : Q) (t_start : Dt.datetime) : Panel :=
  {| name := nm; t := t0; _sim_ambient := amb; _last_update := t_start;
     sp := 20; band := 0.5; manual_mode := false;
     cold_in := false; hot_in := false;
     cal_sp := ∅; cal_nut := ∅;
     nut_running_until := None; _nut_led_on := false; _last_min := None;
     freq_nut := 1000; manual_nut_on := false;
     csv_path := "./Proceso/Temp_" +:+ nm +:+ ".csv";
     _csv_running := false; _csv_paused := false |}.

(** Field assignments. *)
Definition set_t (v : Q) (p : Panel) : Panel :=
  {| name := name p; t := v; _sim_ambient := _sim_ambient p;
     _last_update := _last_update p; sp := sp p; band := band p;
     manual_mode := manual_mode p; cold_in := cold_in p; hot_in := hot_in p;
     cal_sp := cal_sp p; cal_nut := cal_nut p;
     nut_running_until := nut_running_until p; _nut_led_on := _nut_led_on p;
     _last_min := _last_min p; freq_nut := freq_nut p;
     manual_nut_on := manual_nut_on p; csv_path := csv_path p;
     _csv_running := _csv_running p; _csv_paused := _csv_paused p |}.

Definition set__last_update (v : Dt.datetime) (p : Panel) : Panel :=
  {| name := name p; t := t p; _sim_ambient := _sim_ambient p;
     _last_update := v; sp := sp p; band := band p;
     manual_mode := manual_mode p; cold_in := cold_in p; hot_in := hot_in p;
     cal_sp := cal_sp p; cal_nut := cal_nut p;
     nut_running_until := nut_running_until p; _nut_led_on := _nut_led_on p;
     _last_min := _last_min p; freq_nut := freq_nut p;
     manual_nut_on := manual_nut_on p; csv_path := csv_path p;
     _csv_running := _csv_running p; _csv_paused := _csv_paused p |}.

Definition set_sp (v : Q) (p : Panel) : Panel :=
  {| name := name p; t := t p; _sim_ambient := _sim_ambient p;
     _last_update := _last_update p; sp := v; band := band p;
     manual_mode := manual_mode p; cold_in := cold_in p; hot_in := hot_in p;
     cal_sp := cal_sp p; cal_nut := cal_nut p;
     nut_running_until := nut_running_until p; _nut_led_on := _nut_led_on p;
     _last_min := _last_min p; freq_nut := freq_nut p;
     manual_nut_on := manual_nut_on p; csv_path := csv_path p;
     _csv_running := _csv_running p; _csv_paused := _csv_paused p |}.

Definition set_band (v : Q) (p : Panel) : Panel :=
  {| name := name p; t := t p; _sim_ambient := _sim_ambient p;
     _last_update := _last_update p; sp := sp p; band := v;
     manual_mode := manual_mode p; cold_in := cold_in p; hot_in := hot_in p;
     cal_sp := cal_sp p; cal_nut := cal_nut p;
     nut_running_until := nut_running_until p; _nut_led_on := _nut_led_on p;
     _last_min := _last_min p; freq_nut := freq_nut p;
     manual_nut_on := manual_nut_on p; csv_path := csv_path p;
     _csv_running := _csv_running p; _csv_paused := _csv_paused p |}.

Definition set_manual_mode (v : bool) (p : Panel) : Panel :=
  {| name := name p; t := t p; _sim_ambient := _sim_ambient p;
     _last_update := _last_update p; sp := sp p; band := band p;
     manual_mode := v; cold_in := cold_in p; hot_in := hot_in p;
     cal_sp := cal_sp p; cal_nut := cal_nut p;
     nut_running_until := nut_running_until p; _nut_led_on := _nut_led_on p;
     _last_min := _last_min p; freq_nut := freq_nut p;
     manual_nut_on := manual_nut_on p; csv_path := csv_path p;
     _csv_running := _csv_running p; _csv_paused := _csv_paused p |}.

Definition set_cold_in (v : bool) (p : Panel) : Panel :=
  {| name := name p; t := t p; _sim_ambient := _sim_ambient p;
     _last_update := _last_update p; sp := sp p; band := band p;
     manual_mode := manual_mode p; cold_in := v; hot_in := hot_in p;
     cal_sp := cal_sp p; cal_nut := cal_nut p;
     nut_running_until := nut_running_until p; _nut_led_on := _nut_led_on p;
     _last_min := _last_min p; freq_nut := freq_nut p;
     manual_nut_on := manual_nut_on p; csv_path := csv_path p;
     _csv_running := _csv_running p; _csv_paused := _csv_paused p |}.

Definition set_hot_in (v : bool) (p : Panel) : Panel :=
  {| name := name p; t := t p; _sim_ambient := _sim_ambient p;
     _last_update := _last_update p; sp := sp p; band := band p;
     manual_mode := manual_mode p; cold_in := cold_in p; hot_in := v;
     cal_sp := cal_sp p; cal_nut := cal_nut p;
     nut_running_until := nut_running_until p; _nut_led_on := _nut_led_on p;
     _last_min := _last_min p; freq_nut := freq_nut p;
     manual_nut_on := manual_nut_on p; csv_path := csv_path p;
     _csv_running := _csv_running p; _csv_paused := _csv_paused p |}.

Definition set_cal_sp (v : Cal.calendar) (p : Panel) : Panel :=
  {| name := name p; t := t p; _sim_ambient := _sim_ambient p;
     _last_update := _last_update p; sp := sp p; band := band p;
     manual_mode := manual_mode p; cold_in := cold_in p; hot_in := hot_in p;
     cal_sp := v; cal_nut := cal_nut p;
     nut_running_until := nut_running_until p; _nut_led_on := _nut_led_on p;
     _last_min := _last_min p; freq_nut := freq_nut p;
     manual_nut_on := manual_nut_on p; csv_path := csv_path p;
     _csv_running := _csv_running p; _csv_paused := _csv_paused p |}.

Definition set_cal_nut (v : Cal.calendar) (p : Panel) : Panel :=
  {| name := name p; t := t p; _sim_ambient := _sim_ambient p;
     _last_update := _last_update p; sp := sp p; band := band p;
     manual_mode := manual_mode p; cold_in := cold_in p; hot_in := hot_in p;
     cal_sp := cal_sp p; cal_nut := v;
     nut_running_until := nut_running_until p; _nut_led_on := _nut_led_on p;
     _last_min := _last_min p; freq_nut := freq_nut p;
     manual_nut_on := manual_nut_on p; csv_path := csv_path p;
     _csv_running := _csv_running p; _csv_paused := _csv_paused p |}.

Definition set_nut_running_until (v : option Dt.datetime) (p : Panel) : Panel :=
  {| name := name p; t := t p; _sim_ambient := _sim_ambient p;
     _last_update := _last_update p; sp := sp p; band := band p;
     manual_mode := manual_mode p; cold_in := cold_in p; hot_in := hot_in p;
     cal_sp := cal_sp p; cal_nut := cal_nut p;
     nut_running_until := v; _nut_led_on := _nut_led_on p;
     _last_min := _last_min p; freq_nut := freq_nut p;
     manual_nut_on := manual_nut_on p; csv_path := csv_path p;
     _csv_running := _csv_running p; _csv_paused := _csv_paused p |}.

Definition set__nut_led_on (v : bool) (p : Panel) : Panel :=
  {| name := name p; t := t p; _sim_ambient := _sim_ambient p;
     _last_update := _last_update p; sp := sp p; band := band p;
     manual_mode := manual_mode p; cold_in := cold_in p; hot_in := hot_in p;
     cal_sp := cal_sp p; cal_nut := cal_nut p;
     nut_running_until := nut_running_until p; _nut_led_on := v;
     _last_min := _last_min p; freq_nut := freq_nut p;
     manual_nut_on := manual_nut_on p; csv_path := csv_path p;
     _csv_running := _csv_running p; _csv_paused := _csv_paused p |}.

Definition set__last_min (v : option string) (p : Panel) : Panel :=
  {| name := name p; t := t p; _sim_ambient := _sim_ambient p;
     _last_update := _last_update p; sp := sp p; band := band p;
     manual_mode := manual_mode p; cold_in := cold_in p; hot_in := hot_in p;
     cal_sp := cal_sp p; cal_nut := cal_nut p;
     nut_running_until := nut_running_until p; _nut_led_on := _nut_led_on p;
     _last_min := v; freq_nut := freq_nut p;
     manual_nut_on := manual_nut_on p; csv_path := csv_path p;
     _csv_running := _csv_running p; _csv_paused := _csv_paused p |}.

Definition set_manual_nut_on (v : bool) (p : Panel) : Panel :=
  {| name := name p; t := t p; _sim_ambient := _sim_ambient p;
     _last_update := _last_update p; sp := sp p; band := band p;
     manual_mode := manual_mode p; cold_in := cold_in p; hot_in := hot_in p;
     cal_sp := cal_sp p; cal_nut := cal_nut p;
     nut_running_until := nut_running_until p; _nut_led_on := _nut_led_on p;
     _last_min := _last_min p; freq_nut := freq_nut p;
     manual_nut_on := v; csv_path := csv_path p;
     _csv_running := _csv_running p; _csv_paused := _csv_paused p |}.

Definition set_csv_state (running paused : bool) (p : Panel) : Panel :=
  {| name := name p; t := t p; _sim_ambient := _sim_ambient p;
     _last_update := _last_update p; sp := sp p; band := band p;
     manual_mode := manual_mode p; cold_in := cold_in p; hot_in := hot_in p;
     cal_sp := cal_sp p; cal_nut := cal_nut p;
     nut_running_until := nut_running_until p; _nut_led_on := _nut_led_on p;
     _last_min := _last_min p; freq_nut := freq_nut p;
     manual_nut_on := manual_nut_on p; csv_path := csv_path p;
     _csv_running := running; _csv_paused := paused |}.

(** *** Operator actions *)

Definition _can_force (p : Panel) : bool := manual_mode p.

(** [apply_sp] and [apply_band] with the number parsed from the entry, a
    finite one (the test of line 1076 also lets a nan through, see
    [F64.accepts]); a rejected entry leaves the panel as it is. *)
Definition apply_sp (value : Q) (p : Panel) : Panel := set_sp value p.

Definition apply_band (value : Q) (p : Panel) : Panel :=
  if Py.ltb value 0.05 then p else set_band value p.

Definition forzar_frio (p : Panel) : Panel :=
  if negb (_can_force p) then p
  else set_hot_in false (set_cold_in true p).

Definition forzar_caliente (p : Panel) : Panel :=
  if negb (_can_force p) then p
  else set_cold_in false (set_hot_in true p).

Definition cerrar_todo (p : Panel) : Panel :=
  set_hot_in false (set_cold_in false p).

Definition _apply_nutricion_state (should_run : bool) (p : Panel) : Panel :=
  set__nut_led_on should_run p.

Definition stop_all (p : Panel) : Panel :=
  let p := set_manual_mode true p in
  let p := set_cold_in false p in
  let p := set_hot_in false p in
  let p := set_nut_running_until None p in
  let p := set_manual_nut_on false p in
  _apply_nutricion_state false p.

(** [bool(self.nut_running_until and tnow < self.nut_running_until)]. *)
Definition schedule_active (p : Panel) (tnow : Dt.datetime) : bool :=
  match nut_running_until p with
  | Some until => Dt.ltb tnow until
  | None => false
  end.

Definition toggle_manual_nut (tnow : Dt.datetime) (p : Panel) : Panel :=
  let p := set_manual_nut_on (negb (manual_nut_on p)) p in
  _apply_nutricion_state (schedule_active p tnow || manual_nut_on p) p.

Definition csv_start (p : Panel) : Panel := set_csv_state true false p.
Definition csv_pause (p : Panel) : Panel := set_csv_state false true p.

Definition csv_restart (p : Panel) (fs : Csv.files) : Panel * Csv.files :=
  (set_csv_state false false p,
   if Csv.exists_ fs (csv_path p) then Csv.remove fs (csv_path p) else fs).

(** *** Recording *)

Definition backup_fields : list string :=
  ["timestamp"; "fermentador"; "T"; "SP"; "banda"; "cold"; "hot";
   "nutricion_activa"; "freq_nut"].

Definition int_of_bool (b : bool) : Z := if b then 1%Z else 0%Z.

(** [_csv_write_row]: [ts] is the instant [now_str()] reads, [bpath] the
    path [get_backup_path()] returns. *)
Definition _csv_write_row (p : Panel) (ts : Dt.datetime) (bpath : string)
    (fs : Csv.files) : Csv.files :=
  let row :=
    [Csv.CTime ts; Csv.CStr (name p); Csv.CNum (t p); Csv.CNum (sp p);
     Csv.CNum (band p); Csv.CInt (int_of_bool (cold_in p));
     Csv.CInt (int_of_bool (hot_in p)); Csv.CInt (int_of_bool (_nut_led_on p));
     Csv.CNum (freq_nut p)] in
  let fs :=
    if _csv_running p
    then Csv.write_channel fs (csv_path p) backup_fields row
    else fs in
  Csv.write_backup fs bpath backup_fields row.

(** *** The control loop *)

Definition _simulate_temp (dt_seconds ruido : Q) (p : Panel) : Panel :=
  if Py.leb dt_seconds 0 then p
  else
    let sp_obj := sp p in
    let ambient_pull := (_sim_ambient p - t p) * 0.0008 in
    let ferment_target := Py.max sp_obj (_sim_ambient p + 4) in
    let ferment_heat := (ferment_target - t p) * 0.018 in
    let heating := if hot_in p then 0.22 else 0 in
    let cooling := if cold_in p then - 0.28 else 0 in
    let delta :=
      (ambient_pull + ferment_heat + heating + cooling + ruido) * dt_seconds in
    set_t (Py.max (-5) (Py.min 40 (t p + delta))) p.

(** Lines 1351-1360: the setpoint calendar, outside manual mode. *)
Definition calendar_setpoint (tnow : Dt.datetime) (p : Panel) : Panel :=
  if negb (manual_mode p) then
    match Cal.sp_from_date_calendar (cal_sp p) tnow None with
    | Some sp_val => set_sp sp_val p
    | None => p
    end
  else p.

(** [sum(float(d) for d in doses if float(d) > 0)]. *)
Definition dur_total (doses : list Q) : Q :=
  foldr Qplus 0 (List.filter (fun d => Py.ltb 0 d) doses).

(** Lines 1362-1370: the dosing calendar, once per minute. This is the
    panel that the lines leave when they return; [Dose.dosing_schedule] has
    the OverflowError line 1368 can raise and the stepper call of line
    1369. *)
Definition dosing_schedule (tnow : Dt.datetime) (p : Panel) : Panel :=
  let current_min := Dt.ymd_hhmm tnow in
  if decide (_last_min p = Some current_min) then p
  else
    let doses := Cal.nut_fire_for_minute (cal_nut p) tnow in
    let p :=
      match doses with
      | [] => p
      | _ =>
          let dur_total := dur_total doses in
          if Py.ltb 0 dur_total
          then set_nut_running_until
                 (Some (Dt.add tnow (Dt.timedelta_seconds dur_total))) p
          else p
      end in
    set__last_min (Some current_min) p.

(** Lines 1372-1377: the derived pump state. *)
Definition dosing_state (tnow : Dt.datetime) (p : Panel) : Panel :=
  let '(schedule_active, p) :=
    if schedule_active p tnow then (true, p)
    else (false, set_nut_running_until None p) in
  _apply_nutricion_state (schedule_active || manual_nut_on p) p.

(** Lines 1389-1409: the thermal transition rule. *)
Definition thermal_control (p : Panel) : Panel :=
  if negb (manual_mode p) then
    let sp := sp p in
    let band := Py.max 0.05 (band p) in
    let p :=
      if cold_in p then
        if Py.leb (t p) (sp - band) then set_cold_in false p else p
      else
        if Py.leb (sp + band) (t p) then set_cold_in true p else p in
    let p :=
      if hot_in p then
        if Py.leb (sp + band) (t p) then set_hot_in false p else p
      else
        if Py.leb (t p) (sp - band) then set_hot_in true p else p in
    if negb (cold_in p) && negb (hot_in p) then cerrar_todo p else p
  else p.

(** The transition rule evaluated on a run of temperature readings. *)
Definition thermal_readings (temps : list Q) (p : Panel) : Panel :=
  fold_left (fun p x => thermal_control (set_t x p)) temps p.

(** The relay interlock: cold and hot are not both on. *)
Definition interlock (p : Panel) : Prop := cold_in p && hot_in p = false.

(** [int(self.name[1:]) - 1]. *)
Definition sensor_index (nm : string) : nat :=
  match nm with
  | String _ r => match Py.int r with Some n => Z.to_nat (n - 1) | None => 0%nat end
  | EmptyString => 0%nat
  end.

(** What the environment supplies during one tick. *)
Record tick := {
  tnow : Dt.datetime;
  ruido : Q;
  sim_value : Q;
  w1 : Hw.w1_read;
  csv_now : Dt.datetime
}.

(** What the panel shares with the rest of the program. *)
Record world := {
  hw : Hw.Hardware;
  fs : Csv.files;
  backup_path : string;
  console : list Hw.log_line
}.

(** [update_process]. The display strings and the nutrition history kept by
    [App] are not part of the state. *)
Definition update_process (i : tick) (pw : Panel * world) : Panel * world :=
  let '(p, w) := pw in
  let tnow := tnow i in
  let dt_seconds := Py.max 0.001 (Dt.diff_seconds tnow (_last_update p)) in
  let p := set__last_update tnow p in
  let p := calendar_setpoint tnow p in
  let p := dosing_schedule tnow p in
  let p := dosing_state tnow p in
  let '(p, hw', out) :=
    if Hw.sim (hw w) then (_simulate_temp dt_seconds (ruido i) p, hw w, [])
    else
      let '(v, out, hw') :=
        Hw.read_temp_ds18b20 (hw w) (sensor_index (name p)) (sim_value i) (w1 i) in
      (set_t v p, hw', out) in
  let p := thermal_control p in
  let fs' := _csv_write_row p (csv_now i) (backup_path w) (fs w) in
  (p, {| hw := hw'; fs := fs'; backup_path := backup_path w;
         console := console w ++ out |}).

(** *** Runs of operations on one panel *)

Inductive op :=
  | UpdateProcess (i : tick)
  | ForzarFrio
  | ForzarCaliente
  | CerrarTodo
  | StopAll
  | SetManualMode (b : bool)
  | ApplySp (v : Q)
  | ApplyBand (v : Q)
  | SetCalSp (c : Cal.calendar)
  | SetCalNut (c : Cal.calendar)
  | ToggleManualNut (tnow : Dt.datetime)
  | CsvStart
  | CsvPause
  | CsvRestart.

Definition on_panel (f : Panel -> Panel) (pw : Panel * world) : Panel * world :=
  (f (fst pw), snd pw).

Definition step (o : op) (pw : Panel * world) : Panel * world :=
  match o with
  | UpdateProcess i => update_process i pw
  | ForzarFrio => on_panel forzar_frio pw
  | ForzarCaliente => on_panel forzar_caliente pw
  | CerrarTodo => on_panel cerrar_todo pw
  | StopAll => on_panel stop_all pw
  | SetManualMode b => on_panel (set_manual_mode b) pw
  | ApplySp v => on_panel (apply_sp v) pw
  | ApplyBand v => on_panel (apply_band v) pw
  | SetCalSp c => on_panel (set_cal_sp c) pw
  | SetCalNut c => on_panel (set_cal_nut c) pw
  | ToggleManualNut tnow => on_panel (toggle_manual_nut tnow) pw
  | CsvStart => on_panel csv_start pw
  | CsvPause => on_panel csv_pause pw
  | CsvRestart =>
      let '(p, w) := pw in
      let '(p', fs') := csv_restart p (fs w) in
      (p', {| hw := hw w; fs := fs'; backup_path := backup_path w;
              console := console w |})
  end.

(** The operations are applied from the head of the list. *)
Definition run (ops : list op) (pw : Panel * world) : Panel * world :=
  fold_left (fun s o => step o s) ops pw.


End Panel.

(** ** Flow sensor: reporting *)

Module Sensor.

Local Open Scope Q_scope.

(** [flow_to_rate_g_l_h], with the two module constants as parameters. *)
Definition flow_to_rate_g_l_h (CO2_DENSITY_G_M3 BROTH_VOLUME_L flow_sccm : Q) : Q :=
  if Py.leb CO2_DENSITY_G_M3 0 || Py.leb BROTH_VOLUME_L 0 then 0
  else
    let flow_m3h := flow_sccm * 0.00006 in
    (flow_m3h * CO2_DENSITY_G_M3) / BROTH_VOLUME_L.

(** [FlowPlotWindow.refresh_countdown]: the text for a whole number of
    seconds [total] left, as hours, minutes and seconds. *)
Definition countdown (total : Z) : Z * Z * Z :=
  (total / 3600, total mod 3600 / 60, total mod 60)%Z.

End Sensor.

(** ** Recording: export and the shape of the files *)

Module Rec.

(** [csv_export]. [dst] is the path [os.path.join(dst_dir, basename(src))],
    [None] when the folder dialog is cancelled. The destination is opened
    for writing, which empties it, before the source is read. The result
    tells whether the export was done. *)
Definition csv_export (p : Panel.Panel) (fs : Csv.files) (dst : option string)
    : Csv.files * bool :=
  if Panel._csv_running p then (fs, false)
  else
    let src := Panel.csv_path p in
    if negb (Csv.exists_ fs src) then (fs, false)
    else
      match dst with
      | None => (fs, false)
      | Some dst =>
          let fs1 := <[dst := []]> fs in
          let content := match fs1 !! src with Some ls => ls | None => [] end in
          (<[dst := content]> fs1, true)
      end.


(** A file that starts with its header and has no other header line. *)
Definition well_headed (ls : list Csv.line) : Prop :=
  match ls with
  | Csv.Header _ :: rows => forallb (fun l => negb (Csv.is_header l)) rows = true
  | _ => False
  end.





End Rec.

(** ** Calendar editing and import *)

Module Dialog.

(** [a == b] on event dictionaries: equal time strings, equal numbers. *)
Definition event_eqb (a b : Cal.event) : bool :=
  String.eqb (Cal.time a) (Cal.time b) && Qeq_bool (Cal.value a) (Cal.value b).

(** [l.index(old)]: the first position holding an equal element. *)
Fixpoint index (old : Cal.event) (l : list Cal.event) : option nat :=
  match l with
  | [] => None
  | x :: r => if event_eqb x old then Some 0%nat else S <$> index old r
  end.

(** [l.remove(old)]: drops the first equal element. *)
Fixpoint remove (old : Cal.event) (l : list Cal.event) : list Cal.event :=
  match l with
  | [] => []
  | x :: r => if event_eqb x old then r else x :: remove old r
  end.

(** [a < b] on dates. *)
Definition date_ltb (a b : Dt.date) : bool :=
  Dt.lex_ltb [Dt.year a; Dt.month a; Dt.day a] [Dt.year b; Dt.month b; Dt.day b].

(** Python's [a or b] on values that are a string or [None]. *)
Definition py_or (a b : option string) : option string :=
  match a with
  | Some s => if Cal.truthy s then a else b
  | None => b
  end.

(** A row of [csv.DictReader], as [_load_calendar_file] reads them from a
    CSV or text file: column name to text. The records of an Excel file,
    whose cells may be numbers or dates, are not rows of this type. *)
Abbreviation row := (gmap string string).

Section Parsers.

(** [float(text)] and the [strptime] loop of [_normalize_date]; [None] when
    they raise, resp. when no format matches. *)
Variable float : string -> option Q.
Variable _normalize_date : string -> option Dt.date.

(** [DateCalendarDialog.add_event] on the dialog's [data]. *)
Definition add_event (data : Cal.calendar) (selected_date today : Dt.date)
    (time_var val_var : string) : Cal.calendar :=
  if date_ltb selected_date today then data
  else
    let t := Py.strip time_var in
    if negb (Cal.hhmm_ok t) then data
    else
      match float (Py.strip val_var) with
      | None => data
      | Some val =>
          let key := Dt.ymd selected_date in
          <[key := Cal.get data key ++ [{| Cal.time := t; Cal.value := val |}]]>
            data
      end.

(** [edit_event]; [sel] is the selected line of the list box, which shows
    the day sorted by time. An index outside the list raises and leaves
    [data] as it is. *)
Definition edit_event (data : Cal.calendar) (selected_date : Dt.date)
    (sel : option nat) (time_var val_var : string) : Cal.calendar :=
  match sel with
  | None => data
  | Some idx =>
      let key := Dt.ymd selected_date in
      let flist := Cal.sorted (Cal.get data key) in
      match flist with
      | [] => data
      | _ =>
          let t := Py.strip time_var in
          if negb (Cal.hhmm_ok t) then data
          else
            match float (Py.strip val_var) with
            | None => data
            | Some val =>
                match flist !! idx with
                | None => data
                | Some old =>
                    match index old (Cal.get data key) with
                    | None => data
                    | Some orig =>
                        <[key := <[orig := {| Cal.time := t; Cal.value := val |}]>
                                   (Cal.get data key)]> data
                    end
                end
            end
      end
  end.

(** [del_event]. *)
Definition del_event (data : Cal.calendar) (selected_date : Dt.date)
    (sel : option nat) : Cal.calendar :=
  match sel with
  | None => data
  | Some idx =>
      let key := Dt.ymd selected_date in
      let flist := Cal.sorted (Cal.get data key) in
      match flist with
      | [] => data
      | _ =>
          match flist !! idx with
          | None => data
          | Some old =>
              match remove old (Cal.get data key) with
              | [] => delete key data
              | l => <[key := l]> data
              end
          end
      end
  end.

(** [clear_day]; [confirmed] is the answer to the question box. *)
Definition clear_day (data : Cal.calendar) (selected_date : Dt.date)
    (confirmed : bool) : Cal.calendar :=
  let key := Dt.ymd selected_date in
  match Cal.get data key with
  | [] => data
  | _ => if confirmed then delete key data else data
  end.

(** The checks of one row of [_events_from_rows]: the date key and the
    event the row contributes, [None] when the row is skipped. *)
Definition row_event (r : row) : option (string * Cal.event) :=
  let date_raw := py_or (r !! "date") (py_or (r !! "fecha") (py_or (r !! "dia") (r !! "d"))) in
  let time_raw := py_or (r !! "time") (py_or (r !! "hora") (r !! "t")) in
  let val_raw := py_or (r !! "value") (py_or (r !! "valor") (r !! "v")) in
  match date_raw, time_raw, val_raw with
  | Some d, Some tm, Some v =>
      if negb (Cal.truthy d) || negb (Cal.truthy tm) then None
      else
        match _normalize_date d with
        | None => None
        | Some date_obj =>
            let hhmm := Py.strip tm in
            if negb (Cal.hhmm_ok hhmm) then None
            else
              match float v with
              | None => None
              | Some val =>
                  Some (Dt.ymd date_obj, {| Cal.time := hhmm; Cal.value := val |})
              end
        end
  | _, _, _ => None
  end.

(** [_events_from_rows]. *)
Definition _events_from_rows (rows : list row) : Cal.calendar :=
  fold_left
    (fun events r =>
       match row_event r with
       | None => events
       | Some (key, e) => <[key := Cal.get events key ++ [e]]> events
       end)
    rows ∅.

(** [import_file]: [rows] are the rows of the chosen file, [None] when no
    file is chosen or it cannot be read. An import without a valid row is
    dropped. *)
Definition import_file (data : Cal.calendar) (rows : option (list row))
    : Cal.calendar :=
  match rows with
  | None => data
  | Some rows =>
      let imported := _events_from_rows rows in
      if decide (imported = ∅) then data else imported
  end.

(** The operator's actions in the dialog. *)
Inductive action :=
  | Select (d : Dt.date)
  | Add (time_var val_var : string)
  | Edit (sel : option nat) (time_var val_var : string)
  | Del (sel : option nat)
  | Clear (confirmed : bool)
  | Import (rows : option (list row)).

(** One step of the dialog state, its data and the selected date.
    [select_date] refuses a date before today. *)
Definition act (today : Dt.date) (a : action)
    (st : Cal.calendar * Dt.date) : Cal.calendar * Dt.date :=
  let '(data, selected_date) := st in
  match a with
  | Select d => if date_ltb d today then st else (data, d)
  | Add tv vv => (add_event data selected_date today tv vv, selected_date)
  | Edit sel tv vv => (edit_event data selected_date sel tv vv, selected_date)
  | Del sel => (del_event data selected_date sel, selected_date)
  | Clear c => (clear_day data selected_date c, selected_date)
  | Import rows => (import_file data rows, selected_date)
  end.

Definition session (today : Dt.date) (actions : list action)
    (st : Cal.calendar * Dt.date) : Cal.calendar * Dt.date :=
  fold_left (fun st a => act today a st) actions st.

End Parsers.

(** [prev_month] and [next_month] on the displayed (year, month). *)
Definition prev_month (v : Z * Z) : Z * Z :=
  let '(y, m) := v in if (m =? 1)%Z then (y - 1, 12)%Z else (y, m - 1)%Z.

Definition next_month (v : Z * Z) : Z * Z :=
  let '(y, m) := v in if (m =? 12)%Z then (y + 1, 1)%Z else (y, m + 1)%Z.

(** No day is stored with an empty list of events. *)
Definition no_empty_day (c : Cal.calendar) : Prop :=
  map_Forall (fun _ l => l <> []) c.

(** Equality test on the results of a comparison. *)
Definition comparison_eqb (a b : comparison) : bool :=
  match a, b with
  | Eq, Eq | Lt, Lt | Gt, Gt => true
  | _, _ => false
  end.

(** An event whose time passed [hhmm_ok]. *)
Definition ok_event (e : Cal.event) : Prop := Cal.hhmm_ok (Cal.time e) = true.

(** What the dialog and the import keep true of a calendar. *)
Definition well_formed (c : Cal.calendar) : Prop :=
  Cal.times_ok c = true /\ no_empty_day c.

(** Stand-ins for the two parsers in the examples: whole numbers only, and
    every date text read as day D. *)
Definition ex_float (s : string) : option Q := inject_Z <$> Py.int s.
Definition ex_date (s : string) : option Dt.date :=
  Some {| Dt.year := 2024; Dt.month := 3; Dt.day := 10 |}.

End Dialog.

(** ** Hardware layer: relays and stepper *)

Module Gpio.

(** The state of one [pwm] entry of [Hardware.pwms]. *)
Record pwm := {
  pul : Z;
  dir : Z;
  frequency : Z;
  running : bool
}.

(** The GPIO side of [Hardware]: [gpio] tells whether the handle is set,
    [pins] holds the level last written to each output ([true] is HIGH),
    [printed] the lines of [_gpio_fallback]. *)
Record Hardware := {
  sim : bool;
  sim_gpio : bool;
  sim_gpio_reason : string;
  gpio : bool;
  pins : gmap Z bool;
  pwms : gmap string pwm;
  printed : list string
}.

Definition HIGH : bool := true.
Definition LOW : bool := false.

(** The guard [if self.sim or self.sim_gpio or not self.gpio: return]. *)
Definition disabled (hw : Hardware) : bool :=
  sim hw || sim_gpio hw || negb (gpio hw).

Definition _gpio_fallback (hw : Hardware) (exc : string) : Hardware :=
  if sim_gpio hw then hw
  else
    let reason := "GPIO fallback: " +:+ exc in
    {| sim := sim hw; sim_gpio := true; sim_gpio_reason := reason;
       gpio := false; pins := pins hw; pwms := ∅;
       printed := printed hw ++ ["[HW] " +:+ reason] |}.

Definition output (hw : Hardware) (pin : Z) (level : bool) : Hardware :=
  {| sim := sim hw; sim_gpio := sim_gpio hw;
     sim_gpio_reason := sim_gpio_reason hw; gpio := gpio hw;
     pins := <[pin := level]> (pins hw); pwms := pwms hw; printed := printed hw |}.

Definition set_pwm (hw : Hardware) (name : string) (e : pwm) : Hardware :=
  {| sim := sim hw; sim_gpio := sim_gpio hw;
     sim_gpio_reason := sim_gpio_reason hw; gpio := gpio hw;
     pins := pins hw; pwms := <[name := e]> (pwms hw); printed := printed hw |}.

(** In each operation [raises] tells whether a GPIO call of the [try] block
    raises, with its message; a call that raises writes nothing. *)
Definition setup_relay (hw : Hardware) (pin : Z) (raises : option string) : Hardware :=
  if disabled hw then hw
  else match raises with
       | Some e => _gpio_fallback hw e
       | None => output hw pin HIGH
       end.

Definition relay_on (hw : Hardware) (pin : Z) (raises : option string) : Hardware :=
  if disabled hw then hw
  else match raises with
       | Some e => _gpio_fallback hw e
       | None => output hw pin LOW
       end.

Definition relay_off (hw : Hardware) (pin : Z) (raises : option string) : Hardware :=
  if disabled hw then hw
  else match raises with
       | Some e => _gpio_fallback hw e
       | None => output hw pin HIGH
       end.

(** [max(1, int(freq))]. *)
Definition pwm_frequency (freq : Q) : Z :=
  Z.max 1 (Z.quot (Qnum freq) (Z.pos (Qden freq))).

(** The [try] block of [setup_stepper] makes four GPIO calls; [raises] gives
    the position (from 0) of the one that raises: from the third on, the
    direction pin has been written. *)
Definition setup_stepper (hw : Hardware) (name : string) (pul_pin dir_pin : Z)
    (freq : Q) (raises : option (nat * string)) : Hardware :=
  if disabled hw then hw
  else match raises with
       | Some (i, e) =>
           if (i <? 2)%nat then _gpio_fallback hw e
           else _gpio_fallback (output hw dir_pin LOW) e
       | None =>
           set_pwm (output hw dir_pin LOW) name
             {| pul := pul_pin; dir := dir_pin;
                frequency := pwm_frequency freq; running := false |}
       end.

Definition start_stepper (hw : Hardware) (name : string) (freq : Q)
    (raises : option string) : Hardware :=
  if disabled hw then hw
  else match pwms hw !! name with
       | None => hw
       | Some e =>
           match raises with
           | Some exc => _gpio_fallback hw exc
           | None =>
               set_pwm hw name
                 {| pul := pul e; dir := dir e;
                    frequency := pwm_frequency freq; running := true |}
           end
       end.

Definition stop_stepper (hw : Hardware) (name : string)
    (raises : option string) : Hardware :=
  if disabled hw then hw
  else match pwms hw !! name with
       | None => hw
       | Some e =>
           match raises with
           | Some exc => _gpio_fallback hw exc
           | None =>
               output
                 (set_pwm hw name
                    {| pul := pul e; dir := dir e;
                       frequency := frequency e; running := false |})
                 (dir e) LOW
           end
       end.

(** [LightFermenterPanel._apply_relays] for the actuator flags of a panel. *)
Definition _apply_relays (cold_in hot_in : bool) (relay_cold relay_hot : Z)
    (hw : Hardware) (raises_cold raises_hot : option string) : Hardware :=
  let hw :=
    if cold_in then relay_on hw relay_cold raises_cold
    else relay_off hw relay_cold raises_cold in
  if hot_in then relay_on hw relay_hot raises_hot
  else relay_off hw relay_hot raises_hot.

(** Calls on the hardware layer, for runs of them. *)
Inductive call :=
  | SetupRelay (pin : Z) (raises : option string)
  | RelayOn (pin : Z) (raises : option string)
  | RelayOff (pin : Z) (raises : option string)
  | SetupStepper (name : string) (pul_pin dir_pin : Z) (freq : Q)
      (raises : option (nat * string))
  | StartStepper (name : string) (freq : Q) (raises : option string)
  | StopStepper (name : string) (raises : option string).

Definition perform (c : call) (hw : Hardware) : Hardware :=
  match c with
  | SetupRelay pin r => setup_relay hw pin r
  | RelayOn pin r => relay_on hw pin r
  | RelayOff pin r => relay_off hw pin r
  | SetupStepper name p d f r => setup_stepper hw name p d f r
  | StartStepper name f r => start_stepper hw name f r
  | StopStepper name r => stop_stepper hw name r
  end.

Definition perform_all (cs : list call) (hw : Hardware) : Hardware :=
  fold_left (fun hw c => perform c hw) cs hw.

(** What one call can do to the printed lines: nothing, or one fallback,
    which switches the GPIO off and forgets the pwms. *)
Definition quiet (hw hw' : Hardware) : Prop :=
  printed hw' = printed hw /\ disabled hw' = disabled hw.

Definition fell_back (hw hw' : Hardware) : Prop :=
  exists e, printed hw' = printed hw ++ ["[HW] GPIO fallback: " +:+ e]
            /\ sim_gpio_reason hw' = "GPIO fallback: " +:+ e
            /\ disabled hw' = true /\ gpio hw' = false /\ pwms hw' = ∅.

Definition frequencies_ok (hw : Hardware) : Prop :=
  map_Forall (fun _ e => (1 <= frequency e)%Z) (pwms hw).

(** A real board right after [GPIO.setmode]. *)
Definition board : Hardware :=
  {| sim := false; sim_gpio := false; sim_gpio_reason := EmptyString; gpio := true;
     pins := ∅; pwms := ∅; printed := [] |}.

End Gpio.

(** ** Nutrition history kept by [App] *)

Module Nut.

(** The entries of [nut_samples] and [nut_last_state] of one fermenter. *)
Record history := {
  nut_samples : list (Dt.datetime * Z);
  nut_last_state : option Z
}.

Definition empty : history := {| nut_samples := []; nut_last_state := None |}.

(** [_record_nut_sample] for one fermenter. *)
Definition _record_nut_sample (h : history) (ts : Dt.datetime) (state : bool)
    : history :=
  let state_int := if state then 1%Z else 0%Z in
  let h :=
    match nut_last_state h with
    | Some last_state =>
        if (state_int =? last_state)%Z then h
        else {| nut_samples := nut_samples h ++ [(ts, state_int)];
                nut_last_state := Some state_int |}
    | None =>
        {| nut_samples := nut_samples h ++ [(ts, state_int)];
           nut_last_state := Some state_int |}
    end in
  match nut_samples h with
  | [] => h
  | first :: _ =>
      let cutoff := Dt.sub ts (Dt.timedelta_hours Flow.MAX_FLOW_HISTORY_HOURS) in
      if Dt.ltb (fst first) cutoff
      then {| nut_samples :=
                List.filter (fun row => Dt.leb cutoff (fst row)) (nut_samples h);
              nut_last_state := nut_last_state h |}
      else h
  end.

Definition record_all (calls : list (Dt.datetime * bool)) (h : history) : history :=
  fold_left (fun h c => _record_nut_sample h (fst c) (snd c)) calls h.

(** No two neighbouring values are equal. *)
Fixpoint alternating (l : list Z) : Prop :=
  match l with
  | a :: (b :: _) as r => a <> b /\ alternating r
  | _ => True
  end.

(** The instants do not go back in time. *)
Fixpoint in_time_order (l : list Dt.datetime) : Prop :=
  match l with
  | a :: (b :: _) as r => Dt.leb a b = true /\ in_time_order r
  | _ => True
  end.

(** [t] lies between the cutoff of a call at [ts] and [ts]. *)
Definition within (ts t : Dt.datetime) : Prop :=
  Dt.leb (Dt.sub ts (Dt.timedelta_hours Flow.MAX_FLOW_HISTORY_HOURS)) t = true
  /\ Dt.leb t ts = true.

(** The rows are in time order and are the end of a sequence of changes of
    state whose last one is the state remembered. *)
Definition well_kept (h : history) : Prop :=
  in_time_order (map fst (nut_samples h))
  /\ exists pre : list Z,
       alternating (pre ++ map snd (nut_samples h))
       /\ last (pre ++ map snd (nut_samples h)) = nut_last_state h.

End Nut.

(** ** Plot window: the series that are drawn *)

Module Plot.

(** [datetime.__eq__]: all the fields agree. *)
Fixpoint fields_eqb (a b : list Z) : bool :=
  match a, b with
  | [], [] => true
  | x :: a', y :: b' => (x =? y)%Z && fields_eqb a' b'
  | _, _ => false
  end.

Definition eqb (t1 t2 : Dt.datetime) : bool :=
  fields_eqb (Dt.fields t1) (Dt.fields t2).

(** [list.sort(key=...)] with a [datetime] key: a stable sort, written as the
    insertion of each element, from the last one, before the first element
    that is not smaller. *)
Fixpoint insort {A : Type} (key : A -> Dt.datetime) (e : A) (l : list A) : list A :=
  match l with
  | [] => [e]
  | x :: r => if Dt.leb (key e) (key x) then e :: l else x :: insort key e r
  end.

Definition sort_by {A : Type} (key : A -> Dt.datetime) (l : list A) : list A :=
  foldr (insort key) [] l.

(** One turn of the loop that builds [dedup] in [_combined_nut_samples]. *)
Definition dedup_step (dedup : list (Dt.datetime * Z)) (row : Dt.datetime * Z)
    : list (Dt.datetime * Z) :=
  match last dedup with
  | Some l =>
      if eqb (fst row) (fst l) then List.removelast dedup ++ [row]
      else dedup ++ [row]
  | None => dedup ++ [row]
  end.

(** [FlowPlotWindow._combined_nut_samples]: [nut_cache] is the window's
    cache, [samples] the history [App.nut_samples] of the fermenter and
    [current_state] the result of [_current_nut_state]. *)
Definition _combined_nut_samples (nut_cache samples : list (Dt.datetime * Z))
    (current_state : option Z) (left right : Dt.datetime)
    : list (Dt.datetime * Z) :=
  let points :=
    List.filter (fun row => Dt.leb left (fst row) && Dt.leb (fst row) right)
      (nut_cache ++ samples) in
  let points :=
    match points with
    | [] => points
    | _ :: _ => fold_left dedup_step (sort_by fst points) []
    end in
  match current_state with
  | Some s =>
      match last points with
      | None => points ++ [(right, s)]
      | Some l => if Dt.ltb (fst l) right then points ++ [(right, s)] else points
      end
  | None => points
  end.

(** A row as the plot window handles it: instant, flow, current, voltage,
    status. The rows of [App.flow_samples] carry a current and a voltage,
    the rows built from the cache carry [None] for both. *)
Definition flow_row : Type := Dt.datetime * Q * option Q * option Q * string.

Definition row_ts (r : flow_row) : Dt.datetime :=
  match r with (ts, _, _, _, _) => ts end.

(** [FlowPlotWindow._combined_flow_samples]. *)
Definition _combined_flow_samples (flow_cache : list (Dt.datetime * Q))
    (samples : list flow_row) : list flow_row :=
  match flow_cache with
  | [] => samples
  | _ :: _ =>
      let sample_ts := map row_ts samples in
      let combined :=
        map (fun c => (fst c, snd c, None, None, "BACKUP"))
          (List.filter (fun c => negb (existsb (eqb (fst c)) sample_ts)) flow_cache) in
      sort_by row_ts (combined ++ samples)
  end.

(** Each instant is before the next one. *)
Fixpoint strictly_increasing (l : list Dt.datetime) : Prop :=
  match l with
  | a :: (b :: _) as r => Dt.ltb a b = true /\ strictly_increasing r
  | _ => True
  end.

End Plot.

(** ** The values a [datetime] can take *)

Module Clock.

(** The field ranges [datetime] enforces (without the upper bound on the
    year). *)
Definition date_ok (d : Dt.date) : bool :=
  (1 <=? Dt.year d)%Z
  && (1 <=? Dt.month d)%Z && (Dt.month d <=? 12)%Z
  && (1 <=? Dt.day d)%Z
  && (Dt.day d <=? Dt.days_in_month (Dt.is_leap (Dt.year d)) (Dt.month d))%Z.

Definition valid (t : Dt.datetime) : bool :=
  date_ok (Dt.dt_date t)
  && (0 <=? Dt.hour t)%Z && (Dt.hour t <? 24)%Z
  && (0 <=? Dt.minute t)%Z && (Dt.minute t <? 60)%Z
  && (0 <=? Dt.second t)%Z && (Dt.second t <? 60)%Z
  && (0 <=? Dt.microsecond t)%Z && (Dt.microsecond t <? 1000000)%Z.

(** Month and day of the day numbered [n] (from 0) of a year, as the last
    part of [Dt.fromordinal] computes them. *)
Definition month_day (leapyear : bool) (n : Z) : Z * Z :=
  let m := Z.shiftr (n + 50) 5 in
  let preceding :=
    (nth (Z.to_nat m) Dt.days_before_month_table 0
     + (if (2 <? m) && leapyear then 1 else 0))%Z in
  if (n <? preceding)%Z then
    let m' := (m - 1)%Z in
    (m', n - (preceding - Dt.days_in_month leapyear m') + 1)%Z
  else (m, n - preceding + 1)%Z.

(** [days_before_month] with the leap flag given. *)
Definition before_month (leap : bool) (m : Z) : Z :=
  (nth (Z.to_nat m) Dt.days_before_month_table 0
   + (if (2 <? m) && leap then 1 else 0))%Z.

(** A check of [f] on [n], [n + 1], ... ([fuel] values). *)
Fixpoint all_from (fuel : nat) (n : Z) (f : Z -> bool) : bool :=
  match fuel with
  | O => true
  | S k => f n && all_from k (n + 1)%Z f
  end.

Definition month_day_ok (leap : bool) (n : Z) : bool :=
  let '(m, d) := month_day leap n in
  (1 <=? m)%Z && (m <=? 12)%Z && (1 <=? d)%Z
  && (d <=? Dt.days_in_month leap m)%Z
  && (before_month leap m + d =? n + 1)%Z.

Definition month_step_ok (leap : bool) (m : Z) : bool :=
  (before_month leap m + Dt.days_in_month leap m =? before_month leap (m + 1))%Z
  || (m =? 12)%Z.

End Clock.

(** ** Flow sampling schedule *)

Module Sampling.

(** [App._flow_tick] for one fermenter: [reading] is what
    [reader.read_voltage()] gives if the sample is taken. *)
Definition _flow_tick (FLOW_MIN_SCCM FLOW_MAX_SCCM : Q) (c : Flow.channel)
    (ts : Dt.datetime) (reading : option Q) : Flow.channel :=
  match Flow.flow_next_sample c with
  | None => Flow._flow_take_sample FLOW_MIN_SCCM FLOW_MAX_SCCM c ts reading
  | Some next_ts =>
      if Dt.leb next_ts ts
      then Flow._flow_take_sample FLOW_MIN_SCCM FLOW_MAX_SCCM c ts reading
      else c
  end.

Definition run (FLOW_MIN_SCCM FLOW_MAX_SCCM : Q)
    (ticks : list (Dt.datetime * option Q)) (c : Flow.channel) : Flow.channel :=
  fold_left (fun c t => _flow_tick FLOW_MIN_SCCM FLOW_MAX_SCCM c (fst t) (snd t))
    ticks c.

(** The channel as [App.__init__] leaves it. *)
Definition start (shunt_ohms : Q) (period : Z) : Flow.channel :=
  {| Flow.shunt_ohms := shunt_ohms; Flow.flow_sample_period := period;
     Flow.flow_samples := []; Flow.flow_next_sample := None |}.

(** Each instant is at least [delta] after the one before. *)
Fixpoint spaced (delta : Z) (l : list Dt.datetime) : Prop :=
  match l with
  | a :: (b :: _) as r => Dt.leb (Dt.add a delta) b = true /\ spaced delta r
  | _ => True
  end.

(** What the schedule keeps between two ticks, with the instants counted
    in microseconds. *)
Definition on_schedule (delta : Z) (c : Flow.channel) : Prop :=
  Forall (fun s => Clock.valid (Flow.s_ts s) = true) (Flow.flow_samples c)
  /\ spaced delta (map Flow.s_ts (Flow.flow_samples c))
  /\ Nut.in_time_order (map Flow.s_ts (Flow.flow_samples c))
  /\ (forall next, Flow.flow_next_sample c = Some next -> Clock.valid next = true)
  /\ (forall s, In s (Flow.flow_samples c) ->
        exists next, Flow.flow_next_sample c = Some next
                     /\ (Dt.to_us (Flow.s_ts s) + delta <= Dt.to_us next)%Z).

End Sampling.

(** ** Dosing with its error path and its stepper calls *)

Module Dose.

Import Panel.

(** A float as the dosing code can meet it: a finite number, an infinity or
    a nan (the dialog and the import accept the texts [inf] and [nan]). *)
Inductive value := Num (q : Q) | PosInf | NegInf | NaN.

Inductive exn := OverflowError | ValueError.

(** A call on the stepper of the panel. *)
Inductive request :=
  | StartStepper (name : string) (freq : Q)
  | StopStepper (name : string).

(** [float(d) > 0]. *)
Definition positive (d : value) : bool :=
  match d with
  | Num q => Py.ltb 0 q
  | PosInf => true
  | NegInf | NaN => false
  end.

(** Float addition. *)
Definition plus (a b : value) : value :=
  match a, b with
  | Num x, Num y => Num (x + y)
  | NaN, _ | _, NaN => NaN
  | PosInf, NegInf | NegInf, PosInf => NaN
  | PosInf, _ | _, PosInf => PosInf
  | NegInf, _ | _, NegInf => NegInf
  end.

(** [sum(float(d) for d in doses if float(d) > 0)]. *)
Definition dur_total (doses : list value) : value :=
  foldr plus (Num 0) (List.filter positive doses).

(** [date.max.toordinal()]. *)
Definition max_ordinal : Z :=
  Dt.toordinal {| Dt.year := 9999; Dt.month := 12; Dt.day := 31 |}.

(** [dt.timedelta(seconds=s)], in microseconds: an infinity and more than
    999999999 days raise OverflowError, a nan raises ValueError. *)
Definition timedelta (s : value) : exn + Z :=
  match s with
  | Num q =>
      let us := Dt.timedelta_seconds q in
      let days := (us / Dt.us_per_day)%Z in
      if (-999999999 <=? days)%Z && (days <=? 999999999)%Z then inr us
      else inl OverflowError
  | PosInf | NegInf => inl OverflowError
  | NaN => inl ValueError
  end.

(** [t + delta] on a [datetime]: OverflowError when the day of the result
    is not within 0001-01-01 .. 9999-12-31. *)
Definition add (t : Dt.datetime) (delta : Z) : exn + Dt.datetime :=
  let days := ((Dt.to_us t + delta) / Dt.us_per_day)%Z in
  if (1 <=? days)%Z && (days <=? max_ordinal)%Z then inr (Dt.add t delta)
  else inl OverflowError.

(** [tnow + dt.timedelta(seconds=dur_total)] of line 1368. *)
Definition deadline (tnow : Dt.datetime) (total : value) : exn + Dt.datetime :=
  match timedelta total with
  | inl e => inl e
  | inr delta => add tnow delta
  end.

(** What a piece of the tick does: it returns, or an exception leaves it;
    either way with the panel as it is then and the stepper calls made. *)
Inductive outcome :=
  | Returns (p : Panel) (calls : list request)
  | Raises (e : exn) (p : Panel) (calls : list request).

(** Lines 1364-1369, for the list [doses] that [nut_fire_for_minute]
    returned. Nothing catches the exception of line 1368. *)
Definition fire (tnow : Dt.datetime) (doses : list value) (p : Panel) : outcome :=
  match doses with
  | [] => Returns p []
  | _ :: _ =>
      let total := dur_total doses in
      if positive total then
        match deadline tnow total with
        | inl e => Raises e p []
        | inr until =>
            Returns (set_nut_running_until (Some until) p)
              [StartStepper (name p) (freq_nut p)]
        end
      else Returns p []
  end.

(** Lines 1362-1370. The calendar of the model holds finite values. *)
Definition dosing_schedule (tnow : Dt.datetime) (p : Panel) : outcome :=
  let current_min := Dt.ymd_hhmm tnow in
  if decide (_last_min p = Some current_min) then Returns p []
  else
    match fire tnow (map Num (Cal.nut_fire_for_minute (cal_nut p) tnow)) p with
    | Returns p calls => Returns (set__last_min (Some current_min) p) calls
    | Raises e p calls => Raises e p calls
    end.

(** [_apply_nutricion_state] with its calls on the stepper. *)
Definition _apply_nutricion_state (should_run : bool) (p : Panel)
    : Panel * list request :=
  let calls :=
    if should_run && negb (_nut_led_on p)
    then [StartStepper (name p) (freq_nut p)]
    else if negb should_run && _nut_led_on p then [StopStepper (name p)]
    else [] in
  (Panel._apply_nutricion_state should_run p, calls).

(** Lines 1372-1377. *)
Definition dosing_state (tnow : Dt.datetime) (p : Panel) : Panel * list request :=
  let '(schedule_active, p) :=
    if schedule_active p tnow then (true, p)
    else (false, set_nut_running_until None p) in
  _apply_nutricion_state (schedule_active || manual_nut_on p) p.

(** Lines 1362-1377: the dosing part of a tick. *)
Definition dosing (tnow : Dt.datetime) (p : Panel) : outcome :=
  match dosing_schedule tnow p with
  | Returns p calls =>
      let '(p, calls') := dosing_state tnow p in Returns p (calls ++ calls')
  | Raises e p calls => Raises e p calls
  end.

End Dose.

(** ** The flow conversion in binary64 *)

Module F64.

Import Stdlib.Floats.Floats.

Local Open Scope float_scope.

(** [min(a, b)] and [max(a, b)] on floats: the first argument unless the
    second is strictly smaller, resp. strictly larger; a comparison with a
    nan is false. *)
Definition min (a b : float) : float := if b <? a then b else a.
Definition max (a b : float) : float := if a <? b then b else a.

(** [current_to_flow_sccm] with the operations of binary64, each rounded to
    nearest, as the program computes it. *)
Definition current_to_flow_sccm (FLOW_MIN_SCCM FLOW_MAX_SCCM current_ma : float)
    : float :=
  if FLOW_MAX_SCCM <=? FLOW_MIN_SCCM then 0
  else
    let current_ma := max 4 (min 20 current_ma) in
    let span := 16 in
    FLOW_MIN_SCCM + (current_ma - 4) * (FLOW_MAX_SCCM - FLOW_MIN_SCCM) / span.

Definition f_0_05 : float := 0x1.999999999999ap-5.

(** The test of line 1076 of [_apply_entry_float]: an entry is refused when
    [value < min_val], which is false of a nan. *)
Definition accepts (min_val value : float) : bool := negb (value <? min_val).

(** [max(0.05, band)] of line 1391, the band the thermal rule uses. *)
Definition effective_band (band : float) : float := max f_0_05 band.

End F64.

(** ** Definitions that follow the wording of the specification

    They are compared with the code in Part II. *)

Module Spec.

Local Open Scope Q_scope.

(** "clamps [current_ma] to [[4.0, 20.0]]". *)
Definition clamp (lo hi x : Q) : Q :=
  if Qlt_le_dec x lo then lo else if Qlt_le_dec hi x then hi else x.

(** "if [flow_max <= flow_min], returns 0. Otherwise clamps [current_ma] to
    [[4.0, 20.0]] and linearly interpolates". *)
Definition current_to_flow (current_ma flow_min flow_max : Q) : Q :=
  if Qlt_le_dec flow_min flow_max
  then flow_min + (clamp 4 20 current_ma - 4) * (flow_max - flow_min) / 16
  else 0.

(** "sum the [value] fields of all dosing events that fired; a non-positive
    sum is ignored. If positive, set [dosing_until = now + sum_seconds]". *)
Definition dosing_until (fired : list Q) (now : Dt.datetime)
    (previous : option Dt.datetime) : option Dt.datetime :=
  let total := foldr Qplus 0 fired in
  if Qlt_le_dec 0 total
  then Some (Dt.add now (Dt.timedelta_seconds total))
  else previous.

(** "header is emitted exactly once, guarded by file non-existence or zero
    length". *)
Definition header_due (fs : Csv.files) (path : string) : bool :=
  match fs !! path with
  | None => true
  | Some [] => true
  | Some (_ :: _) => false
  end.

End Spec.

(** ** Concrete data used by the examples of Part II *)

Module Ex.

Local Open Scope Q_scope.

(** A reading of 0.56092 V over 148 ohm is a loop current of 3.79 mA. *)
Definition low_reading : Q := 56092 # 100000.

(** A hardware handle with one detected sensor, as left by [__init__]. *)
Definition hw_real : Hw.Hardware :=
  {| Hw.sim := false;
     Hw.ds_devices := ["/sys/bus/w1/devices/28-000001"];
     Hw._last_temp_error := false |}.

Definition crc : Hw.w1_read := Hw.W1_raise "CRC inválido".

(** The day D of the examples and the instants on it. *)
Definition D : Dt.date := {| Dt.year := 2024; Dt.month := 3; Dt.day := 10 |}.

Definition at_ (d : Dt.date) (hh mm ss : Z) : Dt.datetime :=
  {| Dt.dt_date := d; Dt.hour := hh; Dt.minute := mm; Dt.second := ss;
     Dt.microsecond := 0 |}.

Definition ev (tm : string) (v : Q) : Cal.event :=
  {| Cal.time := tm; Cal.value := v |}.

(** Panel F1 right after start, recording switched on. *)
Definition f1 : Panel.Panel :=
  Panel.csv_start (Panel.init "F1" 20.2 21 (at_ D 8 59 59)).

Definition backup : string := "./Backup/backup_global_temperatura.csv".

(** Both files exist and are empty. *)
Definition empty_files : Csv.files :=
  <[Panel.csv_path f1 := []]> (<[backup := []]> ∅).

(** Dosing calendars for day D. *)
Definition cal_two_doses : Cal.calendar :=
  {[ Dt.ymd D := [ev "09:00" 30; ev "09:00" 20] ]}.

Definition cal_negative_dose : Cal.calendar :=
  {[ Dt.ymd D := [ev "09:00" 30; ev "09:00" (-20)] ]}.

(** A dose of 3e11 seconds, more than 9500 years. *)
Definition cal_huge_dose : Cal.calendar :=
  {[ Dt.ymd D := [ev "09:00" 300000000000] ]}.

Definition w0 : Panel.world :=
  {| Panel.hw := hw_real; Panel.fs := ∅; Panel.backup_path := backup;
     Panel.console := [] |}.

(** The tick at D 09:00:00 with a sensor reading of 20.1 degrees. *)
Definition tick_0900 : Panel.tick :=
  {| Panel.tnow := at_ D 9 0 0; Panel.ruido := 0; Panel.sim_value := 20;
     Panel.w1 := Hw.W1_ok 20.1; Panel.csv_now := at_ D 9 0 0 |}.


(** The day after D. *)
Definition D1 : Dt.date := {| Dt.year := 2024; Dt.month := 3; Dt.day := 11 |}.

End Ex.

(** * Part II: properties *)

(** ** Numbers *)

Section Numbers.

Local Open Scope Q_scope.

Lemma py_min_cases a b :
  (b < a /\ Py.min a b = b) \/ (a <= b /\ Py.min a b = a).
Proof. unfold Py.min. destruct (Qlt_le_dec b a); [left | right]; split; auto. Qed.

Lemma py_max_cases a b :
  (a < b /\ Py.max a b = b) \/ (b <= a /\ Py.max a b = a).
Proof. unfold Py.max. destruct (Qlt_le_dec a b); [left | right]; split; auto. Qed.

Lemma py_ltb_true a b : Py.ltb a b = true <-> a < b.
Proof.
  unfold Py.ltb. destruct (Qlt_le_dec a b); split; intros; auto; try discriminate.
  lra.
Qed.

Lemma py_ltb_false a b : Py.ltb a b = false <-> b <= a.
Proof.
  unfold Py.ltb. destruct (Qlt_le_dec a b); split; intros; auto; try discriminate.
  lra.
Qed.

Lemma py_leb_true a b : Py.leb a b = true <-> a <= b.
Proof.
  unfold Py.leb. destruct (Qlt_le_dec b a); split; intros; auto; try discriminate.
  lra.
Qed.

Lemma py_leb_false a b : Py.leb a b = false <-> b < a.
Proof.
  unfold Py.leb. destruct (Qlt_le_dec b a); split; intros; auto; try discriminate.
  lra.
Qed.

(** The nested [max(4.0, min(20.0, x))] is the clamp of the specification,
    up to the representation of the rational. *)
Lemma clamp_is_max_min x : Py.max 4 (Py.min 20 x) == Spec.clamp 4 20 x.
Proof.
  unfold Spec.clamp.
  destruct (py_min_cases 20 x) as [[? ->] | [? ->]];
    [destruct (py_max_cases 4 x) as [[? ->] | [? ->]]
    | destruct (py_max_cases 4 20) as [[? ->] | [? ->]]];
    destruct (Qlt_le_dec x 4); try destruct (Qlt_le_dec 20 x); lra.
Qed.



End Numbers.

(** ** Flow conversion *)

Module FlowProps.

Local Open Scope Q_scope.

Section Calibrated.
Variables FLOW_MIN_SCCM FLOW_MAX_SCCM : Q.

Let flow := Flow.current_to_flow_sccm FLOW_MIN_SCCM FLOW_MAX_SCCM.

Lemma flow_degenerate c : FLOW_MAX_SCCM <= FLOW_MIN_SCCM -> flow c = 0.
Proof.
  intros H. unfold flow, Flow.current_to_flow_sccm.
  apply py_leb_true in H. now rewrite H.
Qed.

Lemma flow_interpolates c :
  FLOW_MIN_SCCM < FLOW_MAX_SCCM ->
  flow c ==
    FLOW_MIN_SCCM
    + (Spec.clamp 4 20 c - 4) * (FLOW_MAX_SCCM - FLOW_MIN_SCCM) / 16.
Proof.
  intros H. unfold flow, Flow.current_to_flow_sccm.
  apply py_leb_false in H. rewrite H. cbv zeta.
  now rewrite clamp_is_max_min.
Qed.




End Calibrated.

Lemma flow_facts (fmin fmax c : Q) :
  (fmax <= fmin -> Flow.current_to_flow_sccm fmin fmax c = 0) /\
  (fmin < fmax ->
   Flow.current_to_flow_sccm fmin fmax c ==
     fmin + (Spec.clamp 4 20 c - 4) * (fmax - fmin) / 16) /\
  Flow.current_to_flow_sccm fmin fmax c == Spec.current_to_flow c fmin fmax.
Proof.
  split; [apply flow_degenerate |].
  split; [apply flow_interpolates |].
  unfold Spec.current_to_flow. destruct (Qlt_le_dec fmin fmax) as [H | H].
  - now apply flow_interpolates.
  - now rewrite flow_degenerate.
Qed.

(** C7. The current-to-flow conversion returns 0 whenever
    [flow_max <= flow_min]; otherwise it clamps the current to [4, 20] mA and
    returns [flow_min + (clamped - 4) * (flow_max - flow_min) / 16]. For
    2.0 V over a 148 ohm shunt the current is 2.0/148*1000, about 13.51 mA,
    and with [flow_min = 0], [flow_max = 50] the flow is about 29.7. *)
Theorem C7_current_to_flow :
  (forall fmin fmax c : Q,
      (fmax <= fmin -> Flow.current_to_flow_sccm fmin fmax c = 0) /\
      (fmin < fmax ->
       Flow.current_to_flow_sccm fmin fmax c ==
         fmin + (Spec.clamp 4 20 c - 4) * (fmax - fmin) / 16) /\
      Flow.current_to_flow_sccm fmin fmax c == Spec.current_to_flow c fmin fmax) /\
  (let current := Flow.voltage_to_current_ma 2 148 in
   current == 2 / 148 * 1000 /\
   13.51 <= current < 13.52 /\
   29.7 <= Flow.current_to_flow_sccm 0 50 current < 29.8).
Proof.
  split.
  - apply flow_facts.
  - cbv zeta. split; [reflexivity |]. split; [split |]; try (vm_compute; reflexivity).
    + vm_compute. discriminate.
    + split; vm_compute; try reflexivity; discriminate.
Qed.

(** Use of C7 at 12 mA on the default range 0..50: mid-scale. *)
Lemma C7_current_to_flow_witness :
  Flow.current_to_flow_sccm 0 50 12 == 25.
Proof.
  destruct C7_current_to_flow as [H _].
  destruct (H 0 50 12) as (_ & Hi & _).
  rewrite Hi by reflexivity. vm_compute. reflexivity.
Defined.



(** *** Status and value of a sample *)

Lemma status_cases fmin fmax ts v shunt :
  let s := Flow.convert fmin fmax ts v shunt in
  let c := Flow.voltage_to_current_ma v shunt in
  (c < 3.8 -> Flow.s_status s = Flow.BajoRango) /\
  (20.5 < c -> Flow.s_status s = Flow.AltoRango) /\
  (3.8 <= c <= 20.5 -> Flow.s_status s = Flow.OK).
Proof.
  cbv zeta. unfold Flow.convert. cbn [Flow.s_status].
  set (c := Flow.voltage_to_current_ma v shunt).
  destruct (Py.ltb c 3.8) eqn:E1; [apply py_ltb_true in E1 | apply py_ltb_false in E1];
    (destruct (Py.ltb 20.5 c) eqn:E2;
     [apply py_ltb_true in E2 | apply py_ltb_false in E2]);
    repeat split; intros; try reflexivity; lra.
Qed.

(** The C8 sentence fails as stated: with the calibration range 10..5 a
    current of 3.79 mA is classified as low range while the stored flow is
    0, not [flow_min] = 10. *)
Lemma C8_counterexample :
  let s := Flow.convert 10 5 (Dt.mk 2024 3 10 9 0 0) Ex.low_reading 148 in
  Flow.s_current_ma s == 3.79 /\
  Flow.s_status s = Flow.BajoRango /\
  Flow.s_flow s == 0 /\
  ~ Flow.s_flow s == 10.
Proof.
  cbv zeta. repeat split; try (vm_compute; reflexivity).
  vm_compute. discriminate.
Qed.

(** C8 (amended). Every sample is classified from the unclamped current:
    low range below 3.8 mA, high range above 20.5 mA, OK otherwise; the
    stored flow is the conversion of the clamped current. With
    [FLOW_MAX_SCCM > FLOW_MIN_SCCM] a current of 3.79 mA gives status low
    range together with a flow equal to [FLOW_MIN_SCCM]. *)
Theorem C8_status_unclamped_flow_clamped
    (fmin fmax : Q) (ts : Dt.datetime) (v shunt : Q) :
  let s := Flow.convert fmin fmax ts v shunt in
  let c := Flow.voltage_to_current_ma v shunt in
  Flow.s_current_ma s = c /\
  (c < 3.8 -> Flow.s_status s = Flow.BajoRango) /\
  (20.5 < c -> Flow.s_status s = Flow.AltoRango) /\
  (3.8 <= c <= 20.5 -> Flow.s_status s = Flow.OK) /\
  Flow.s_flow s == Spec.current_to_flow c fmin fmax /\
  (fmin < fmax ->
   Flow.s_flow s == fmin + (Spec.clamp 4 20 c - 4) * (fmax - fmin) / 16) /\
  (fmin < fmax -> c == 3.79 ->
   Flow.s_status s = Flow.BajoRango /\ Flow.s_flow s == fmin).
Proof.
  cbv zeta. split; [reflexivity |].
  destruct (status_cases fmin fmax ts v shunt) as (Hlow & Hhigh & Hok).
  cbv zeta in Hlow, Hhigh, Hok.
  split; [exact Hlow |]. split; [exact Hhigh |]. split; [exact Hok |].
  set (c := Flow.voltage_to_current_ma v shunt) in *.
  change (Flow.s_flow (Flow.convert fmin fmax ts v shunt))
    with (Flow.current_to_flow_sccm fmin fmax c).
  destruct (flow_facts fmin fmax c) as (_ & Hi & Hs).
  split; [exact Hs |]. split; [exact Hi |].
  intros Hr Hc. split; [apply Hlow; lra |].
  rewrite (Hi Hr). unfold Spec.clamp.
  destruct (Qlt_le_dec c 4); [field | lra].
Qed.

Lemma C8_status_unclamped_flow_clamped_witness :
  let s := Flow.convert 0 50 (Dt.mk 2024 3 10 9 0 0) Ex.low_reading 148 in
  Flow.s_status s = Flow.BajoRango /\ Flow.s_flow s == 0.
Proof.
  cbv zeta.
  destruct (C8_status_unclamped_flow_clamped
              0 50 (Dt.mk 2024 3 10 9 0 0) Ex.low_reading 148)
    as (_ & _ & _ & _ & _ & _ & H).
  apply H; vm_compute; reflexivity.
Defined.

End FlowProps.

(** ** Flow conversion in binary64 *)

Module F64Props.

Import Stdlib.Floats.Floats.

Local Open Scope float_scope.


Lemma ltb_leb (x y : float) : (x <? y) = true -> (x <=? y) = true.
Proof.
  rewrite ltb_spec, leb_spec. unfold SFltb, SFleb.
  destruct (SFcompare (Prim2SF x) (Prim2SF y)) as [[| |]|]; congruence.
Qed.

(** Whatever float the band holds, the band the thermal rule uses is that
    float or 0.05, and is not below 0.05. *)
Lemma effective_band_floor (b : float) :
  (F64.f_0_05 <=? F64.effective_band b) = true
  /\ (F64.effective_band b = b \/ F64.effective_band b = F64.f_0_05).
Proof.
  unfold F64.effective_band, F64.max.
  destruct (F64.f_0_05 <? b) eqn:E.
  - split; [apply ltb_leb; exact E | left; reflexivity].
  - split; [reflexivity | right; reflexivity].
Qed.

End F64Props.

(** ** Thermal control and dosing timer *)

Module PanelProps.

Import Panel.

Local Open Scope Q_scope.

Lemma interlock_set_other f p :
  (cold_in (f p) = cold_in p) -> (hot_in (f p) = hot_in p) ->
  interlock p -> interlock (f p).
Proof. unfold interlock. now intros -> ->. Qed.

Ltac frame_fields :=
  apply interlock_set_other; [reflexivity | reflexivity | assumption].

Lemma interlock_init nm t0 amb t_start : interlock (init nm t0 amb t_start).
Proof. reflexivity. Qed.

Lemma interlock_forzar_frio p : interlock p -> interlock (forzar_frio p).
Proof. unfold forzar_frio. destruct (_can_force p); [reflexivity | auto]. Qed.

Lemma interlock_forzar_caliente p : interlock p -> interlock (forzar_caliente p).
Proof. unfold forzar_caliente. destruct (_can_force p); [reflexivity | auto]. Qed.

Lemma interlock_cerrar_todo p : interlock (cerrar_todo p).
Proof. reflexivity. Qed.

Lemma interlock_stop_all p : interlock (stop_all p).
Proof. reflexivity. Qed.

Lemma interlock_apply_band v p : interlock p -> interlock (apply_band v p).
Proof. unfold apply_band. destruct (Py.ltb v 0.05); auto. Qed.

Lemma interlock_toggle_manual_nut tnow p :
  interlock p -> interlock (toggle_manual_nut tnow p).
Proof. intros H. frame_fields. Qed.

Lemma interlock_calendar_setpoint tnow p :
  interlock p -> interlock (calendar_setpoint tnow p).
Proof.
  intros H. unfold calendar_setpoint. destruct (manual_mode p); [assumption |].
  cbn [negb]. destruct (Cal.sp_from_date_calendar _ _ _); auto.
Qed.

(** The actuator flags and the control inputs are untouched by the dosing
    steps and by the temperature update. *)
Lemma dosing_schedule_frame tnow p :
  let p' := dosing_schedule tnow p in
  cold_in p' = cold_in p /\ hot_in p' = hot_in p /\
  manual_mode p' = manual_mode p /\ sp p' = sp p /\ band p' = band p /\
  t p' = t p.
Proof.
  cbv zeta. unfold dosing_schedule.
  destruct (decide _); [repeat split |].
  destruct (Cal.nut_fire_for_minute _ _); [repeat split |].
  destruct (Py.ltb _ _); repeat split.
Qed.

Lemma dosing_state_frame tnow p :
  let p' := dosing_state tnow p in
  cold_in p' = cold_in p /\ hot_in p' = hot_in p /\
  manual_mode p' = manual_mode p /\ sp p' = sp p /\ band p' = band p /\
  t p' = t p.
Proof.
  cbv zeta. unfold dosing_state. destruct (schedule_active p tnow); repeat split.
Qed.

Lemma simulate_temp_frame dts r p :
  let p' := _simulate_temp dts r p in
  cold_in p' = cold_in p /\ hot_in p' = hot_in p /\
  manual_mode p' = manual_mode p /\ sp p' = sp p /\ band p' = band p.
Proof.
  cbv zeta. unfold _simulate_temp. destruct (Py.leb dts 0); repeat split.
Qed.

(** The effective band is positive whatever the configured one. *)
Lemma effective_band_pos b : 0.05 <= Py.max 0.05 b /\ b <= Py.max 0.05 b.
Proof. destruct (py_max_cases 0.05 b) as [[? ->] | [? ->]]; lra. Qed.

(** The transition rule in closed form. *)
Lemma thermal_control_flags p :
  manual_mode p = false ->
  let lo := sp p - Py.max 0.05 (band p) in
  let hi := sp p + Py.max 0.05 (band p) in
  cold_in (thermal_control p)
    = (if cold_in p then negb (Py.leb (t p) lo) else Py.leb hi (t p)) /\
  hot_in (thermal_control p)
    = (if hot_in p then negb (Py.leb hi (t p)) else Py.leb (t p) lo).
Proof.
  intros Hm. cbv zeta. unfold thermal_control. rewrite Hm. cbn [negb].
  destruct (cold_in p) eqn:Hc, (hot_in p) eqn:Hh;
    destruct (Py.leb (t p) (sp p - Py.max 0.05 (band p))) eqn:E1;
    destruct (Py.leb (sp p + Py.max 0.05 (band p)) (t p)) eqn:E2;
    repeat (cbn; rewrite ?Hc, ?Hh, ?E1, ?E2); split; reflexivity.
Qed.

Lemma thermal_control_manual p :
  manual_mode p = true -> thermal_control p = p.
Proof. intros H. unfold thermal_control. now rewrite H. Qed.

Lemma thermal_control_frame p :
  let p' := thermal_control p in
  t p' = t p /\ sp p' = sp p /\ band p' = band p /\
  manual_mode p' = manual_mode p.
Proof.
  cbv zeta. unfold thermal_control.
  destruct (manual_mode p) eqn:Hm; [repeat split; assumption |].
  cbn [negb].
  repeat match goal with
  | |- context [if ?b then _ else _] => destruct b; cbn
  end; repeat split; assumption.
Qed.

Lemma interlock_thermal_control p : interlock p -> interlock (thermal_control p).
Proof.
  intros H. destruct (manual_mode p) eqn:Hm.
  - now rewrite thermal_control_manual.
  - unfold interlock in *.
    destruct (thermal_control_flags p Hm) as [-> ->].
    pose proof (effective_band_pos (band p)) as [Hb _].
    destruct (cold_in p), (hot_in p); try discriminate; cbn;
      repeat match goal with
      | |- context [Py.leb ?a ?b] =>
          let E := fresh "E" in
          destruct (Py.leb a b) eqn:E;
          [apply py_leb_true in E | apply py_leb_false in E]
      end; cbn; try reflexivity; lra.
Qed.

(** *** One pass of the control loop *)

(** The panel after [update_process] is the transition rule applied to a
    panel that still has the actuator flags and the mode it started with. *)
Lemma update_process_thermal i p w :
  exists p1 : Panel,
    fst (update_process i (p, w)) = thermal_control p1 /\
    cold_in p1 = cold_in p /\ hot_in p1 = hot_in p /\
    manual_mode p1 = manual_mode p /\ band p1 = band p /\
    (manual_mode p = true -> sp p1 = sp p).
Proof.
  unfold update_process.
  set (p0 := set__last_update (tnow i) p).
  set (pa := calendar_setpoint (tnow i) p0).
  set (pb := dosing_schedule (tnow i) pa).
  set (pc := dosing_state (tnow i) pb).
  assert (Ha : cold_in pa = cold_in p /\ hot_in pa = hot_in p /\
               manual_mode pa = manual_mode p /\ band pa = band p /\
               (manual_mode p = true -> sp pa = sp p)).
  { unfold pa, calendar_setpoint. change (manual_mode p0) with (manual_mode p).
    destruct (manual_mode p) eqn:Hm; cbn [negb].
    - repeat split. exact Hm.
    - destruct (Cal.sp_from_date_calendar _ _ _);
        repeat split; try exact Hm; discriminate. }
  destruct Ha as (Ha1 & Ha2 & Ha3 & Ha4 & Ha5).
  destruct (dosing_schedule_frame (tnow i) pa) as (Hb1 & Hb2 & Hb3 & Hb4 & Hb5 & _).
  destruct (dosing_state_frame (tnow i) pb) as (Hc1 & Hc2 & Hc3 & Hc4 & Hc5 & _).
  fold pb in Hb1, Hb2, Hb3, Hb4, Hb5. fold pc in Hc1, Hc2, Hc3, Hc4, Hc5.
  assert (Hpc : cold_in pc = cold_in p /\ hot_in pc = hot_in p /\
                manual_mode pc = manual_mode p /\ band pc = band p /\
                (manual_mode p = true -> sp pc = sp p)).
  { repeat split; try congruence. intros Hm. rewrite Hc4, Hb4. auto. }
  destruct Hpc as (H1 & H2 & H3 & H4 & H5).
  destruct (Hw.sim (hw w)).
  - destruct (simulate_temp_frame
                (Py.max 0.001 (Dt.diff_seconds (tnow i) (_last_update p)))
                (ruido i) pc) as (Hs1 & Hs2 & Hs3 & Hs4 & Hs5).
    eexists. split; [reflexivity |].
    repeat split; try congruence. intros Hm. rewrite Hs4. auto.
  - destruct (Hw.read_temp_ds18b20 _ _ _ _) as [[v out] hw'].
    exists (set_t v pc). split; [reflexivity |].
    repeat split; try assumption.
Qed.

Lemma interlock_update_process i pw :
  interlock (fst pw) -> interlock (fst (update_process i pw)).
Proof.
  destruct pw as [p w]. intros H.
  destruct (update_process_thermal i p w) as (p1 & -> & Hc & Hh & _).
  apply interlock_thermal_control. unfold interlock in *. now rewrite Hc, Hh.
Qed.

Lemma interlock_step o pw : interlock (fst pw) -> interlock (fst (step o pw)).
Proof.
  intros H. destruct o; cbn [step on_panel fst];
    try (apply interlock_set_other; [reflexivity | reflexivity | assumption]).
  - now apply interlock_update_process.
  - now apply interlock_forzar_frio.
  - now apply interlock_forzar_caliente.
  - apply interlock_cerrar_todo.
  - apply interlock_stop_all.
  - now apply interlock_apply_band.
  - destruct pw as [p w]. exact H.
Qed.

Lemma interlock_run ops : forall pw,
  interlock (fst pw) -> interlock (fst (run ops pw)).
Proof.
  induction ops as [| o ops IH]; intros pw H; [exact H |].
  cbn. apply IH. now apply interlock_step.
Qed.

(** C1. Starting from the initial state of a panel, after any sequence of
    control ticks, force-cold, force-hot, close-all and stop-all actions
    (and of the other operator actions), [cold_in] and [hot_in] are never
    both true. *)
Theorem C1_never_both_actuators
    (nm : string) (t0 amb : Q) (t_start : Dt.datetime) (w : world)
    (ops : list op) :
  let p := fst (run ops (init nm t0 amb t_start, w)) in
  ~ (cold_in p = true /\ hot_in p = true).
Proof.
  cbv zeta. intros [Hc Hh].
  pose proof (interlock_run ops (init nm t0 amb t_start, w)
                (interlock_init nm t0 amb t_start)) as H.
  unfold interlock in H. rewrite Hc, Hh in H. discriminate.
Qed.

(** *** Hysteresis memory *)

Lemma thermal_control_inside p :
  manual_mode p = false ->
  sp p - band p < t p -> t p < sp p + band p ->
  cold_in (thermal_control p) = cold_in p /\
  hot_in (thermal_control p) = hot_in p.
Proof.
  intros Hm Hlo Hhi.
  destruct (thermal_control_flags p Hm) as [-> ->].
  pose proof (effective_band_pos (band p)) as [_ Hb].
  assert (E1 : Py.leb (t p) (sp p - Py.max 0.05 (band p)) = false)
    by (apply py_leb_false; lra).
  assert (E2 : Py.leb (sp p + Py.max 0.05 (band p)) (t p) = false)
    by (apply py_leb_false; lra).
  rewrite E1, E2. destruct (cold_in p), (hot_in p); split; reflexivity.
Qed.

Lemma thermal_readings_inside temps : forall p,
  manual_mode p = false ->
  Forall (fun x => sp p - band p < x /\ x < sp p + band p) temps ->
  let p' := thermal_readings temps p in
  cold_in p' = cold_in p /\ hot_in p' = hot_in p.
Proof.
  unfold thermal_readings.
  induction temps as [| x temps IH]; intros p Hm Hall; [split; reflexivity |].
  apply Forall_cons_1 in Hall as [[Hlo Hhi] Hall].
  cbn [fold_left]. set (q := thermal_control (set_t x p)).
  destruct (thermal_control_frame (set_t x p)) as (_ & Hsp & Hband & Hman).
  fold q in Hsp, Hband, Hman. cbn in Hsp, Hband, Hman.
  destruct (thermal_control_inside (set_t x p) Hm Hlo Hhi) as [Hc Hh].
  fold q in Hc, Hh. cbn in Hc, Hh.
  destruct (IH q) as [Hc' Hh'].
  - rewrite Hman. exact Hm.
  - rewrite Hsp, Hband. exact Hall.
  - cbv zeta in Hc', Hh'. rewrite Hc', Hh', Hc, Hh. split; reflexivity.
Qed.

(** C5. Outside manual override, a temperature strictly inside
    [(sp - band, sp + band)] leaves [cold_in] and [hot_in] as they are after
    one evaluation of the transition rule, so a run of readings that all
    stay strictly inside the band never changes the actuator state; the
    same holds for a full control tick, with the setpoint and temperature
    the tick ends with. *)
Theorem C5_hysteresis_memory (p : Panel) (Hauto : manual_mode p = false) :
  (sp p - band p < t p -> t p < sp p + band p ->
   cold_in (thermal_control p) = cold_in p /\
   hot_in (thermal_control p) = hot_in p) /\
  (forall temps : list Q,
      Forall (fun x => sp p - band p < x /\ x < sp p + band p) temps ->
      cold_in (thermal_readings temps p) = cold_in p /\
      hot_in (thermal_readings temps p) = hot_in p) /\
  (forall (i : tick) (w : world),
      let p' := fst (update_process i (p, w)) in
      sp p' - band p' < t p' -> t p' < sp p' + band p' ->
      cold_in p' = cold_in p /\ hot_in p' = hot_in p).
Proof.
  split; [now apply thermal_control_inside |].
  split; [intros temps; now apply thermal_readings_inside |].
  intros i w. cbv zeta.
  destruct (update_process_thermal i p w) as (p1 & -> & Hc & Hh & Hm & _).
  destruct (thermal_control_frame p1) as (-> & -> & -> & _).
  intros Hlo Hhi. rewrite <- Hc, <- Hh.
  apply thermal_control_inside; congruence.
Qed.

Lemma C5_hysteresis_memory_witness :
  let p := init "F1" 20.2 21 (Dt.mk 2024 3 10 9 0 0) in
  manual_mode p = false /\
  cold_in (thermal_control p) = false /\ hot_in (thermal_control p) = false /\
  cold_in (thermal_readings [19.6; 20.4; 19.9] p) = false.
Proof.
  cbv zeta.
  assert (Hm : manual_mode (init "F1" 20.2 21 (Dt.mk 2024 3 10 9 0 0)) = false)
    by reflexivity.
  split; [exact Hm |].
  destruct (C5_hysteresis_memory _ Hm) as (H1 & H2 & _).
  destruct H1 as [Hc Hh]; [reflexivity | reflexivity |].
  split; [exact Hc |]. split; [exact Hh |].
  destruct (H2 [19.6; 20.4; 19.9]) as [Hc' _]; [| exact Hc'].
  repeat constructor.
Defined.

(** *** Dosing timer *)

Lemma nut_fire_for_minute_filter (c : Cal.calendar) (tnow : Dt.datetime) :
  Cal.nut_fire_for_minute c tnow
  = map Cal.value
      (List.filter (fun e => String.eqb (Cal.time e) (Dt.hhmm tnow))
         (Cal.get c (Dt.ymd (Dt.dt_date tnow)))).
Proof.
  unfold Cal.nut_fire_for_minute. destruct (decide (c = ∅)) as [-> | _].
  - unfold Cal.get. now rewrite lookup_empty.
  - destruct (Cal.get c _); reflexivity.
Qed.

Lemma dur_total_all_positive (doses : list Q) :
  Forall (fun d => 0 < d) doses -> dur_total doses = foldr Qplus 0 doses.
Proof.
  unfold dur_total. induction 1 as [| d ds Hd _ IH]; [reflexivity |].
  cbn. apply py_ltb_true in Hd. rewrite Hd. cbn. now rewrite IH.
Qed.

Lemma dur_total_nonneg (doses : list Q) : 0 <= dur_total doses.
Proof.
  unfold dur_total. induction doses as [| d ds IH]; cbn; [lra |].
  destruct (Py.ltb 0 d) eqn:E; [| exact IH].
  apply py_ltb_true in E. cbn. lra.
Qed.

(** The C2 sentence fails as stated: with the events (09:00, 30) and
    (09:00, -20) the values that fired sum to 10, but the deadline is set
    30 seconds ahead. *)
Lemma C2_counterexample :
  let now := Ex.at_ Ex.D 9 0 0 in
  let p := set_cal_nut Ex.cal_negative_dose Ex.f1 in
  let fired := Cal.nut_fire_for_minute (cal_nut p) now in
  fired = [30; -20] /\
  Spec.dosing_until fired now (nut_running_until p) = Some (Ex.at_ Ex.D 9 0 10) /\
  nut_running_until (dosing_schedule now p) = Some (Ex.at_ Ex.D 9 0 30) /\
  nut_running_until (dosing_schedule now p)
    <> Spec.dosing_until fired now (nut_running_until p).
Proof.
  cbv zeta. repeat split; try (vm_compute; reflexivity).
  vm_compute. discriminate.
Qed.

End PanelProps.

(** ** DS18B20 read path *)

Module HwProps.

Import Hw.

Local Open Scope Q_scope.

(** The [finally] clause leaves the error flag cleared after every read. *)
Lemma flag_cleared hw index sv r :
  real_mode hw ->
  let '(_, _, hw') := read_temp_ds18b20 hw index sv r in
  _last_temp_error hw' = false /\ real_mode hw'.
Proof.
  intros [Hs Hd]. unfold read_temp_ds18b20.
  destruct (ds_devices hw) as [| d0 ds] eqn:E; [contradiction |].
  rewrite Hs. destruct r as [temp | msg].
  - cbn. split; [reflexivity |]. split; cbn; [assumption | now rewrite E].
  - destruct (negb (_last_temp_error hw)); cbn;
      (split; [reflexivity |]); split; cbn; try assumption; now rewrite E.
Qed.

(** A failing read returns 20.0; it prints when the flag is cleared. *)
Lemma failing_read hw index sv msg :
  real_mode hw ->
  let '(ret, out, _) := read_temp_ds18b20 hw index sv (W1_raise msg) in
  ret = 20 /\ length out = (if _last_temp_error hw then 0 else 1)%nat.
Proof.
  intros [Hs Hd]. unfold read_temp_ds18b20.
  destruct (ds_devices hw) as [| d0 ds] eqn:E; [contradiction |].
  rewrite Hs. destruct (_last_temp_error hw); cbn; split; reflexivity.
Qed.

Lemma successful_read hw index sv temp :
  real_mode hw ->
  let '(ret, out, _) := read_temp_ds18b20 hw index sv (W1_ok temp) in
  ret = temp /\ out = [].
Proof.
  intros [Hs Hd]. unfold read_temp_ds18b20.
  destruct (ds_devices hw) as [| d0 ds] eqn:E; [contradiction |].
  rewrite Hs. cbn. split; reflexivity.
Qed.

(** In a run of reads every failure prints one line, whatever came before
    it. *)
Lemma every_failure_prints rs : forall hw index,
  real_mode hw -> _last_temp_error hw = false ->
  map (fun o => length (snd o)) (fst (read_run hw index rs))
  = map (fun r => if is_raise r then 1%nat else 0%nat) rs.
Proof.
  induction rs as [| r rs IH]; intros hw index Hreal Hflag; [reflexivity |].
  cbn [read_run].
  pose proof (flag_cleared hw index 0 r Hreal) as Hc.
  destruct (read_temp_ds18b20 hw index 0 r) as [[ret out] hw1] eqn:E.
  destruct Hc as [Hf1 Hr1].
  specialize (IH hw1 index Hr1 Hf1).
  destruct (read_run hw1 index rs) as [outs hw2].
  cbn in *. f_equal; [| exact IH].
  destruct r as [temp | msg].
  - pose proof (successful_read hw index 0 temp Hreal) as Hs.
    rewrite E in Hs. destruct Hs as [_ ->]. reflexivity.
  - pose proof (failing_read hw index 0 msg Hreal) as Hs.
    rewrite E in Hs. destruct Hs as [_ ->]. now rewrite Hflag.
Qed.

(** C4 at a run of three failing reads: each read returns the fallback
    20.0, and each of the three prints its own message, where the claim
    allows only the first to print. *)
Theorem C4_each_failure_logs :
  let outs := fst (read_run Ex.hw_real 0 [Ex.crc; Ex.crc; Ex.crc]) in
  map fst outs = [20; 20; 20] /\
  map (fun o => length (snd o)) outs = [1; 1; 1]%nat /\
  _last_temp_error (snd (read_run Ex.hw_real 0 [Ex.crc; Ex.crc; Ex.crc])) = false.
Proof. cbv zeta. repeat split; reflexivity. Qed.

End HwProps.

(** ** CSV sinks *)

Module CsvProps.

Import Csv.

Lemma headers_append fs path ls :
  headers (append fs path ls) path
  = (headers fs path + length (List.filter is_header ls))%nat.
Proof.
  unfold headers, append. rewrite lookup_insert_eq.
  destruct (fs !! path) as [old |]; [| reflexivity].
  now rewrite List.filter_app, List.length_app.
Qed.

Lemma headers_append_other fs path path' ls :
  path <> path' -> headers (append fs path ls) path' = headers fs path'.
Proof. intros H. unfold headers, append. now rewrite lookup_insert_ne. Qed.

(** The backup sink writes a header exactly when the specification asks
    for one. *)
Lemma write_backup_headers fs bpath fields cells :
  headers (write_backup fs bpath fields cells) bpath
  = (headers fs bpath + (if Spec.header_due fs bpath then 1 else 0))%nat.
Proof.
  unfold write_backup. rewrite headers_append.
  unfold Spec.header_due, exists_, size_is_zero.
  destruct (fs !! bpath) as [[| l ls] |]; reflexivity.
Qed.

(** The per-channel sink writes a header exactly when the file is absent. *)
Lemma write_channel_headers fs ipath fields cells :
  headers (write_channel fs ipath fields cells) ipath
  = (headers fs ipath + (if exists_ fs ipath then 0 else 1))%nat.
Proof.
  unfold write_channel. rewrite headers_append.
  destruct (exists_ fs ipath); reflexivity.
Qed.

(** An existing non-empty file never receives another header, from either
    sink. *)
Lemma no_second_header fs path fields cells l ls :
  fs !! path = Some (l :: ls) ->
  headers (write_channel fs path fields cells) path = headers fs path /\
  headers (write_backup fs path fields cells) path = headers fs path.
Proof.
  intros H. rewrite write_channel_headers, write_backup_headers.
  unfold exists_, Spec.header_due. rewrite H. split; lia.
Qed.

(** An absent file gets its header from either sink. *)
Lemma first_header fs path fields cells :
  fs !! path = None ->
  write_channel fs path fields cells !! path = Some [Header fields; Data cells] /\
  write_backup fs path fields cells !! path = Some [Header fields; Data cells].
Proof.
  intros H. unfold write_channel, write_backup, append, exists_, size_is_zero.
  rewrite H. cbn. rewrite !lookup_insert_eq. split; reflexivity.
Qed.

(** The two sinks differ exactly on an existing empty file. *)
Lemma empty_file_difference fs path fields cells :
  fs !! path = Some [] ->
  write_channel fs path fields cells !! path = Some [Data cells] /\
  write_backup fs path fields cells !! path = Some [Header fields; Data cells].
Proof.
  intros H. unfold write_channel, write_backup, append, exists_, size_is_zero.
  rewrite H. cbn. rewrite !lookup_insert_eq. split; reflexivity.
Qed.

(** C3 at a per-channel file that exists with zero length: the record is
    appended with no header before it, so the file has no header at all,
    while the backup file, empty as well, gets its header; the next tick
    does not repair the per-channel file. *)
Theorem C3_channel_sink_skips_header_on_empty_file :
  let ts := Ex.at_ Ex.D 9 0 0 in
  let fs1 := Panel._csv_write_row Ex.f1 ts Ex.backup Ex.empty_files in
  let fs2 := Panel._csv_write_row Ex.f1 ts Ex.backup fs1 in
  Panel._csv_running Ex.f1 = true /\
  Spec.header_due Ex.empty_files (Panel.csv_path Ex.f1) = true /\
  headers fs1 (Panel.csv_path Ex.f1) = 0%nat /\
  headers fs2 (Panel.csv_path Ex.f1) = 0%nat /\
  (exists row, fs1 !! Panel.csv_path Ex.f1 = Some [Data row]) /\
  headers fs1 Ex.backup = 1%nat /\
  headers fs2 Ex.backup = 1%nat.
Proof.
  cbv zeta. repeat split; try (vm_compute; reflexivity).
  eexists. vm_compute. reflexivity.
Qed.

End CsvProps.

(** ** Calendar store *)

Module CalProps.

Import Cal.

(** *** The order on strings *)



Lemma leb_not_gt s1 s2 : Py.str_le s1 s2 = true <-> String.compare s1 s2 <> Gt.
Proof.
  unfold Py.str_le, String.leb.
  destruct (String.compare s1 s2); split; intros; try discriminate; auto;
    try contradiction.
Qed.


Lemma str_le_total s1 s2 : Py.str_le s1 s2 = true \/ Py.str_le s2 s1 = true.
Proof. apply String.leb_total. Qed.

Lemma str_le_refl s : Py.str_le s s = true.
Proof. destruct (str_le_total s s); assumption. Qed.

(** *** The stable sort and its last element *)

Lemma insort_elem e x l : x ∈ insort e l <-> x = e \/ x ∈ l.
Proof.
  induction l as [| y l IH]; cbn.
  - rewrite list_elem_of_singleton, elem_of_nil. tauto.
  - destruct (Py.str_le (time e) (time y)).
    + rewrite !elem_of_cons. tauto.
    + rewrite !elem_of_cons, IH. tauto.
Qed.

Lemma sorted_elem x l : x ∈ sorted l <-> x ∈ l.
Proof.
  unfold sorted. induction l as [| y l IH]; cbn; [tauto |].
  rewrite insort_elem, elem_of_cons, IH. tauto.
Qed.




(** *** The two lookups *)

Lemma sp_from_date_calendar_today (c : calendar) t default :
  sp_from_date_calendar c t default
  = match last (sorted (List.filter (qualifies (Dt.hhmm t))
                          (get c (Dt.ymd (Dt.dt_date t))))) with
    | None => default
    | Some e => Some (value e)
    end.
Proof.
  unfold sp_from_date_calendar. destruct (decide (c = ∅)) as [-> | _].
  - unfold get. now rewrite lookup_empty.
  - destruct (get c _); reflexivity.
Qed.

Lemma hhmm_ok_truthy s : hhmm_ok s = true -> truthy s = true.
Proof. destruct s; [discriminate | reflexivity]. Qed.


Lemma filter_elem (f : event -> bool) x l :
  x ∈ List.filter f l <-> x ∈ l /\ f x = true.
Proof. rewrite !list_elem_of_In. apply List.filter_In. Qed.



Lemma no_applicable_event (c : calendar) t default :
  (forall e, e ∈ get c (Dt.ymd (Dt.dt_date t)) ->
             Py.str_le (time e) (Dt.hhmm t) = false) ->
  sp_from_date_calendar c t default = default.
Proof.
  intros H. rewrite sp_from_date_calendar_today.
  destruct (last _) as [e |] eqn:E; [| reflexivity].
  assert (He : e ∈ sorted (List.filter (qualifies (Dt.hhmm t))
                             (get c (Dt.ymd (Dt.dt_date t))))).
  { apply last_Some in E as [l' ->]. set_solver. }
  apply sorted_elem, filter_elem in He as [He Hq].
  unfold qualifies in Hq. apply andb_true_iff in Hq as [_ Hq].
  rewrite (H e He) in Hq. discriminate.
Qed.




(** *** Times typed without padding *)

(** A check that holds on the whole table of hours and minutes holds at every
    time of day. *)
Lemma time_table (P : Z -> Z -> bool) :
  forallb (fun h => forallb (fun m => P (Z.of_nat h) (Z.of_nat m)) (seq 0 60))
    (seq 0 24) = true ->
  forall h m : Z, (0 <= h <= 23)%Z -> (0 <= m <= 59)%Z -> P h m = true.
Proof.
  intros H h m Hh Hm. rewrite forallb_forall in H.
  specialize (H (Z.to_nat h)). rewrite forallb_forall in H.
  specialize (H ltac:(apply in_seq; lia) (Z.to_nat m) ltac:(apply in_seq; lia)).
  now rewrite !Z2Nat.id in H by lia.
Qed.

Lemma padded_before_8 h m :
  (10 <= h <= 23)%Z -> (0 <= m <= 59)%Z ->
  Py.str_lt (padded h m) "8:00" = true /\ Py.str_le "8:00" (padded h m) = false.
Proof.
  intros Hh Hm.
  pose proof (time_table
                (fun h m => (h <? 10)%Z
                            || (Py.str_lt (padded h m) "8:00"
                                && negb (Py.str_le "8:00" (padded h m))))
                ltac:(vm_compute; reflexivity) h m ltac:(lia) Hm) as H.
  cbv beta in H. apply orb_true_iff in H as [H | H]; [lia |].
  apply andb_true_iff in H as [H1 H2]. split; [exact H1 |].
  now apply negb_true_iff in H2.
Qed.

(** [strftime("%H:%M")] always prints five characters. *)
Lemma hhmm_length t : String.length (Dt.hhmm t) = 5%nat.
Proof. reflexivity. Qed.

Lemma hhmm_is_padded t : Dt.hhmm t = padded (Dt.hour t) (Dt.minute t).
Proof. reflexivity. Qed.

Lemma get_insert (c : calendar) key key' l :
  get (<[key' := l]> c) key = if decide (key' = key) then l else get c key.
Proof.
  unfold get. destruct (decide (key' = key)) as [-> | Hne].
  - now rewrite lookup_insert_eq.
  - now rewrite lookup_insert_ne.
Qed.

(** An event whose time never equals the current minute contributes
    nothing to the dosing lookup. *)
Lemma nut_fire_skips (c : calendar) key l1 l2 e t :
  String.eqb (time e) (Dt.hhmm t) = false ->
  nut_fire_for_minute (<[key := l1 ++ e :: l2]> c) t
  = nut_fire_for_minute (<[key := l1 ++ l2]> c) t.
Proof.
  intros H. rewrite !PanelProps.nut_fire_for_minute_filter, !get_insert.
  destruct (decide (key = Dt.ymd (Dt.dt_date t))); [| reflexivity].
  rewrite !List.filter_app. cbn [List.filter]. now rewrite H.
Qed.

Lemma padded_shape h m :
  (0 <= h <= 23)%Z -> (0 <= m <= 59)%Z -> is_padded (padded h m) = true.
Proof.
  apply (time_table (fun h m => is_padded (padded h m))).
  vm_compute. reflexivity.
Qed.

(** Every way of writing a time of day with the numerals of its hour and of
    its minutes is accepted, and is either the padded form or shorter than
    five characters. *)
Lemma numerals_table h m hs ms :
  (0 <= h <= 23)%Z -> (0 <= m <= 59)%Z ->
  In hs (numerals h) -> In ms (numerals m) ->
  hhmm_ok (hs +:+ ":" +:+ ms) = true /\
  (hs +:+ ":" +:+ ms = padded h m
   \/ is_padded (hs +:+ ":" +:+ ms) = false
      /\ (String.length (hs +:+ ":" +:+ ms) < 5)%nat).
Proof.
  intros Hh Hm Hhs Hms.
  pose proof (time_table
    (fun h m =>
       forallb (fun hs =>
         forallb (fun ms =>
           hhmm_ok (hs +:+ ":" +:+ ms)
           && (String.eqb (hs +:+ ":" +:+ ms) (padded h m)
               || negb (is_padded (hs +:+ ":" +:+ ms))
                  && (String.length (hs +:+ ":" +:+ ms) <? 5)%nat))
           (numerals m)) (numerals h))
    ltac:(vm_compute; reflexivity) h m Hh Hm) as T.
  cbv beta in T. rewrite forallb_forall in T. specialize (T hs Hhs).
  rewrite forallb_forall in T. specialize (T ms Hms).
  apply andb_true_iff in T as [T1 T2]. split; [exact T1|].
  apply orb_true_iff in T2 as [T2 | T2].
  - left. apply String.eqb_eq. exact T2.
  - right. apply andb_true_iff in T2 as [T2 T3].
    split; [apply negb_true_iff; exact T2 | apply Nat.ltb_lt; exact T3].
Qed.

Lemma not_padded_never_now (s : string) (t : Dt.datetime) :
  is_padded s = false ->
  (0 <= Dt.hour t <= 23)%Z -> (0 <= Dt.minute t <= 59)%Z ->
  String.eqb s (Dt.hhmm t) = false.
Proof.
  intros Hs Hh Hm. apply String.eqb_neq. intros ->.
  rewrite hhmm_is_padded, (padded_shape _ _ Hh Hm) in Hs. discriminate Hs.
Qed.

(** C10. [hhmm_ok] accepts the times written without zero padding: every
    [H:M] built from the numerals of an hour 0..23 and of a minute 0..59,
    each as it is or padded, such as [8:00], [8:05], [08:5] and [8:0]. An
    event stored with such a time that is not the padded form is never
    equal to the zero-padded current minute, so the exact-minute dosing
    lookup never returns it, at any instant; the same holds of every string
    that has not the shape of two digits, a colon and two digits. In the
    order on strings used by the latest-applicable lookup, [8:00] comes
    after every padded time from 10:00 to 23:59, so at those times a
    setpoint event stored as [8:00] is not applicable. *)
Theorem C10_unpadded_times (h m : Z)
    (Hh : (0 <= h <= 23)%Z) (Hm : (0 <= m <= 59)%Z)
    (hs ms : string) (Hhs : In hs (numerals h)) (Hms : In ms (numerals m)) :
  let s := hs +:+ ":" +:+ ms in
  hhmm_ok s = true /\
  hhmm_ok "8:00" = true /\
  (s <> padded h m ->
   is_padded s = false /\
   (forall t : Dt.datetime, String.eqb s (Dt.hhmm t) = false) /\
   (forall (c : calendar) key l1 l2 v t,
       nut_fire_for_minute (<[key := l1 ++ Ex.ev s v :: l2]> c) t
       = nut_fire_for_minute (<[key := l1 ++ l2]> c) t)) /\
  (forall s' : string,
      is_padded s' = false ->
      forall t : Dt.datetime,
        (0 <= Dt.hour t <= 23)%Z -> (0 <= Dt.minute t <= 59)%Z ->
        String.eqb s' (Dt.hhmm t) = false /\
        (forall (c : calendar) key l1 l2 v,
            nut_fire_for_minute (<[key := l1 ++ Ex.ev s' v :: l2]> c) t
            = nut_fire_for_minute (<[key := l1 ++ l2]> c) t)) /\
  ((10 <= h)%Z ->
   Py.str_lt (padded h m) "8:00" = true /\
   Py.str_le "8:00" (padded h m) = false /\
   (forall (t : Dt.datetime) v default,
       Dt.hour t = h -> Dt.minute t = m ->
       sp_from_date_calendar
         {[ Dt.ymd (Dt.dt_date t) := [Ex.ev "8:00" v] ]} t default
       = default)).
Proof.
  intros s. destruct (numerals_table h m hs ms Hh Hm Hhs Hms) as [Hok Hcase].
  fold s in Hok, Hcase.
  split; [exact Hok |].
  split; [reflexivity |].
  split; [| split].
  - intros Hne. destruct Hcase as [E | [Hp Hl]]; [contradiction |].
    assert (Hnever : forall t, String.eqb s (Dt.hhmm t) = false).
    { intros t. apply String.eqb_neq. intros E.
      rewrite E, hhmm_length in Hl. lia. }
    split; [exact Hp |]. split; [exact Hnever |].
    intros c key l1 l2 v t. apply nut_fire_skips. cbn [time Ex.ev]. apply Hnever.
  - intros s' Hs' t Ht1 Ht2.
    pose proof (not_padded_never_now s' t Hs' Ht1 Ht2) as Hn.
    split; [exact Hn |].
    intros c key l1 l2 v. apply nut_fire_skips. cbn [time Ex.ev]. exact Hn.
  - intros H10.
    destruct (padded_before_8 h m ltac:(lia) Hm) as [Hlt Hle].
    split; [exact Hlt |]. split; [exact Hle |].
    intros t v default Eh Em. apply no_applicable_event.
    intros e He. unfold get in He. rewrite lookup_singleton_eq in He.
    apply list_elem_of_singleton in He as ->.
    cbn [time Ex.ev]. rewrite hhmm_is_padded, Eh, Em. exact Hle.
Qed.

(** Use of C10 at [8:00], the numeral of 8 as it is and the numeral of 0
    padded: an event stored at [8:00] does not fire at 08:00. *)
Lemma C10_unpadded_times_witness :
  hhmm_ok "8:00" = true /\
  (forall t : Dt.datetime, String.eqb "8:00" (Dt.hhmm t) = false) /\
  nut_fire_for_minute (<[Dt.ymd Ex.D := [Ex.ev "8:00" 30]]> ∅)
    (Ex.at_ Ex.D 8 0 0)
  = [].
Proof.
  assert (H8 : (0 <= 8 <= 23)%Z) by lia.
  assert (H0 : (0 <= 0 <= 59)%Z) by lia.
  assert (I8 : In "8" (numerals 8)) by (left; reflexivity).
  assert (I0 : In "00" (numerals 0)) by (right; left; reflexivity).
  destruct (C10_unpadded_times 8 0 H8 H0 "8" "00" I8 I0) as (Hok & _ & Hnever & _).
  change ("8" +:+ ":" +:+ "00") with "8:00" in Hok, Hnever.
  split; [exact Hok |].
  destruct Hnever as (_ & Hn & Hskip);
    [intros E; vm_compute in E; discriminate E |].
  split; [exact Hn |].
  etransitivity;
    [exact (Hskip ∅ (Dt.ymd Ex.D) [] [] 30%Q (Ex.at_ Ex.D 8 0 0)) |].
  vm_compute. reflexivity.
Defined.

End CalProps.

(** ** Flow sensor: reporting *)

Module SensorProps.

Local Open Scope Q_scope.

Lemma max_min_range lo hi x : lo <= hi -> lo <= Py.max lo (Py.min hi x) <= hi.
Proof.
  intros H.
  destruct (py_min_cases hi x) as [[? ->] | [? ->]];
    [destruct (py_max_cases lo x) as [[? ->] | [? ->]]
    | destruct (py_max_cases lo hi) as [[? ->] | [? ->]]]; lra.
Qed.

(** [flow_to_rate_g_l_h] is 0 when the density or the volume is not
    positive; otherwise it is the flow times a positive constant, hence 0
    at no flow and monotone in the flow. *)
Theorem flow_to_rate_proportional (density volume : Q) :
  (density <= 0 \/ volume <= 0 ->
   forall f, Sensor.flow_to_rate_g_l_h density volume f = 0) /\
  (0 < density -> 0 < volume ->
   (forall f,
       Sensor.flow_to_rate_g_l_h density volume f
       == f * (0.00006 * density / volume)) /\
   Sensor.flow_to_rate_g_l_h density volume 0 == 0 /\
   (forall f1 f2,
       f1 <= f2 ->
       Sensor.flow_to_rate_g_l_h density volume f1
       <= Sensor.flow_to_rate_g_l_h density volume f2)).
Proof.
  split.
  - intros H f. unfold Sensor.flow_to_rate_g_l_h.
    destruct H as [H | H]; apply py_leb_true in H; rewrite H;
      [reflexivity | now rewrite orb_true_r].
  - intros Hd Hv.
    assert (E : forall f, Sensor.flow_to_rate_g_l_h density volume f
                          == f * (0.00006 * density / volume)).
    { intros f. unfold Sensor.flow_to_rate_g_l_h.
      assert (E1 : Py.leb density 0 = false) by now apply py_leb_false.
      assert (E2 : Py.leb volume 0 = false) by now apply py_leb_false.
      rewrite E1, E2. cbn. field. lra. }
    split; [exact E |]. split; [rewrite E; ring |].
    intros f1 f2 Hle. rewrite !E.
    assert (Hk : 0 < 0.00006 * density / volume).
    { apply Qlt_shift_div_l; [exact Hv |].
      assert (0 < 0.00006 * density) by (apply Qmult_lt_0_compat; [reflexivity | exact Hd]).
      lra. }
    assert (0 <= (f2 - f1) * (0.00006 * density / volume))
      by (apply Qmult_le_0_compat; lra).
    set (kk := 0.00006 * density / volume) in *.
    assert (Er : (f2 - f1) * kk == f2 * kk - f1 * kk) by ring.
    lra.
Qed.

Lemma flow_to_rate_proportional_witness :
  Sensor.flow_to_rate_g_l_h 1964 5 0 == 0 /\
  Sensor.flow_to_rate_g_l_h 0 5 30 = 0.
Proof.
  destruct (flow_to_rate_proportional 1964 5) as [_ H].
  destruct H as (_ & H0 & _); [reflexivity | reflexivity |].
  split; [exact H0 |].
  destruct (flow_to_rate_proportional 0 5) as [H' _].
  apply H'. left. discriminate.
Defined.

(** The countdown text splits a non-negative number of seconds into hours,
    minutes below 60 and seconds below 60 that add up to it again. *)
Theorem countdown_round_trip (total : Z) (Hpos : (0 <= total)%Z) :
  let '(hh, mm, ss) := Sensor.countdown total in
  (hh * 3600 + mm * 60 + ss = total /\
   0 <= hh /\ 0 <= mm < 60 /\ 0 <= ss < 60)%Z.
Proof.
  unfold Sensor.countdown. Z.to_euclidean_division_equations. lia.
Qed.

Lemma countdown_round_trip_witness :
  let '(hh, mm, ss) := Sensor.countdown 3725 in
  (hh * 3600 + mm * 60 + ss = 3725 /\
   0 <= hh /\ 0 <= mm < 60 /\ 0 <= ss < 60)%Z.
Proof. apply (countdown_round_trip 3725). lia. Defined.

End SensorProps.

(** ** The control loop as a whole *)

Module LoopProps.

Import Panel.

Local Open Scope Q_scope.

(** The panel on which [update_process] evaluates the transition rule. *)
Lemma update_process_shape i p w :
  let tn := tnow i in
  let pc :=
    dosing_state tn
      (dosing_schedule tn (calendar_setpoint tn (set__last_update tn p))) in
  fst (update_process i (p, w))
  = thermal_control
      (if Hw.sim (hw w)
       then _simulate_temp
              (Py.max 0.001 (Dt.diff_seconds tn (_last_update p))) (ruido i) pc
       else set_t
              (fst (fst (Hw.read_temp_ds18b20 (hw w) (sensor_index (name pc))
                           (sim_value i) (w1 i))))
              pc).
Proof.
  cbv zeta. unfold update_process.
  destruct (Hw.sim (hw w)); [reflexivity |].
  destruct (Hw.read_temp_ds18b20 _ _ _ _) as [[v out] hw']. reflexivity.
Qed.

(** The dosing fields are left alone by the temperature update and the
    transition rule. *)
Lemma thermal_control_dosing p :
  let p' := thermal_control p in
  nut_running_until p' = nut_running_until p /\
  _nut_led_on p' = _nut_led_on p /\
  manual_nut_on p' = manual_nut_on p /\
  _last_min p' = _last_min p.
Proof.
  cbv zeta. unfold thermal_control.
  destruct (manual_mode p); cbn [negb]; [repeat split |].
  repeat match goal with
  | |- context [if ?b then _ else _] => destruct b; cbn
  end; repeat split.
Qed.

Lemma simulate_temp_dosing dts r p :
  let p' := _simulate_temp dts r p in
  nut_running_until p' = nut_running_until p /\
  _nut_led_on p' = _nut_led_on p /\
  manual_nut_on p' = manual_nut_on p /\
  _last_min p' = _last_min p.
Proof.
  cbv zeta. unfold _simulate_temp. destruct (Py.leb dts 0); repeat split.
Qed.

Lemma dosing_state_result tn p :
  let p' := dosing_state tn p in
  (forall u, nut_running_until p' = Some u -> Dt.ltb tn u = true) /\
  _nut_led_on p'
  = (match nut_running_until p' with Some _ => true | None => manual_nut_on p end) /\
  manual_nut_on p' = manual_nut_on p.
Proof.
  cbv zeta. unfold dosing_state, schedule_active.
  destruct (nut_running_until p) as [u |] eqn:E.
  - destruct (Dt.ltb tn u) eqn:El; cbn; rewrite ?E; repeat split;
      try discriminate.
    intros u' [= <-]. exact El.
  - cbn. repeat split. discriminate.
Qed.

Lemma dosing_schedule_manual_nut tn p :
  manual_nut_on (dosing_schedule tn p) = manual_nut_on p.
Proof.
  unfold dosing_schedule. destruct (decide _); [reflexivity |].
  destruct (Cal.nut_fire_for_minute _ _); [reflexivity |].
  destruct (Py.ltb _ _); reflexivity.
Qed.

Lemma calendar_setpoint_manual_nut tn p :
  manual_nut_on (calendar_setpoint tn p) = manual_nut_on p.
Proof.
  unfold calendar_setpoint. destruct (manual_mode p); cbn [negb]; [reflexivity |].
  destruct (Cal.sp_from_date_calendar _ _ _); reflexivity.
Qed.

(** After every tick the dosing deadline is either cleared or strictly
    ahead of the tick's instant, and the pump indicator is on exactly when
    a deadline is pending or the manual pump toggle is set; the tick leaves
    the manual toggle as it was. *)
Theorem tick_pump_state (i : tick) (p : Panel) (w : world) :
  let p' := fst (update_process i (p, w)) in
  (forall u, nut_running_until p' = Some u -> Dt.ltb (tnow i) u = true) /\
  (_nut_led_on p' = true <->
   (exists u, nut_running_until p' = Some u) \/ manual_nut_on p' = true) /\
  manual_nut_on p' = manual_nut_on p.
Proof.
  cbv zeta. rewrite update_process_shape. cbv zeta.
  set (p0 := set__last_update (tnow i) p).
  set (pb := dosing_schedule (tnow i) (calendar_setpoint (tnow i) p0)).
  destruct (dosing_state_result (tnow i) pb) as (Hu & Hled & Hman).
  set (pc := dosing_state (tnow i) pb) in *.
  assert (Hmb : manual_nut_on pb = manual_nut_on p).
  { unfold pb. now rewrite dosing_schedule_manual_nut, calendar_setpoint_manual_nut. }
  set (pd := if Hw.sim (hw w) then _ else _).
  assert (Hd : nut_running_until pd = nut_running_until pc /\
               _nut_led_on pd = _nut_led_on pc /\
               manual_nut_on pd = manual_nut_on pc).
  { unfold pd. destruct (Hw.sim (hw w)).
    - destruct (simulate_temp_dosing
                  (Py.max 0.001 (Dt.diff_seconds (tnow i) (_last_update p)))
                  (ruido i) pc) as (? & ? & ? & _). auto.
    - repeat split. }
  destruct Hd as (Hd1 & Hd2 & Hd3).
  destruct (thermal_control_dosing pd) as (Ht1 & Ht2 & Ht3 & _).
  rewrite Ht1, Ht2, Ht3, Hd1, Hd2, Hd3, Hman, Hmb.
  split; [exact Hu |]. split; [| reflexivity].
  rewrite Hled, Hmb. destruct (nut_running_until pc) as [u |].
  - split; [intros _; left; now exists u | reflexivity].
  - split; [intros H; now right | intros [[u Hu'] | H]; [discriminate | exact H]].
Qed.

(** *** Temperature acquisition *)

(** In simulator mode the temperature after a tick lies within -5..40
    degrees. With a sensor present the temperature after a tick is the value
    read, or 20.0 when the read failed. *)
Theorem tick_temperature (i : tick) (p : Panel) (w : world) :
  let p' := fst (update_process i (p, w)) in
  (Hw.sim (hw w) = true -> -5 <= t p' <= 40) /\
  (Hw.real_mode (hw w) ->
   t p' = match w1 i with Hw.W1_ok temp => temp | Hw.W1_raise _ => 20 end).
Proof.
  cbv zeta. rewrite update_process_shape. cbv zeta.
  set (pc := dosing_state _ _).
  split.
  - intros Hs. rewrite Hs.
    destruct (PanelProps.thermal_control_frame
                (_simulate_temp
                   (Py.max 0.001 (Dt.diff_seconds (tnow i) (_last_update p)))
                   (ruido i) pc)) as (-> & _).
    unfold _simulate_temp.
    assert (E : Py.leb (Py.max 0.001 (Dt.diff_seconds (tnow i) (_last_update p))) 0
                = false).
    { apply py_leb_false.
      destruct (py_max_cases 0.001 (Dt.diff_seconds (tnow i) (_last_update p)))
        as [[? ->] | [? ->]]; lra. }
    rewrite E. cbn [t set_t].
    apply SensorProps.max_min_range. discriminate.
  - intros [Hs Hd]. rewrite Hs.
    destruct (PanelProps.thermal_control_frame
                (set_t (fst (fst (Hw.read_temp_ds18b20 (hw w)
                                    (sensor_index (name pc)) (sim_value i) (w1 i))))
                   pc)) as (-> & _).
    cbn [t set_t]. unfold Hw.read_temp_ds18b20.
    destruct (Hw.ds_devices (hw w)) as [| d0 ds]; [contradiction |].
    rewrite Hs. destruct (w1 i) as [temp | msg]; [reflexivity |].
    destruct (negb (Hw._last_temp_error (hw w))); reflexivity.
Qed.

Lemma tick_temperature_witness :
  t (fst (update_process Ex.tick_0900 (Ex.f1, Ex.w0))) = 20.1.
Proof.
  destruct (tick_temperature Ex.tick_0900 Ex.f1 Ex.w0) as [_ H].
  apply H. split; [reflexivity | discriminate].
Defined.

(** *** Outside the band *)

(** In automatic mode a tick that ends at or above the upper threshold
    leaves cooling on and heating off, and one that ends at or below the
    lower threshold leaves heating on and cooling off, whatever the
    actuators were before. *)
Theorem tick_outside_band (i : tick) (p : Panel) (w : world)
    (Hauto : manual_mode p = false) :
  let p' := fst (update_process i (p, w)) in
  (sp p' + Py.max 0.05 (band p') <= t p' ->
   cold_in p' = true /\ hot_in p' = false) /\
  (t p' <= sp p' - Py.max 0.05 (band p') ->
   cold_in p' = false /\ hot_in p' = true).
Proof.
  cbv zeta.
  destruct (PanelProps.update_process_thermal i p w)
    as (p1 & -> & _ & _ & Hm & _).
  rewrite Hauto in Hm.
  destruct (PanelProps.thermal_control_frame p1) as (-> & -> & -> & _).
  destruct (PanelProps.thermal_control_flags p1 Hm) as [-> ->].
  pose proof (PanelProps.effective_band_pos (band p1)) as [Hb _].
  split; intros H.
  - assert (E1 : Py.leb (sp p1 + Py.max 0.05 (band p1)) (t p1) = true)
      by now apply py_leb_true.
    assert (E2 : Py.leb (t p1) (sp p1 - Py.max 0.05 (band p1)) = false)
      by (apply py_leb_false; lra).
    rewrite E1, E2. destruct (cold_in p1), (hot_in p1); split; reflexivity.
  - assert (E1 : Py.leb (sp p1 + Py.max 0.05 (band p1)) (t p1) = false)
      by (apply py_leb_false; lra).
    assert (E2 : Py.leb (t p1) (sp p1 - Py.max 0.05 (band p1)) = true)
      by now apply py_leb_true.
    rewrite E1, E2. destruct (cold_in p1), (hot_in p1); split; reflexivity.
Qed.

Lemma tick_outside_band_witness :
  let p := apply_sp 18 Ex.f1 in
  cold_in (fst (update_process Ex.tick_0900 (p, Ex.w0))) = true /\
  hot_in (fst (update_process Ex.tick_0900 (p, Ex.w0))) = false.
Proof.
  cbv zeta.
  destruct (tick_outside_band Ex.tick_0900 (apply_sp 18 Ex.f1) Ex.w0 eq_refl)
    as [H _].
  apply H. vm_compute. discriminate.
Defined.

(** *** Manual override *)

Lemma manual_tick i p w :
  manual_mode p = true ->
  let p' := fst (update_process i (p, w)) in
  cold_in p' = cold_in p /\ hot_in p' = hot_in p /\
  sp p' = sp p /\ band p' = band p /\ manual_mode p' = true.
Proof.
  intros Hm. cbv zeta.
  destruct (PanelProps.update_process_thermal i p w)
    as (p1 & -> & Hc & Hh & Hm1 & Hb & Hsp).
  rewrite Hm in Hm1. rewrite (PanelProps.thermal_control_manual p1 Hm1).
  repeat split; auto.
Qed.

Lemma manual_ticks ticks : forall p w,
  manual_mode p = true ->
  let p' := fst (run (map UpdateProcess ticks) (p, w)) in
  cold_in p' = cold_in p /\ hot_in p' = hot_in p /\
  sp p' = sp p /\ band p' = band p /\ manual_mode p' = true.
Proof.
  induction ticks as [| i ticks IH]; intros p w Hm; [repeat split; assumption |].
  cbn [map run fold_left step].
  destruct (manual_tick i p w Hm) as (Hc & Hh & Hs & Hb & Hm').
  destruct (update_process i (p, w)) as [p1 w1] eqn:E. cbn [fst] in *.
  destruct (IH p1 w1 Hm') as (Hc' & Hh' & Hs' & Hb' & Hm'').
  unfold run in *. repeat split; congruence.
Qed.

(** While manual override is on, control ticks leave both actuators, the
    setpoint and the band as they are: the setpoint calendar is not applied
    and the transition rule is not evaluated. *)
Theorem manual_override_freezes (ticks : list tick) (p : Panel) (w : world)
    (Hman : manual_mode p = true) :
  let p' := fst (run (map UpdateProcess ticks) (p, w)) in
  cold_in p' = cold_in p /\ hot_in p' = hot_in p /\
  sp p' = sp p /\ band p' = band p /\ manual_mode p' = true.
Proof. now apply manual_ticks. Qed.

Lemma manual_override_freezes_witness :
  let p := forzar_frio (set_manual_mode true (apply_sp 25 Ex.f1)) in
  cold_in (fst (run [UpdateProcess Ex.tick_0900] (p, Ex.w0))) = true /\
  sp (fst (run [UpdateProcess Ex.tick_0900] (p, Ex.w0))) = 25.
Proof.
  cbv zeta.
  destruct (manual_override_freezes [Ex.tick_0900]
              (forzar_frio (set_manual_mode true (apply_sp 25 Ex.f1)))
              Ex.w0 eq_refl) as (Hc & _ & Hs & _).
  split; [exact Hc | exact Hs].
Defined.

(** The global stop leaves a panel in manual override with both actuators
    off, no dosing deadline, the manual pump toggle and the pump indicator
    off; the actuators stay off and the override stays on over any number
    of control ticks that follow. *)
Theorem stop_all_holds (ticks : list tick) (p : Panel) (w : world) :
  let q := stop_all p in
  let p' := fst (run (map UpdateProcess ticks) (q, w)) in
  (manual_mode q = true /\ cold_in q = false /\ hot_in q = false /\
   nut_running_until q = None /\ manual_nut_on q = false /\
   _nut_led_on q = false) /\
  cold_in p' = false /\ hot_in p' = false /\ manual_mode p' = true.
Proof.
  cbv zeta. split; [repeat split |].
  destruct (manual_ticks ticks (stop_all p) w eq_refl) as (-> & -> & _ & _ & ->).
  repeat split.
Qed.

(** A forced action is refused outside manual override; in manual override
    it switches the requested actuator on and the other one off, and the
    pair stays so over the control ticks that follow. *)
Theorem forced_action_holds (ticks : list tick) (p : Panel) (w : world) :
  (manual_mode p = false ->
   forzar_frio p = p /\ forzar_caliente p = p) /\
  (manual_mode p = true ->
   let pf := fst (run (map UpdateProcess ticks) (forzar_frio p, w)) in
   let pc := fst (run (map UpdateProcess ticks) (forzar_caliente p, w)) in
   (cold_in pf = true /\ hot_in pf = false) /\
   (cold_in pc = false /\ hot_in pc = true)).
Proof.
  split; intros Hm.
  - unfold forzar_frio, forzar_caliente, _can_force. rewrite Hm. split; reflexivity.
  - cbv zeta.
    assert (Hf : manual_mode (forzar_frio p) = true)
      by (unfold forzar_frio, _can_force; rewrite Hm; exact Hm).
    assert (Hc : manual_mode (forzar_caliente p) = true)
      by (unfold forzar_caliente, _can_force; rewrite Hm; exact Hm).
    destruct (manual_ticks ticks (forzar_frio p) w Hf) as (-> & -> & _).
    destruct (manual_ticks ticks (forzar_caliente p) w Hc) as (-> & -> & _).
    unfold forzar_frio, forzar_caliente, _can_force. rewrite Hm.
    repeat split.
Qed.

Lemma forced_action_holds_witness :
  forzar_frio Ex.f1 = Ex.f1 /\
  hot_in (fst (run (map UpdateProcess [Ex.tick_0900])
                 (forzar_caliente (set_manual_mode true Ex.f1), Ex.w0))) = true.
Proof.
  destruct (forced_action_holds [Ex.tick_0900] Ex.f1 Ex.w0) as [H _].
  destruct (H eq_refl) as [Hf _]. split; [exact Hf |].
  destruct (forced_action_holds [Ex.tick_0900] (set_manual_mode true Ex.f1) Ex.w0)
    as [_ H'].
  destruct (H' eq_refl) as [_ [_ Hh]]. exact Hh.
Defined.

(** *** The band *)

Lemma band_step o pw : 0.05 <= band (fst pw) -> 0.05 <= band (fst (step o pw)).
Proof.
  intros H. destruct pw as [p w]. destruct o; cbn [step on_panel fst snd];
    try exact H.
  - destruct (PanelProps.update_process_thermal i p w)
      as (p1 & -> & _ & _ & _ & Hb & _).
    destruct (PanelProps.thermal_control_frame p1) as (_ & _ & -> & _).
    now rewrite Hb.
  - unfold forzar_frio. destruct (_can_force p); exact H.
  - unfold forzar_caliente. destruct (_can_force p); exact H.
  - unfold apply_band. destruct (Py.ltb v 0.05) eqn:E; [exact H |].
    apply py_ltb_false in E. exact E.
Qed.

(** With entries that are finite numbers (the rationals of the model),
    from the initial state on, whatever the operator and the control loop
    do, the band stays at least 0.05, so the lower bound applied by the
    transition rule never changes it. In binary64, whatever float the band
    holds (an entry of nan passes the test of [_apply_entry_float], and so
    does an infinity), the band the thermal rule uses is the stored one or
    0.05 and is never below 0.05; for a nan it is 0.05. *)
Theorem band_at_least_minimum
    (nm : string) (t0 amb : Q) (t_start : Dt.datetime) (w : world)
    (ops : list op) :
  let p := fst (run ops (init nm t0 amb t_start, w)) in
  (0.05 <= band p /\ Py.max 0.05 (band p) == band p)
  /\ (forall b : PrimFloat.float,
        PrimFloat.leb F64.f_0_05 (F64.effective_band b) = true
        /\ (F64.effective_band b = b \/ F64.effective_band b = F64.f_0_05))
  /\ F64.accepts F64.f_0_05 PrimFloat.nan = true
  /\ F64.effective_band PrimFloat.nan = F64.f_0_05
  /\ F64.accepts F64.f_0_05 PrimFloat.infinity = true
  /\ F64.effective_band PrimFloat.infinity = PrimFloat.infinity.
Proof.
  cbv zeta.
  split; [|split; [exact F64Props.effective_band_floor|
                   repeat split; vm_compute; reflexivity]].
  assert (H : 0.05 <= band (fst (run ops (init nm t0 amb t_start, w)))).
  { assert (G : forall pw, 0.05 <= band (fst pw) ->
                           0.05 <= band (fst (run ops pw))).
    { induction ops as [| o ops IH]; intros pw Hb; [exact Hb |].
      cbn. apply IH. now apply band_step. }
    apply G. cbn. discriminate. }
  split; [exact H |].
  destruct (py_max_cases 0.05 (band (fst (run ops (init nm t0 amb t_start, w)))))
    as [[? ->] | [? ->]]; lra.
Qed.

End LoopProps.

(** ** Recording: export, restart and the shape of the files *)

Module RecProps.

Import Csv Rec.

(** [csv_export] is refused while the panel records and when the source
    file is missing. Otherwise, to a destination other than the source, it
    leaves there exactly the lines of the source and changes no other file;
    to the source itself, it leaves the file empty. *)
Theorem export_cases (p : Panel.Panel) (fs : files) :
  (Panel._csv_running p = true ->
   forall dst, csv_export p fs dst = (fs, false)) /\
  (fs !! Panel.csv_path p = None ->
   forall dst, csv_export p fs dst = (fs, false)) /\
  (Panel._csv_running p = false ->
   forall ls, fs !! Panel.csv_path p = Some ls ->
   (forall d, d <> Panel.csv_path p ->
      snd (csv_export p fs (Some d)) = true /\
      fst (csv_export p fs (Some d)) !! d = Some ls /\
      forall q, q <> d -> fst (csv_export p fs (Some d)) !! q = fs !! q) /\
   fst (csv_export p fs (Some (Panel.csv_path p))) !! Panel.csv_path p
   = Some []).
Proof.
  split; [| split].
  - intros H dst. unfold csv_export. now rewrite H.
  - intros H dst. unfold csv_export, exists_. rewrite H.
    destruct (Panel._csv_running p); reflexivity.
  - intros Hr ls Hs. unfold csv_export, exists_. rewrite Hr, Hs. cbn [negb].
    split.
    + intros d Hd. cbn [fst snd]. split; [reflexivity |].
      assert (E : <[d := []]> fs !! Panel.csv_path p = Some ls)
        by (rewrite lookup_insert_ne; [exact Hs | exact Hd]).
      rewrite E. split; [now rewrite lookup_insert_eq |].
      intros q Hq. now rewrite !lookup_insert_ne by congruence.
    + cbn [fst]. now rewrite !lookup_insert_eq.
Qed.

Lemma export_cases_witness :
  let fs := <[Panel.csv_path Ex.f1 := [Header Panel.backup_fields]]> ∅ in
  csv_export Ex.f1 fs (Some "/media/usb/Temp_F1.csv") = (fs, false).
Proof.
  cbv zeta.
  destruct (export_cases Ex.f1
              (<[Panel.csv_path Ex.f1 := [Header Panel.backup_fields]]> ∅))
    as [H _].
  apply H. reflexivity.
Defined.

(** *** One header, in first place *)


Lemma well_headed_fresh fields cells : well_headed [Header fields; Data cells].
Proof. reflexivity. Qed.








(** *** Records per tick *)









End RecProps.

(** ** Calendar editing and import *)

Module DialogProps.

Import Cal Dialog.

(** *** Times as [strftime] prints them *)

Lemma padded_accepted h m :
  (0 <= h <= 23)%Z -> (0 <= m <= 59)%Z -> hhmm_ok (padded h m) = true.
Proof.
  apply (CalProps.time_table (fun h m => hhmm_ok (padded h m))).
  vm_compute. reflexivity.
Qed.

Lemma two_digits_compare a b :
  (0 <= a < 60)%Z -> (0 <= b < 60)%Z ->
  String.compare (Py.fmt02 a) (Py.fmt02 b) = (a ?= b)%Z.
Proof.
  intros Ha Hb.
  assert (T : forallb
                (fun x => forallb
                   (fun y => comparison_eqb
                               (String.compare (Py.fmt02 (Z.of_nat x))
                                  (Py.fmt02 (Z.of_nat y)))
                               (Z.of_nat x ?= Z.of_nat y)%Z)
                   (seq 0 60)) (seq 0 60) = true)
    by (vm_compute; reflexivity).
  rewrite forallb_forall in T.
  specialize (T (Z.to_nat a) ltac:(apply in_seq; lia)).
  rewrite forallb_forall in T.
  specialize (T (Z.to_nat b) ltac:(apply in_seq; lia)).
  rewrite !Z2Nat.id in T by lia.
  destruct (String.compare _ _), (a ?= b)%Z; try reflexivity; discriminate.
Qed.

Lemma compare_two_then c1 c2 d1 d2 s1 s2 :
  String.compare (String c1 (String c2 s1)) (String d1 (String d2 s2))
  = match String.compare (String c1 (String c2 EmptyString))
            (String d1 (String d2 EmptyString)) with
    | Eq => String.compare s1 s2
    | r => r
    end.
Proof.
  cbn. destruct (Ascii.compare c1 d1); [| reflexivity | reflexivity].
  destruct (Ascii.compare c2 d2); reflexivity.
Qed.

Lemma padded_compare h m h' m' :
  (0 <= h < 60)%Z -> (0 <= m < 60)%Z -> (0 <= h' < 60)%Z -> (0 <= m' < 60)%Z ->
  String.compare (padded h m) (padded h' m')
  = match (h ?= h')%Z with Eq => (m ?= m')%Z | r => r end.
Proof.
  intros Hh Hm Hh' Hm'.
  rewrite <- (two_digits_compare h h' Hh Hh'), <- (two_digits_compare m m' Hm Hm').
  unfold padded, Py.fmt02. cbn [String.append].
  generalize (Py.digit_char (h / 10)), (Py.digit_char (h mod 10)),
    (Py.digit_char (h' / 10)), (Py.digit_char (h' mod 10)),
    (Py.digit_char (m / 10)), (Py.digit_char (m mod 10)),
    (Py.digit_char (m' / 10)), (Py.digit_char (m' mod 10)).
  intros a1 a2 b1 b2 c1 c2 d1 d2.
  change (String.compare
            (String a1 (String a2 (String ":" (String c1 (String c2 EmptyString)))))
            (String b1 (String b2 (String ":" (String d1 (String d2 EmptyString)))))
          = match String.compare (String a1 (String a2 EmptyString))
                    (String b1 (String b2 EmptyString)) with
            | Eq => String.compare (String c1 (String c2 EmptyString))
                      (String d1 (String d2 EmptyString))
            | r => r
            end).
  rewrite (compare_two_then a1 a2 b1 b2 (String ":" _) (String ":" _)).
  destruct (String.compare (String a1 (String a2 EmptyString))
              (String b1 (String b2 EmptyString))); reflexivity.
Qed.

(** Every time [strftime("%H:%M")] prints is accepted by [hhmm_ok]; on such
    times the order on strings that the lookups use is the order of the
    times of day, and two of them are equal strings only for the same hour
    and minute. *)
Theorem padded_times_order (h m h' m' : Z)
    (Hh : (0 <= h <= 23)%Z) (Hm : (0 <= m <= 59)%Z)
    (Hh' : (0 <= h' <= 23)%Z) (Hm' : (0 <= m' <= 59)%Z) :
  hhmm_ok (padded h m) = true /\
  (Py.str_le (padded h m) (padded h' m') = true
   <-> (h * 60 + m <= h' * 60 + m')%Z) /\
  (String.eqb (padded h m) (padded h' m') = true <-> h = h' /\ m = m').
Proof.
  split; [now apply padded_accepted |].
  pose proof (padded_compare h m h' m' ltac:(lia) ltac:(lia) ltac:(lia) ltac:(lia))
    as Hc.
  split.
  - rewrite CalProps.leb_not_gt, Hc.
    destruct (Z.compare_spec h h'), (Z.compare_spec m m');
      split; intros; try lia; try discriminate; try contradiction; auto.
  - rewrite String.eqb_eq. split.
    + intros E. rewrite E in Hc.
      assert (Hr : String.compare (padded h' m') (padded h' m') = Eq).
      { pose proof (String.compare_antisym (padded h' m') (padded h' m')) as Ha.
        destruct (String.compare (padded h' m') (padded h' m'));
          [reflexivity | discriminate | discriminate]. }
      rewrite Hr in Hc.
      destruct (Z.compare_spec h h'), (Z.compare_spec m m');
        try discriminate; auto.
    + now intros [-> ->].
Qed.

Section Parsers.

Variable float : string -> option Q.
Variable _normalize_date : string -> option Dt.date.

Lemma times_ok_Forall (c : calendar) :
  times_ok c = true <-> map_Forall (fun _ l => Forall ok_event l) c.
Proof. unfold times_ok. apply bool_decide_eq_true. Qed.

Lemma well_formed_empty : well_formed ∅.
Proof.
  split; [apply times_ok_Forall |]; apply map_Forall_empty.
Qed.

Lemma well_formed_insert (c : calendar) key l :
  well_formed c -> l <> [] -> Forall ok_event l -> well_formed (<[key := l]> c).
Proof.
  intros [H1 H2] Hl Hf. apply times_ok_Forall in H1.
  split; [apply times_ok_Forall |]; now apply map_Forall_insert_2.
Qed.

Lemma well_formed_delete (c : calendar) key :
  well_formed c -> well_formed (delete key c).
Proof.
  intros [H1 H2]. apply times_ok_Forall in H1.
  split; [apply times_ok_Forall |]; now apply map_Forall_delete.
Qed.

Lemma well_formed_get (c : calendar) key :
  well_formed c -> Forall ok_event (get c key).
Proof.
  intros [H1 _]. apply times_ok_Forall in H1. unfold get.
  destruct (c !! key) as [l |] eqn:E; [exact (H1 key l E) | constructor].
Qed.

Lemma snoc_not_nil (l : list event) e : l ++ [e] <> [].
Proof. destruct l; discriminate. Qed.

Lemma add_event_well_formed data sel today tv vv :
  well_formed data -> well_formed (add_event float data sel today tv vv).
Proof.
  intros H. unfold add_event.
  destruct (date_ltb sel today); [exact H |].
  destruct (hhmm_ok (Py.strip tv)) eqn:E; cbn [negb]; [| exact H].
  destruct (float (Py.strip vv)) as [val |]; [| exact H].
  apply well_formed_insert; [exact H | apply snoc_not_nil |].
  apply Forall_app. split; [now apply well_formed_get |].
  constructor; [exact E | constructor].
Qed.

Lemma remove_Forall (P : event -> Prop) old l :
  Forall P l -> Forall P (remove old l).
Proof.
  induction 1 as [| x l Hx Hl IH]; cbn; [constructor |].
  destruct (event_eqb x old); [exact Hl | now constructor].
Qed.

Lemma edit_event_well_formed data sel idx tv vv :
  well_formed data -> well_formed (edit_event float data sel idx tv vv).
Proof.
  intros H. unfold edit_event. destruct idx as [idx |]; [| exact H].
  destruct (sorted (get data (Dt.ymd sel))) as [| x flist] eqn:Es; [exact H |].
  destruct (hhmm_ok (Py.strip tv)) eqn:E; cbn [negb]; [| exact H].
  destruct (float (Py.strip vv)) as [val |]; [| exact H].
  destruct ((x :: flist) !! idx) as [old |]; [| exact H].
  destruct (index old (get data (Dt.ymd sel))) as [orig |]; [| exact H].
  apply well_formed_insert; [exact H | |].
  - intros En. apply (f_equal length) in En. rewrite length_insert in En.
    destruct (get data (Dt.ymd sel)); [discriminate Es | discriminate En].
  - apply Forall_insert; [now apply well_formed_get | exact E].
Qed.

Lemma del_event_well_formed data sel idx :
  well_formed data -> well_formed (del_event data sel idx).
Proof.
  intros H. unfold del_event. destruct idx as [idx |]; [| exact H].
  destruct (sorted (get data (Dt.ymd sel))) as [| x flist]; [exact H |].
  destruct ((x :: flist) !! idx) as [old |]; [| exact H].
  destruct (remove old (get data (Dt.ymd sel))) as [| y l] eqn:Er.
  - now apply well_formed_delete.
  - apply well_formed_insert; [exact H | discriminate |].
    rewrite <- Er. apply remove_Forall. now apply well_formed_get.
Qed.

Lemma clear_day_well_formed data sel confirmed :
  well_formed data -> well_formed (clear_day data sel confirmed).
Proof.
  intros H. unfold clear_day. destruct (get data (Dt.ymd sel)); [exact H |].
  destruct confirmed; [now apply well_formed_delete | exact H].
Qed.

Lemma row_event_ok r key e :
  row_event float _normalize_date r = Some (key, e) -> ok_event e.
Proof.
  unfold row_event.
  destruct (py_or _ _) as [d |]; [| discriminate].
  destruct (py_or _ _) as [tm |]; [| discriminate].
  destruct (py_or _ _) as [v |]; [| discriminate].
  destruct (negb (truthy d) || negb (truthy tm)); [discriminate |].
  destruct (_normalize_date d); [| discriminate].
  destruct (hhmm_ok (Py.strip tm)) eqn:E; cbn [negb]; [| discriminate].
  destruct (float v); [| discriminate].
  intros [= <- <-]. exact E.
Qed.

Lemma events_from_rows_well_formed rows :
  well_formed (_events_from_rows float _normalize_date rows).
Proof.
  unfold _events_from_rows.
  assert (G : forall acc, well_formed acc ->
                well_formed
                  (fold_left
                     (fun events r =>
                        match row_event float _normalize_date r with
                        | Some (key, e) => <[key := get events key ++ [e]]> events
                        | None => events
                        end) rows acc)).
  { induction rows as [| r rows IH]; intros acc Hacc; [exact Hacc |].
    cbn. apply IH.
    destruct (row_event float _normalize_date r) as [[key e] |] eqn:E;
      [| exact Hacc].
    apply well_formed_insert; [exact Hacc | apply snoc_not_nil |].
    apply Forall_app. split; [now apply well_formed_get |].
    constructor; [now apply (row_event_ok r key) | constructor]. }
  apply G, well_formed_empty.
Qed.

Lemma import_file_well_formed data rows :
  well_formed data -> well_formed (import_file float _normalize_date data rows).
Proof.
  intros H. unfold import_file. destruct rows as [rows |]; [| exact H].
  destruct (decide _); [exact H | apply events_from_rows_well_formed].
Qed.

Lemma lex_ltb_irrefl l : Dt.lex_ltb l l = false.
Proof.
  induction l as [| x l IH]; [reflexivity |].
  cbn. rewrite Z.ltb_irrefl, Z.eqb_refl, IH. reflexivity.
Qed.

(** Whatever the operator does in a calendar dialog opened on a well-formed
    calendar (every stored time accepted by [hhmm_ok], no day stored with an
    empty list), the data stays well-formed, and the selected date, which
    starts as today, is never before today. *)
Theorem session_invariants
    (today : Dt.date) (actions : list action) (data : calendar)
    (Hwf : well_formed data) :
  let st := session float _normalize_date today actions (data, today) in
  well_formed (fst st) /\ times_ok (fst st) = true /\
  date_ltb (snd st) today = false.
Proof.
  cbv zeta.
  assert (G : forall st,
             well_formed (fst st) /\ date_ltb (snd st) today = false ->
             well_formed (fst (session float _normalize_date today actions st)) /\
             date_ltb (snd (session float _normalize_date today actions st)) today
             = false).
  { unfold session. induction actions as [| a actions IH]; intros st Hst; [exact Hst |].
    cbn [fold_left]. apply IH. destruct st as [d sel]. destruct Hst as [Hd Hs].
    cbn [fst snd] in *.
    destruct a; cbn [act fst snd].
    - destruct (date_ltb d0 today) eqn:E; cbn [fst snd]; auto.
    - split; [now apply add_event_well_formed | exact Hs].
    - split; [now apply edit_event_well_formed | exact Hs].
    - split; [now apply del_event_well_formed | exact Hs].
    - split; [now apply clear_day_well_formed | exact Hs].
    - split; [now apply import_file_well_formed | exact Hs]. }
  destruct (G (data, today)) as [H1 H2].
  { split; [exact Hwf | apply lex_ltb_irrefl]. }
  split; [exact H1 |]. split; [exact (proj1 H1) | exact H2].
Qed.


(** [add_event] changes nothing when the selected date is before today,
    when the time is not accepted by [hhmm_ok] or when the value is not a
    number; otherwise it appends the event, with the time stripped of
    blanks, at the end of the selected day and leaves the other days as
    they are. *)
Lemma add_event_cases
    (data : calendar) (sel today : Dt.date) (tv vv : string) :
  let data' := add_event float data sel today tv vv in
  (date_ltb sel today = true -> data' = data) /\
  (hhmm_ok (Py.strip tv) = false -> data' = data) /\
  (float (Py.strip vv) = None -> data' = data) /\
  (forall v,
      date_ltb sel today = false -> hhmm_ok (Py.strip tv) = true ->
      float (Py.strip vv) = Some v ->
      get data' (Dt.ymd sel)
      = get data (Dt.ymd sel) ++ [{| time := Py.strip tv; value := v |}] /\
      forall key, key <> Dt.ymd sel -> get data' key = get data key).
Proof.
  cbv zeta. unfold add_event. repeat split.
  - now intros ->.
  - intros ->. now destruct (date_ltb sel today).
  - intros ->. destruct (date_ltb sel today); [reflexivity |].
    now destruct (negb _).
  - rewrite H, H0, H1. cbn [negb]. rewrite CalProps.get_insert.
    destruct (decide _); [reflexivity | contradiction].
  - intros key Hk. rewrite H, H0, H1. cbn [negb]. rewrite CalProps.get_insert.
    destruct (decide _); [congruence | reflexivity].
Qed.

Lemma last_insort_keeps x l e :
  last l = Some e -> le_time x e -> last (insort x l) = Some e.
Proof.
  induction l as [| y l IH]; [discriminate |].
  intros Hl Hx. cbn [insort].
  destruct (Py.str_le (time x) (time y)) eqn:E.
  - exact Hl.
  - destruct l as [| z l'].
    + cbn in Hl. injection Hl as <-. unfold le_time in Hx. congruence.
    + change (last (z :: l') = Some e) in Hl.
      specialize (IH Hl Hx).
      destruct (insort x (z :: l')) as [| w r]; [discriminate IH | exact IH].
Qed.

Lemma last_sorted_snoc l e :
  Forall (fun x => le_time x e) l -> last (sorted (l ++ [e])) = Some e.
Proof.
  unfold sorted. induction 1 as [| x l Hx Hl IH]; [reflexivity |].
  cbn [app foldr]. now apply last_insort_keeps.
Qed.

(** An event added for the current minute takes effect at once: the
    exact-minute lookup of that instant returns the values it returned
    before followed by the new one, and the latest-applicable lookup
    returns the new value. *)
Theorem added_event_takes_effect
    (data : calendar) (today : Dt.date) (now : Dt.datetime) (tv vv : string)
    (v : Q)
    (Hwf : well_formed data)
    (Hday : date_ltb (Dt.dt_date now) today = false)
    (Htime : Py.strip tv = Dt.hhmm now)
    (Hhour : (0 <= Dt.hour now <= 23)%Z)
    (Hminute : (0 <= Dt.minute now <= 59)%Z)
    (Hval : float (Py.strip vv) = Some v) :
  let data' := add_event float data (Dt.dt_date now) today tv vv in
  nut_fire_for_minute data' now = nut_fire_for_minute data now ++ [v] /\
  forall default, sp_from_date_calendar data' now default = Some v.
Proof.
  cbv zeta.
  assert (Hok : hhmm_ok (Dt.hhmm now) = true)
    by (rewrite CalProps.hhmm_is_padded; now apply padded_accepted).
  destruct (add_event_cases data (Dt.dt_date now) today tv vv)
    as (_ & _ & _ & H).
  rewrite Htime in H. destruct (H v Hday Hok Hval) as [Hget _].
  split.
  - rewrite !PanelProps.nut_fire_for_minute_filter, Hget.
    rewrite List.filter_app, map_app. cbn. now rewrite String.eqb_refl.
  - intros default. rewrite CalProps.sp_from_date_calendar_today, Hget.
    rewrite List.filter_app. cbn [List.filter].
    assert (Hq : qualifies (Dt.hhmm now)
                   {| time := Dt.hhmm now; value := v |} = true).
    { unfold qualifies. cbn [time].
      rewrite (CalProps.hhmm_ok_truthy _ Hok), CalProps.str_le_refl. reflexivity. }
    rewrite Hq, last_sorted_snoc; [reflexivity |].
    apply Forall_forall. intros x Hx.
    apply CalProps.filter_elem in Hx as [_ Hx].
    unfold qualifies in Hx. apply andb_true_iff in Hx as [_ Hx]. exact Hx.
Qed.

(** *** Deleting *)

Lemma event_eqb_refl e : event_eqb e e = true.
Proof.
  unfold event_eqb. rewrite String.eqb_refl. cbn.
  apply Qeq_bool_iff. reflexivity.
Qed.

Lemma remove_length old l :
  old ∈ l -> S (length (remove old l)) = length l.
Proof.
  induction l as [| x l IH]; [intros H; now apply elem_of_nil in H |].
  intros H. cbn. destruct (event_eqb x old) eqn:E; [reflexivity |].
  apply elem_of_cons in H as [-> | H].
  - rewrite event_eqb_refl in E. discriminate.
  - cbn. now rewrite IH.
Qed.

(** [del_event] with no selection, or a selection beyond the list, changes
    nothing; with a selected line it removes exactly one event of the
    selected day, leaves the other days as they are, and drops the day's
    key when its last event goes. *)
Theorem del_event_removes_one
    (data : calendar) (sel : Dt.date) (idx : nat) :
  del_event data sel None = data /\
  (length (get data (Dt.ymd sel)) <= idx -> del_event data sel (Some idx) = data) /\
  (idx < length (get data (Dt.ymd sel)) ->
   let data' := del_event data sel (Some idx) in
   S (length (get data' (Dt.ymd sel))) = length (get data (Dt.ymd sel)) /\
   (forall key, key <> Dt.ymd sel -> get data' key = get data key) /\
   (length (get data (Dt.ymd sel)) = 1 -> data' !! Dt.ymd sel = None))%nat.
Proof.
  assert (Hlen : forall l, length (sorted l) = length l).
  { intros l. unfold sorted. induction l as [| x l IH]; [reflexivity |].
    cbn. assert (G : forall e m, length (insort e m) = S (length m)).
    { intros e m. induction m as [| y m IHm]; [reflexivity |].
      cbn. destruct (Py.str_le _ _); cbn; [reflexivity | now rewrite IHm]. }
    now rewrite G, IH. }
  split; [reflexivity |].
  set (l := get data (Dt.ymd sel)).
  split.
  - intros Hi. unfold del_event. fold l.
    destruct (sorted l) as [| x flist] eqn:Es; [reflexivity |].
    assert (E : (x :: flist) !! idx = None).
    { apply lookup_ge_None. rewrite <- Es, Hlen. exact Hi. }
    now rewrite E.
  - intros Hi. cbv zeta. unfold del_event. fold l.
    destruct (sorted l) as [| x flist] eqn:Es.
    { exfalso. apply (f_equal length) in Es. rewrite Hlen in Es. cbn in Es. lia. }
    destruct ((x :: flist) !! idx) as [old |] eqn:E.
    2:{ exfalso. apply lookup_ge_None in E. rewrite <- Es, Hlen in E. lia. }
    assert (Hold : old ∈ l).
    { apply CalProps.sorted_elem. rewrite Es.
      apply list_elem_of_lookup. now exists idx. }
    pose proof (remove_length old l Hold) as Hr.
    destruct (remove old l) as [| y r] eqn:Er.
    + split; [| split].
      * unfold get at 1. rewrite lookup_delete_eq. exact Hr.
      * intros key Hk. unfold get. now rewrite lookup_delete_ne by congruence.
      * intros _. apply lookup_delete_eq.
    + split; [| split].
      * rewrite CalProps.get_insert. destruct (decide _); [exact Hr | contradiction].
      * intros key Hk. rewrite CalProps.get_insert.
        destruct (decide _); [congruence | reflexivity].
      * intros H1. rewrite H1 in Hr. cbn in Hr. lia.
Qed.

(** *** Month navigation *)

(** [prev_month] and [next_month] undo each other and keep the month
    within 1..12. *)
Theorem month_navigation (y m : Z) (Hm : (1 <= m <= 12)%Z) :
  next_month (prev_month (y, m)) = (y, m) /\
  prev_month (next_month (y, m)) = (y, m) /\
  (1 <= snd (prev_month (y, m)) <= 12)%Z /\
  (1 <= snd (next_month (y, m)) <= 12)%Z.
Proof.
  unfold next_month, prev_month.
  destruct (m =? 1)%Z eqn:E1; destruct (m =? 12)%Z eqn:E12;
    rewrite ?Z.eqb_eq, ?Z.eqb_neq in *; cbn [snd];
    repeat match goal with
    | |- context [(?a =? ?b)%Z] =>
        let E := fresh "E" in
        destruct (a =? b)%Z eqn:E; rewrite ?Z.eqb_eq, ?Z.eqb_neq in E
    end; cbn [snd]; repeat split; try lia; f_equal; lia.
Qed.

End Parsers.

Lemma padded_times_order_witness :
  Py.str_le "08:00" "14:00" = true /\ hhmm_ok "08:00" = true.
Proof.
  destruct (padded_times_order 8 0 14 0 ltac:(lia) ltac:(lia) ltac:(lia) ltac:(lia))
    as (Hok & Hle & _).
  split; [apply Hle; lia | exact Hok].
Defined.

Lemma session_invariants_witness :
  times_ok
    (fst (session ex_float ex_date Ex.D
            [Add "8:30" "25"; Select Ex.D1; Add "07:15" "18"; Del (Some 0%nat)]
            (∅, Ex.D))) = true.
Proof.
  exact (proj1 (proj2 (session_invariants ex_float ex_date Ex.D
                         [Add "8:30" "25"; Select Ex.D1; Add "07:15" "18";
                          Del (Some 0%nat)] ∅ well_formed_empty))).
Defined.

Lemma added_event_takes_effect_witness :
  nut_fire_for_minute
    (add_event ex_float ∅ Ex.D Ex.D " 09:00 " "30") (Ex.at_ Ex.D 9 0 0)
  = [inject_Z 30].
Proof.
  exact (proj1 (added_event_takes_effect ex_float ∅ Ex.D (Ex.at_ Ex.D 9 0 0)
                  " 09:00 " "30" (inject_Z 30) well_formed_empty
                  eq_refl eq_refl ltac:(cbn; lia) ltac:(cbn; lia) eq_refl)).
Defined.

Lemma month_navigation_witness :
  next_month (prev_month (2024, 1)%Z) = (2024, 1)%Z /\
  prev_month (2024, 1)%Z = (2023, 12)%Z.
Proof.
  destruct (month_navigation 2024 1 ltac:(lia)) as (H & _).
  split; [exact H | reflexivity].
Defined.

End DialogProps.

(** * Hardware layer: relays and stepper *)

Module GpioProps.

Import Gpio.

Lemma perform_disabled (c : call) (hw : Hardware) :
  disabled hw = true -> perform c hw = hw.
Proof.
  intros H. destruct c; cbn;
    unfold setup_relay, relay_on, relay_off, setup_stepper, start_stepper,
      stop_stepper; rewrite H; reflexivity.
Qed.

Lemma fallback_disabled (hw : Hardware) (e : string) :
  disabled (_gpio_fallback hw e) = true.
Proof.
  unfold _gpio_fallback, disabled. destruct (sim_gpio hw) eqn:E; cbn.
  - rewrite E. apply orb_true_iff. left. apply orb_true_r.
  - apply orb_true_r.
Qed.

Lemma fallback_cases (hw : Hardware) (e : string) :
  disabled hw = false -> fell_back hw (_gpio_fallback hw e).
Proof.
  intros H. unfold disabled in H.
  apply orb_false_iff in H as [H _]. apply orb_false_iff in H as [_ H].
  unfold _gpio_fallback. rewrite H. exists e. cbn.
  repeat split; try reflexivity. unfold disabled. cbn. apply orb_true_r.
Qed.

Lemma output_quiet (hw : Hardware) (pin : Z) (l : bool) : quiet hw (output hw pin l).
Proof. split; reflexivity. Qed.

Lemma set_pwm_quiet (hw : Hardware) (n : string) (e : pwm) : quiet hw (set_pwm hw n e).
Proof. split; reflexivity. Qed.

Lemma perform_cases (c : call) (hw : Hardware) :
  disabled hw = false -> quiet hw (perform c hw) \/ fell_back hw (perform c hw).
Proof.
  intros H.
  destruct c; cbn;
    unfold setup_relay, relay_on, relay_off, setup_stepper, start_stepper,
      stop_stepper; rewrite H.
  - destruct raises; [right; apply fallback_cases; exact H | left; apply output_quiet].
  - destruct raises; [right; apply fallback_cases; exact H | left; apply output_quiet].
  - destruct raises; [right; apply fallback_cases; exact H | left; apply output_quiet].
  - destruct raises as [[i e]|].
    + right. destruct (i <? 2)%nat.
      * apply fallback_cases; exact H.
      * destruct (fallback_cases (output hw dir_pin LOW) e H) as (e' & ? & ? & ? & ? & ?).
        exists e'. repeat split; assumption.
    + left. split; reflexivity.
  - destruct (pwms hw !! name); [|left; split; reflexivity].
    destruct raises; [right; apply fallback_cases; exact H | left; split; reflexivity].
  - destruct (pwms hw !! name); [|left; split; reflexivity].
    destruct raises; [right; apply fallback_cases; exact H | left; split; reflexivity].
Qed.

Lemma perform_all_disabled (cs : list call) (hw : Hardware) :
  disabled hw = true -> perform_all cs hw = hw.
Proof.
  revert hw. induction cs as [|c cs IH]; intros hw H; [reflexivity|].
  unfold perform_all. cbn [fold_left]. rewrite (perform_disabled c hw H).
  apply IH. exact H.
Qed.

(** Once the GPIO is off (simulator mode, no GPIO handle, or after a
    fallback), no call on the relays or the stepper changes anything: no pin
    is written, no pwm is touched, nothing is printed. *)
Theorem disabled_is_final (cs : list call) (hw : Hardware) :
  disabled hw = true -> perform_all cs hw = hw.
Proof. apply perform_all_disabled. Qed.

Lemma disabled_is_final_witness :
  perform_all
    [RelayOn 17 None; SetupStepper "F1" 13 19 50 None; StartStepper "F1" 50 (Some "x")]
    (_gpio_fallback board "busy") = _gpio_fallback board "busy".
Proof. apply disabled_is_final. reflexivity. Defined.

(** Whatever calls are made and whichever of them raise, a run prints at
    most one fallback line; when it prints one, the GPIO ends switched off,
    with no pwm left and the reason recorded. *)
Theorem at_most_one_fallback (cs : list call) (hw : Hardware) :
  printed (perform_all cs hw) = printed hw
  \/ exists e,
       printed (perform_all cs hw) = printed hw ++ ["[HW] GPIO fallback: " +:+ e]
       /\ sim_gpio_reason (perform_all cs hw) = "GPIO fallback: " +:+ e
       /\ disabled (perform_all cs hw) = true
       /\ gpio (perform_all cs hw) = false
       /\ pwms (perform_all cs hw) = ∅.
Proof.
  revert hw. induction cs as [|c cs IH]; intros hw; [left; reflexivity|].
  destruct (disabled hw) eqn:H.
  - left. rewrite (perform_all_disabled _ hw H). reflexivity.
  - change (perform_all (c :: cs) hw) with (perform_all cs (perform c hw)).
    destruct (perform_cases c hw H) as [[Hp Hd] | (e & Hp & Hr & Hd & Hg & Hw)].
    + destruct (IH (perform c hw)) as [E | (e & E & ?)].
      * left. rewrite E. exact Hp.
      * right. exists e. rewrite E, Hp. split; [reflexivity | assumption].
    + right. exists e. rewrite (perform_all_disabled _ _ Hd).
      repeat split; assumption.
Qed.

Lemma relay_levels (on : bool) (pin : Z) (hw : Hardware) :
  disabled hw = false ->
  (if on then relay_on hw pin None else relay_off hw pin None)
  = output hw pin (negb on).
Proof.
  intros H. unfold relay_on, relay_off. rewrite H. destruct on; reflexivity.
Qed.

(** The relays are active low. With the GPIO working and no call raising,
    [_apply_relays] leaves the cold relay pin LOW exactly when [cold_in] is
    set and the hot relay pin LOW exactly when [hot_in] is set, provided the
    two pins differ; no other pin and no pwm changes. *)
Theorem apply_relays_levels (cold_in hot_in : bool) (relay_cold relay_hot : Z)
    (hw : Hardware) :
  disabled hw = false ->
  relay_cold <> relay_hot ->
  let hw' := _apply_relays cold_in hot_in relay_cold relay_hot hw None None in
  pins hw' !! relay_cold = Some (negb cold_in)
  /\ pins hw' !! relay_hot = Some (negb hot_in)
  /\ (forall p, p <> relay_cold -> p <> relay_hot -> pins hw' !! p = pins hw !! p)
  /\ pwms hw' = pwms hw
  /\ printed hw' = printed hw.
Proof.
  intros H Hne hw'. subst hw'. unfold _apply_relays.
  rewrite (relay_levels cold_in relay_cold hw H).
  rewrite (relay_levels hot_in relay_hot (output hw relay_cold (negb cold_in)) H).
  cbn. repeat split.
  - rewrite lookup_insert_ne by congruence. apply lookup_insert_eq.
  - apply lookup_insert_eq.
  - intros p H1 H2. rewrite !lookup_insert_ne by congruence. reflexivity.
Qed.

Lemma apply_relays_levels_witness :
  let hw' := _apply_relays true false 17 27 board None None in
  pins hw' !! 17%Z = Some false /\ pins hw' !! 27%Z = Some true
  /\ (forall p, p <> 17%Z -> p <> 27%Z -> pins hw' !! p = pins board !! p)
  /\ pwms hw' = pwms board /\ printed hw' = printed board.
Proof. apply (apply_relays_levels true false 17 27 board); [reflexivity | lia]. Defined.

Lemma pwm_frequency_pos (f : Q) : (1 <= pwm_frequency f)%Z.
Proof. unfold pwm_frequency. lia. Qed.

Lemma fallback_frequencies (hw : Hardware) (e : string) :
  frequencies_ok hw -> frequencies_ok (_gpio_fallback hw e).
Proof.
  unfold frequencies_ok, _gpio_fallback. destruct (sim_gpio hw); [tauto|].
  intros _. cbn. apply map_Forall_empty.
Qed.

Lemma perform_frequencies (c : call) (hw : Hardware) :
  frequencies_ok hw -> frequencies_ok (perform c hw).
Proof.
  intros H.
  destruct c; cbn;
    unfold setup_relay, relay_on, relay_off, setup_stepper, start_stepper,
      stop_stepper; destruct (disabled hw); try exact H.
  - destruct raises; [apply fallback_frequencies|]; exact H.
  - destruct raises; [apply fallback_frequencies|]; exact H.
  - destruct raises; [apply fallback_frequencies|]; exact H.
  - destruct raises as [[i e]|].
    + destruct (i <? 2)%nat; apply fallback_frequencies; exact H.
    + unfold frequencies_ok. cbn. apply map_Forall_insert_2; [|exact H].
      cbn. apply pwm_frequency_pos.
  - destruct (pwms hw !! name) eqn:E; [|exact H].
    destruct raises; [apply fallback_frequencies; exact H|].
    unfold frequencies_ok. cbn. apply map_Forall_insert_2; [|exact H].
    cbn. apply pwm_frequency_pos.
  - destruct (pwms hw !! name) eqn:E; [|exact H].
    destruct raises; [apply fallback_frequencies; exact H|].
    unfold frequencies_ok. cbn. apply map_Forall_insert_2; [|exact H].
    cbn. exact (H _ _ E).
Qed.

(** Whatever frequency the callers pass (zero, negative, a fraction),
    every pwm the hardware layer holds runs at an integer frequency of at
    least 1 Hz, after any run of calls on a fresh board. *)
Theorem frequency_at_least_one (cs : list call) (name : string) (e : pwm) :
  pwms (perform_all cs board) !! name = Some e -> (1 <= frequency e)%Z.
Proof.
  assert (G : forall hw, frequencies_ok hw -> frequencies_ok (perform_all cs hw)).
  { induction cs as [|c cs IH]; intros hw H; [exact H|].
    apply (IH (perform c hw)). apply perform_frequencies. exact H. }
  intros E. exact (G board (map_Forall_empty _) name e E).
Qed.

Lemma frequency_at_least_one_witness :
  (1 <= frequency
          {| pul := 13; dir := 19; frequency := 1; running := true |})%Z.
Proof.
  apply (frequency_at_least_one
           [SetupStepper "F1" 13 19 50 None; StartStepper "F1" 0 None] "F1").
  reflexivity.
Defined.

End GpioProps.

(** * Nutrition history *)

Module NutProps.

Import Nut.

Lemma lex_ltb_cotrans (a b c : list Z) :
  Dt.lex_ltb c a = true -> Dt.lex_ltb b a = true \/ Dt.lex_ltb c b = true.
Proof.
  revert b c. induction a as [|x a IH]; intros b c H.
  - destruct c; discriminate H.
  - destruct c as [|z c], b as [|y b]; cbn in *; auto.
    apply orb_true_iff in H as [H | H].
    + apply Z.ltb_lt in H. destruct (Z.ltb_spec y x); [left; reflexivity|].
      right. apply orb_true_iff. left. apply Z.ltb_lt. lia.
    + apply andb_true_iff in H as [E H]. apply Z.eqb_eq in E. subst z.
      destruct (Z.ltb_spec y x); [left; reflexivity|].
      destruct (Z.ltb_spec x y); [right; reflexivity|].
      assert (y = x) by lia. subst y. rewrite Z.eqb_refl. cbn.
      apply IH. exact H.
Qed.

Lemma leb_refl (a : Dt.datetime) : Dt.leb a a = true.
Proof. unfold Dt.leb, Dt.ltb. rewrite DialogProps.lex_ltb_irrefl. reflexivity. Qed.

Lemma leb_trans (a b c : Dt.datetime) :
  Dt.leb a b = true -> Dt.leb b c = true -> Dt.leb a c = true.
Proof.
  unfold Dt.leb, Dt.ltb. intros H1 H2.
  apply negb_true_iff in H1, H2. apply negb_true_iff.
  destruct (Dt.lex_ltb (Dt.fields c) (Dt.fields a)) eqn:E; [|reflexivity].
  destruct (lex_ltb_cotrans _ (Dt.fields b) _ E); congruence.
Qed.

Lemma in_time_order_head (a : Dt.datetime) (l : list Dt.datetime) :
  in_time_order (a :: l) -> Forall (fun b => Dt.leb a b = true) l.
Proof.
  revert a. induction l as [|b l IH]; intros a H; [constructor|].
  destruct H as [H1 H2]. constructor; [exact H1|].
  eapply Forall_impl; [apply (IH b H2)|].
  cbn. intros c Hc. exact (leb_trans _ _ _ H1 Hc).
Qed.

Lemma in_time_order_tail (a : Dt.datetime) (l : list Dt.datetime) :
  in_time_order (a :: l) -> in_time_order l.
Proof. destruct l; [constructor|]. intros [_ H]. exact H. Qed.

Lemma in_time_order_snoc (l : list Dt.datetime) (t : Dt.datetime) :
  in_time_order l -> Forall (fun a => Dt.leb a t = true) l ->
  in_time_order (l ++ [t]).
Proof.
  induction l as [|a l IH]; intros H F; [exact I|].
  pose proof (Forall_inv F) as Ha. pose proof (Forall_inv_tail F) as Fl.
  destruct l as [|b l].
  - split; [exact Ha | exact I].
  - destruct H as [H1 H2]. split; [exact H1|]. apply IH; assumption.
Qed.

Lemma in_time_order_app_r (l1 l2 : list Dt.datetime) :
  in_time_order (l1 ++ l2) -> in_time_order l2.
Proof.
  induction l1 as [|a l1 IH]; [tauto|].
  intros H. apply IH. exact (in_time_order_tail _ _ H).
Qed.

Lemma alternating_snoc (l : list Z) (x : Z) :
  alternating l -> last l <> Some x -> alternating (l ++ [x]).
Proof.
  induction l as [|a l IH]; intros H L; [exact I|].
  destruct l as [|b l].
  - split; [|exact I]. intros ->. apply L. reflexivity.
  - destruct H as [H1 H2]. split; [exact H1|]. apply IH; assumption.
Qed.

Lemma alternating_app_r (l1 l2 : list Z) :
  alternating (l1 ++ l2) -> alternating l2.
Proof.
  induction l1 as [|a l1 IH]; [tauto|].
  intros H. apply IH. cbn in H. destruct (l1 ++ l2); [exact I | apply H].
Qed.

(** Filtering a history in time order by a cutoff drops a prefix. *)
Lemma filter_drops_prefix (cutoff : Dt.datetime) (l : list (Dt.datetime * Z)) :
  in_time_order (map fst l) ->
  exists d, l = d ++ List.filter (fun row => Dt.leb cutoff (fst row)) l.
Proof.
  induction l as [|a l IH]; intros H; [exists []; reflexivity|].
  cbn [List.filter]. destruct (Dt.leb cutoff (fst a)) eqn:E.
  - exists []. cbn. f_equal. symmetry. apply forallb_filter_id.
    apply forallb_forall. intros r Hr.
    pose proof (in_time_order_head _ _ H) as F.
    rewrite Forall_forall in F.
    apply (leb_trans _ _ _ E). apply F.
    apply list_elem_of_In. apply in_map. exact Hr.
  - destruct (IH (in_time_order_tail _ _ H)) as [d Hd].
    exists (a :: d). cbn. f_equal. exact Hd.
Qed.

(** What holds of a history between two calls. *)
Lemma record_step (h : history) (ts : Dt.datetime) (state : bool) :
  well_kept h ->
  Forall (fun row => Dt.leb (fst row) ts = true) (nut_samples h) ->
  let h' := _record_nut_sample h ts state in
  well_kept h'
  /\ nut_last_state h' = Some (if state then 1 else 0)%Z
  /\ Forall (fun row => within ts (fst row)) (nut_samples h').
Proof.
  intros (Ho & pre & Ha & Hl) F.
  set (si := (if state then 1 else 0)%Z).
  set (h1 :=
    match nut_last_state h with
    | Some last_state =>
        if (si =? last_state)%Z then h
        else {| nut_samples := nut_samples h ++ [(ts, si)];
                nut_last_state := Some si |}
    | None =>
        {| nut_samples := nut_samples h ++ [(ts, si)];
           nut_last_state := Some si |}
    end).
  assert (K1 : in_time_order (map fst (nut_samples h1))
               /\ (exists pre, alternating (pre ++ map snd (nut_samples h1))
                               /\ last (pre ++ map snd (nut_samples h1))
                                  = nut_last_state h1)
               /\ nut_last_state h1 = Some si
               /\ Forall (fun row => Dt.leb (fst row) ts = true) (nut_samples h1)).
  { assert (A : forall s, nut_last_state h <> Some si ->
               let h2 := {| nut_samples := nut_samples h ++ [(ts, si)];
                            nut_last_state := Some s |} in
               s = si ->
               in_time_order (map fst (nut_samples h2))
               /\ (exists pre, alternating (pre ++ map snd (nut_samples h2))
                               /\ last (pre ++ map snd (nut_samples h2))
                                  = nut_last_state h2)
               /\ nut_last_state h2 = Some si
               /\ Forall (fun row => Dt.leb (fst row) ts = true) (nut_samples h2)).
    { intros s Hn h2 ->. subst h2. cbn. rewrite !map_app. cbn.
      split; [|split; [|split]].
      - apply in_time_order_snoc; [exact Ho|].
        apply Forall_map. exact F.
      - exists pre. rewrite app_assoc. split.
        + apply alternating_snoc; [exact Ha|]. rewrite Hl. exact Hn.
        + apply last_snoc.
      - reflexivity.
      - apply Forall_app. split; [exact F|].
        constructor; [apply leb_refl | constructor]. }
    subst h1. destruct (nut_last_state h) as [s|] eqn:E.
    - destruct (Z.eqb_spec si s) as [->|Hne].
      + split; [exact Ho|]. split; [exists pre; split; [exact Ha | congruence]|].
        split; [exact E | exact F].
      + apply (A si); [congruence | reflexivity].
    - apply (A si); [congruence | reflexivity]. }
  destruct K1 as (Ho1 & (pre1 & Ha1 & Hl1) & Hs1 & F1).
  intros h'.
  assert (Eh' : h' =
    match nut_samples h1 with
    | [] => h1
    | first :: _ =>
        let cutoff := Dt.sub ts (Dt.timedelta_hours Flow.MAX_FLOW_HISTORY_HOURS) in
        if Dt.ltb (fst first) cutoff
        then {| nut_samples :=
                  List.filter (fun row => Dt.leb cutoff (fst row)) (nut_samples h1);
                nut_last_state := nut_last_state h1 |}
        else h1
    end) by reflexivity.
  clearbody h1 h'. subst h'.
  destruct (nut_samples h1) as [|first rest] eqn:Es in |- *.
  - split; [|split; [exact Hs1|rewrite Es; constructor]].
    split; [exact Ho1|]. exists pre1. split; assumption.
  - cbv zeta.
    set (cutoff := Dt.sub ts (Dt.timedelta_hours Flow.MAX_FLOW_HISTORY_HOURS)) in *.
    destruct (Dt.ltb (fst first) cutoff) eqn:Ec.
    + cbn [nut_samples nut_last_state]. rewrite <- Es.
      destruct (filter_drops_prefix cutoff (nut_samples h1) Ho1) as [d Hd].
      set (kept := List.filter (fun row => Dt.leb cutoff (fst row)) (nut_samples h1)) in *.
      split; [split|split].
      * rewrite Hd, map_app in Ho1. exact (in_time_order_app_r _ _ Ho1).
      * exists (pre1 ++ map snd d).
        rewrite Hd, map_app, app_assoc in Ha1, Hl1. split; assumption.
      * exact Hs1.
      * apply Forall_forall. intros r Hr. apply list_elem_of_In in Hr.
        subst kept. apply filter_In in Hr as [Hr Hc]. split; [exact Hc|].
        rewrite Forall_forall in F1. apply F1. apply list_elem_of_In. exact Hr.
    + split; [|split; [exact Hs1|]].
      * split; [exact Ho1|]. exists pre1. split; assumption.
      * rewrite Es in Ho1, F1 |- *.
        assert (Hf : Dt.leb cutoff (fst first) = true)
          by (unfold Dt.leb; rewrite Ec; reflexivity).
        pose proof (in_time_order_head (fst first) (map fst rest) Ho1) as Fh.
        rewrite Forall_map in Fh.
        pose proof (Forall_inv F1) as F1a. pose proof (Forall_inv_tail F1) as F1b.
        constructor; [split; assumption|].
        rewrite Forall_forall in Fh, F1b. apply Forall_forall. intros r Hr.
        split; [exact (leb_trans _ _ _ Hf (Fh r Hr)) | exact (F1b r Hr)].
Qed.

Lemma record_all_kept (calls : list (Dt.datetime * bool)) :
  forall h,
  well_kept h ->
  in_time_order (map fst calls) ->
  (forall c, head calls = Some c ->
             Forall (fun row => Dt.leb (fst row) (fst c) = true) (nut_samples h)) ->
  well_kept (record_all calls h)
  /\ forall c, last calls = Some c ->
       nut_last_state (record_all calls h) = Some (if snd c then 1 else 0)%Z
       /\ Forall (fun row => within (fst c) (fst row))
            (nut_samples (record_all calls h)).
Proof.
  induction calls as [|c cs IH]; intros h K O F.
  - split; [exact K | discriminate].
  - change (record_all (c :: cs) h)
      with (record_all cs (_record_nut_sample h (fst c) (snd c))).
    destruct (record_step h (fst c) (snd c) K (F c eq_refl)) as (K1 & S1 & F1).
    destruct cs as [|c2 cs].
    + split; [exact K1|]. intros c' [= <-]. split; assumption.
    + destruct O as [O1 O2].
      assert (F2 : forall c0, head (c2 :: cs) = Some c0 ->
                Forall (fun row => Dt.leb (fst row) (fst c0) = true)
                  (nut_samples (_record_nut_sample h (fst c) (snd c)))).
      { intros c0 [= <-]. eapply Forall_impl; [exact F1|].
        cbn. intros r [_ Hr]. exact (leb_trans _ _ _ Hr O1). }
      destruct (IH _ K1 O2 F2) as [K' L']. split; [exact K'|].
      intros c' Hc'. apply L'. exact Hc'.
Qed.

(** When the ticks come in time order, the nutrition history of a
    fermenter holds only changes of the pump state: neighbouring rows have
    different states and the rows are in time order.  After the last call the
    remembered state is the one just reported, and every row kept lies
    between the cutoff (the call's time minus [MAX_FLOW_HISTORY_HOURS]) and
    the call's time. *)
Theorem history_holds_changes (calls : list (Dt.datetime * bool)) :
  in_time_order (map fst calls) ->
  let h := record_all calls empty in
  alternating (map snd (nut_samples h))
  /\ in_time_order (map fst (nut_samples h))
  /\ forall ts state, last calls = Some (ts, state) ->
       nut_last_state h = Some (if state then 1 else 0)%Z
       /\ Forall (fun row => within ts (fst row)) (nut_samples h).
Proof.
  intros O h.
  assert (K0 : well_kept empty).
  { split; [exact I|]. exists []. split; [exact I | reflexivity]. }
  destruct (record_all_kept calls empty K0 O) as [(Ho & pre & Ha & _) L].
  { intros c _. constructor. }
  split; [exact (alternating_app_r _ _ Ha)|]. split; [exact Ho|].
  intros ts state E. exact (L (ts, state) E).
Qed.

Lemma history_holds_changes_witness :
  let h := record_all
             [(Dt.mk 2025 1 1 8 0 0, false); (Dt.mk 2025 1 1 8 0 1, true);
              (Dt.mk 2025 1 1 8 0 2, true); (Dt.mk 2025 2 1 8 0 0, false)] empty in
  alternating (map snd (nut_samples h))
  /\ in_time_order (map fst (nut_samples h))
  /\ forall ts state,
       last [(Dt.mk 2025 1 1 8 0 0, false); (Dt.mk 2025 1 1 8 0 1, true);
             (Dt.mk 2025 1 1 8 0 2, true); (Dt.mk 2025 2 1 8 0 0, false)]
         = Some (ts, state) ->
       nut_last_state h = Some (if state then 1 else 0)%Z
       /\ Forall (fun row => within ts (fst row)) (nut_samples h).
Proof.
  apply (history_holds_changes
           [(Dt.mk 2025 1 1 8 0 0, false); (Dt.mk 2025 1 1 8 0 1, true);
            (Dt.mk 2025 1 1 8 0 2, true); (Dt.mk 2025 2 1 8 0 0, false)]).
  cbn. repeat split; reflexivity.
Defined.

End NutProps.

(** * Plot window *)

Module PlotProps.

Import Plot.

Lemma fields_eqb_eq (a b : list Z) : fields_eqb a b = true -> a = b.
Proof.
  revert b. induction a as [|x a IH]; intros [|y b] H; try discriminate H.
  - reflexivity.
  - cbn in H. apply andb_true_iff in H as [E H]. apply Z.eqb_eq in E.
    f_equal; [exact E | apply IH; exact H].
Qed.

Lemma fields_eqb_refl (a : list Z) : fields_eqb a a = true.
Proof. induction a as [|x a IH]; cbn; [reflexivity|]. rewrite Z.eqb_refl. exact IH. Qed.

Lemma lex_trichotomy (a b : list Z) :
  Dt.lex_ltb a b = false -> Dt.lex_ltb b a = false -> fields_eqb a b = true.
Proof.
  revert b. induction a as [|x a IH]; intros [|y b] H1 H2; cbn in *;
    try discriminate; try reflexivity.
  apply orb_false_iff in H1 as [L1 E1]. apply orb_false_iff in H2 as [L2 E2].
  apply Z.ltb_ge in L1, L2. assert (x = y) by lia. subst y.
  rewrite Z.eqb_refl in *. cbn in *. apply IH; assumption.
Qed.

Lemma lex_ltb_asym (a b : list Z) :
  Dt.lex_ltb a b = true -> Dt.lex_ltb b a = false.
Proof.
  revert b. induction a as [|x a IH]; intros [|y b] H; cbn in *;
    try discriminate; try reflexivity.
  apply orb_true_iff in H as [H | H].
  - apply Z.ltb_lt in H. apply orb_false_iff. split; [apply Z.ltb_ge; lia|].
    apply andb_false_iff. left. apply Z.eqb_neq. lia.
  - apply andb_true_iff in H as [E H]. apply Z.eqb_eq in E. subst y.
    rewrite Z.ltb_irrefl, Z.eqb_refl. cbn. apply IH. exact H.
Qed.

Lemma ltb_of_leb (a b : Dt.datetime) :
  Dt.leb a b = true -> eqb b a = false -> Dt.ltb a b = true.
Proof.
  unfold Dt.leb, Dt.ltb, eqb. intros H E. apply negb_true_iff in H.
  destruct (Dt.lex_ltb (Dt.fields a) (Dt.fields b)) eqn:L; [reflexivity|].
  rewrite (lex_trichotomy _ _ H L) in E. discriminate E.
Qed.

Lemma ltb_fields (a b c : Dt.datetime) :
  eqb c b = true -> Dt.ltb a b = Dt.ltb a c.
Proof.
  unfold eqb, Dt.ltb. intros E. apply fields_eqb_eq in E. rewrite E. reflexivity.
Qed.

Lemma last_removelast {A : Type} (l : list A) (a : A) :
  last l = Some a -> l = List.removelast l ++ [a].
Proof.
  induction l as [|x l IH]; [discriminate|].
  destruct l as [|y l]; cbn.
  - intros [= ->]. reflexivity.
  - intros H. f_equal. apply IH. exact H.
Qed.

Lemma strictly_increasing_snoc (l : list Dt.datetime) (x : Dt.datetime) :
  strictly_increasing l ->
  (forall a, last l = Some a -> Dt.ltb a x = true) ->
  strictly_increasing (l ++ [x]).
Proof.
  induction l as [|a l IH]; intros H L; [exact I|].
  destruct l as [|b l].
  - split; [apply L; reflexivity | exact I].
  - destruct H as [H1 H2]. split; [exact H1|]. apply IH; [exact H2|].
    intros c Hc. apply L. exact Hc.
Qed.

Lemma strictly_increasing_last (l : list Dt.datetime) (x y : Dt.datetime) :
  strictly_increasing (l ++ [x]) -> eqb y x = true ->
  strictly_increasing (l ++ [y]).
Proof.
  intros H E. induction l as [|a l IH]; [exact I|].
  destruct l as [|b l].
  - destruct H as [H _]. split; [|exact I].
    rewrite <- (ltb_fields a x y E). exact H.
  - destruct H as [H1 H2]. split; [exact H1|]. apply IH. exact H2.
Qed.

Section Sorting.

Context {A : Type} (key : A -> Dt.datetime).

Lemma insort_In (e x : A) (l : list A) :
  In x (insort key e l) <-> x = e \/ In x l.
Proof.
  induction l as [|y l IH]; cbn; [intuition congruence|].
  destruct (Dt.leb (key e) (key y)); cbn; [intuition congruence|].
  rewrite IH. tauto.
Qed.

Lemma sort_by_In (x : A) (l : list A) : In x (sort_by key l) <-> In x l.
Proof.
  unfold sort_by. induction l as [|y l IH]; cbn; [tauto|].
  rewrite insort_In, IH. intuition congruence.
Qed.

Lemma insort_by_sorted (e : A) (l : list A) :
  StronglySorted (fun a b => Dt.leb (key a) (key b) = true) l ->
  StronglySorted (fun a b => Dt.leb (key a) (key b) = true) (insort key e l).
Proof.
  induction 1 as [|y l Hs IH Hall]; cbn.
  - repeat constructor.
  - destruct (Dt.leb (key e) (key y)) eqn:E.
    + constructor; [constructor; assumption|].
      constructor; [exact E|].
      eapply Forall_impl; [exact Hall|]. cbn. intros z Hz.
      exact (NutProps.leb_trans _ _ _ E Hz).
    + constructor; [exact IH|].
      apply Forall_forall. intros z Hz. apply list_elem_of_In in Hz.
      apply insort_In in Hz as [-> | Hz].
      * unfold Dt.leb in *. apply negb_false_iff in E. apply negb_true_iff.
        unfold Dt.ltb in *. apply lex_ltb_asym. exact E.
      * rewrite Forall_forall in Hall. apply Hall. apply list_elem_of_In. exact Hz.
Qed.

Lemma sort_by_sorted (l : list A) :
  StronglySorted (fun a b => Dt.leb (key a) (key b) = true) (sort_by key l).
Proof.
  unfold sort_by. induction l; cbn; [constructor | apply insort_by_sorted; assumption].
Qed.

End Sorting.

Lemma last_map {A B : Type} (f : A -> B) (l : list A) :
  last (map f l) = option_map f (last l).
Proof.
  induction l as [|x l IH]; [reflexivity|].
  destruct l as [|y l]; [reflexivity|]. exact IH.
Qed.

Lemma dedup_step_increasing (acc : list (Dt.datetime * Z)) (row : Dt.datetime * Z) :
  strictly_increasing (map fst acc) ->
  (forall a, last acc = Some a -> Dt.leb (fst a) (fst row) = true) ->
  strictly_increasing (map fst (dedup_step acc row))
  /\ last (dedup_step acc row) = Some row.
Proof.
  intros H L. unfold dedup_step. destruct (last acc) as [a|] eqn:E.
  - destruct (eqb (fst row) (fst a)) eqn:Q.
    + split; [|apply last_snoc]. rewrite map_app. cbn.
      rewrite (last_removelast acc a E), map_app in H. cbn in H.
      exact (strictly_increasing_last _ _ _ H Q).
    + split; [|apply last_snoc]. rewrite map_app. cbn.
      apply strictly_increasing_snoc; [exact H|].
      intros t Ht. rewrite last_map, E in Ht. injection Ht as <-.
      apply ltb_of_leb; [apply L; reflexivity | exact Q].
  - split; [|apply last_snoc]. rewrite map_app. cbn.
    apply strictly_increasing_snoc; [exact H|].
    intros t Ht. rewrite last_map, E in Ht. discriminate Ht.
Qed.

Lemma dedup_step_Forall (P : Dt.datetime * Z -> Prop)
    (acc : list (Dt.datetime * Z)) (row : Dt.datetime * Z) :
  Forall P acc -> P row -> Forall P (dedup_step acc row).
Proof.
  intros F Hr. unfold dedup_step. destruct (last acc) as [a|] eqn:E.
  - destruct (eqb (fst row) (fst a)).
    + apply Forall_app. split; [|repeat constructor; exact Hr].
      rewrite (last_removelast acc a E) in F. apply Forall_app in F. apply F.
    + apply Forall_app. split; [exact F | repeat constructor; exact Hr].
  - apply Forall_app. split; [exact F | repeat constructor; exact Hr].
Qed.

Lemma dedup_increasing (l : list (Dt.datetime * Z)) :
  forall acc,
  StronglySorted (fun a b => Dt.leb (fst a) (fst b) = true) l ->
  strictly_increasing (map fst acc) ->
  (forall a, last acc = Some a ->
             Forall (fun r => Dt.leb (fst a) (fst r) = true) l) ->
  strictly_increasing (map fst (fold_left dedup_step l acc)).
Proof.
  induction l as [|r l IH]; intros acc S H L; [exact H|].
  cbn [fold_left]. apply StronglySorted_inv in S as [S F].
  destruct (dedup_step_increasing acc r H) as [H' L'].
  { intros a Ha. exact (Forall_inv (L a Ha)). }
  apply IH; [exact S | exact H' |].
  intros a Ha. rewrite L' in Ha. injection Ha as <-. exact F.
Qed.

Lemma dedup_Forall (P : Dt.datetime * Z -> Prop) (l : list (Dt.datetime * Z)) :
  forall acc, Forall P l -> Forall P acc -> Forall P (fold_left dedup_step l acc).
Proof.
  induction l as [|r l IH]; intros acc F G; [exact G|].
  cbn [fold_left]. apply IH; [exact (Forall_inv_tail F)|].
  apply dedup_step_Forall; [exact G | exact (Forall_inv F)].
Qed.

(** The nutrition series drawn for a window from [left] to [right] is in
    strictly increasing time order (no instant twice), every point lies in
    the window and is either a row of the cache or of the live history or
    the current state placed at the right edge.  When the current state is
    known, the series ends exactly at the right edge. *)
Theorem nut_series_in_order (nut_cache samples : list (Dt.datetime * Z))
    (current_state : option Z) (left right : Dt.datetime) :
  Dt.leb left right = true ->
  let points := _combined_nut_samples nut_cache samples current_state left right in
  strictly_increasing (map fst points)
  /\ Forall (fun row =>
       (Dt.leb left (fst row) = true /\ Dt.leb (fst row) right = true)
       /\ (In row (nut_cache ++ samples)
           \/ exists s, current_state = Some s /\ row = (right, s)))
       points
  /\ (forall s, current_state = Some s ->
      exists row, last points = Some row /\ eqb (fst row) right = true).
Proof.
  intros W. unfold _combined_nut_samples.
  set (P := fun row : Dt.datetime * Z =>
       (Dt.leb left (fst row) = true /\ Dt.leb (fst row) right = true)
       /\ (In row (nut_cache ++ samples)
           \/ exists s, current_state = Some s /\ row = (right, s))).
  set (p0 := List.filter (fun row => Dt.leb left (fst row) && Dt.leb (fst row) right)
               (nut_cache ++ samples)).
  assert (F0 : Forall P p0).
  { apply Forall_forall. intros r Hr. apply list_elem_of_In in Hr.
    apply filter_In in Hr as [Hr Hc]. apply andb_true_iff in Hc.
    split; [exact Hc | left; exact Hr]. }
  set (p1 := match p0 with
             | [] => p0
             | _ :: _ => fold_left dedup_step (sort_by fst p0) []
             end).
  assert (K1 : strictly_increasing (map fst p1) /\ Forall P p1).
  { subst p1. destruct p0 as [|r0 p0'] eqn:E0; [split; [exact I | constructor]|].
    split.
    - apply dedup_increasing; [apply sort_by_sorted | exact I | discriminate].
    - apply dedup_Forall; [|constructor].
      apply Forall_forall. intros r Hr. apply list_elem_of_In in Hr.
      apply sort_by_In in Hr. rewrite Forall_forall in F0. apply F0.
      apply list_elem_of_In. exact Hr. }
  clearbody p1. destruct K1 as [S1 F1]. cbv zeta.
  destruct current_state as [s|]; [|split; [exact S1 | split; [exact F1 | discriminate]]].
  assert (A : strictly_increasing (map fst (p1 ++ [(right, s)]))
              -> strictly_increasing (map fst (p1 ++ [(right, s)]))
                 /\ Forall P (p1 ++ [(right, s)])
                 /\ (forall s0, Some s = Some s0 ->
                     exists row, last (p1 ++ [(right, s)]) = Some row
                                 /\ eqb (fst row) right = true)).
  { intros S. split; [exact S|]. split.
    - apply Forall_app. split; [exact F1|]. constructor; [|constructor].
      split; [split; [exact W | apply NutProps.leb_refl]|].
      right. exists s. split; reflexivity.
    - intros _ _. exists (right, s). split; [apply last_snoc|].
      apply fields_eqb_refl. }
  destruct (last p1) as [l|] eqn:E.
  - destruct (Dt.ltb (fst l) right) eqn:L.
    + apply A. rewrite map_app. apply strictly_increasing_snoc; [exact S1|].
      intros t Ht. rewrite last_map, E in Ht. injection Ht as <-. exact L.
    + split; [exact S1|]. split; [exact F1|]. intros _ _. exists l.
      split; [exact E|].
      assert (Hl : P l).
      { rewrite Forall_forall in F1. apply F1. apply list_elem_of_In.
        rewrite (last_removelast p1 l E). apply in_or_app. right. left. reflexivity. }
      destruct Hl as [[_ Hr] _]. unfold Dt.leb in Hr. apply negb_true_iff in Hr.
      apply lex_trichotomy; [exact L | exact Hr].
  - apply A. rewrite map_app. apply strictly_increasing_snoc; [exact S1|].
    intros t Ht. rewrite last_map, E in Ht. discriminate Ht.
Qed.

Lemma nut_series_in_order_witness :
  let left := Dt.mk 2025 1 1 8 0 0 in
  let right := Dt.mk 2025 1 1 9 0 0 in
  let nut_cache := [(Dt.mk 2025 1 1 8 30 0, 1%Z); (Dt.mk 2025 1 1 7 0 0, 0%Z)] in
  let samples := [(Dt.mk 2025 1 1 8 30 0, 0%Z); (Dt.mk 2025 1 1 8 10 0, 1%Z)] in
  let points := _combined_nut_samples nut_cache samples (Some 1%Z) left right in
  strictly_increasing (map fst points)
  /\ Forall (fun row =>
       (Dt.leb left (fst row) = true /\ Dt.leb (fst row) right = true)
       /\ (In row (nut_cache ++ samples)
           \/ exists s, Some 1%Z = Some s /\ row = (right, s)))
       points
  /\ (forall s, Some 1%Z = Some s ->
      exists row, last points = Some row /\ eqb (fst row) right = true).
Proof.
  intros left right nut_cache samples.
  apply (nut_series_in_order nut_cache samples (Some 1%Z) left right).
  reflexivity.
Defined.

Lemma existsb_false_Forall {A : Type} (f : A -> bool) (l : list A) :
  existsb f l = false <-> Forall (fun x => f x = false) l.
Proof.
  induction l as [|x l IH]; cbn.
  - split; [constructor | reflexivity].
  - rewrite orb_false_iff, IH. split.
    + intros [H1 H2]. constructor; assumption.
    + intros H. split; [exact (Forall_inv H) | exact (Forall_inv_tail H)].
Qed.

(** The flow series drawn merges the cache read from the backup file
    with the live samples: with an empty cache the live samples are returned
    as they are; otherwise the result is in time order and holds every live
    sample, plus a BACKUP row for each cached reading whose instant no live
    sample has, and nothing else. *)
Theorem flow_series_merged (flow_cache : list (Dt.datetime * Q))
    (samples : list flow_row) :
  (flow_cache = [] -> _combined_flow_samples flow_cache samples = samples)
  /\ (flow_cache <> [] ->
      StronglySorted (fun a b => Dt.leb (row_ts a) (row_ts b) = true)
        (_combined_flow_samples flow_cache samples)
      /\ forall r,
           In r (_combined_flow_samples flow_cache samples)
           <-> In r samples
               \/ exists c, In c flow_cache
                    /\ r = (fst c, snd c, None, None, "BACKUP")
                    /\ Forall (fun s => eqb (fst c) (row_ts s) = false) samples).
Proof.
  split; [intros ->; reflexivity|].
  intros Hne. destruct flow_cache as [|c0 cache]; [contradiction|].
  unfold _combined_flow_samples. cbv zeta. split; [apply sort_by_sorted|].
  intros r. rewrite sort_by_In, in_app_iff, in_map_iff. split.
  - intros [(c & <- & Hc) | Hr]; [right | left; exact Hr].
    apply filter_In in Hc as [Hc Hn]. apply negb_true_iff in Hn.
    apply existsb_false_Forall in Hn. rewrite Forall_map in Hn.
    exists c. split; [exact Hc|]. split; [reflexivity | exact Hn].
  - intros [Hr | (c & Hc & -> & Hn)]; [right; exact Hr | left].
    exists c. split; [reflexivity|]. apply filter_In. split; [exact Hc|].
    apply negb_true_iff. apply existsb_false_Forall. rewrite Forall_map. exact Hn.
Qed.

Lemma flow_series_merged_witness :
  let flow_cache := [(Dt.mk 2025 1 1 8 0 0, 4%Q); (Dt.mk 2025 1 1 7 0 0, 3%Q)] in
  let samples : list flow_row :=
    [(Dt.mk 2025 1 1 9 0 0, 5%Q, Some 5.6%Q, Some 0.8%Q, "OK");
     (Dt.mk 2025 1 1 8 0 0, 6%Q, Some 5.9%Q, Some 0.9%Q, "OK")] in
  StronglySorted (fun a b => Dt.leb (row_ts a) (row_ts b) = true)
    (_combined_flow_samples flow_cache samples)
  /\ forall r,
       In r (_combined_flow_samples flow_cache samples)
       <-> In r samples
           \/ exists c, In c flow_cache
                /\ r = (fst c, snd c, None, None, "BACKUP")
                /\ Forall (fun s => eqb (fst c) (row_ts s) = false) samples.
Proof.
  intros flow_cache samples.
  apply (proj2 (flow_series_merged flow_cache samples)).
  discriminate.
Defined.

End PlotProps.

(** * Dates and instants *)

Module ClockProps.

Import Clock.

Local Open Scope Z_scope.

Lemma all_from_spec (f : Z -> bool) (fuel : nat) :
  forall n, all_from fuel n f = true ->
  forall k, (n <= k < n + Z.of_nat fuel)%Z -> f k = true.
Proof.
  induction fuel as [|fuel IH]; intros n H k Hk; [cbn in Hk; lia|].
  cbn [all_from] in H. apply andb_true_iff in H as [H0 H].
  destruct (Z.eq_dec k n) as [->|Hne]; [exact H0|].
  apply (IH (n + 1)%Z H). lia.
Qed.

Lemma month_day_table (leap : bool) (n : Z) :
  (0 <= n < (if leap then 366 else 365))%Z -> month_day_ok leap n = true.
Proof.
  intros H.
  assert (T : all_from 366%nat 0 (month_day_ok true) = true
              /\ all_from 365%nat 0 (month_day_ok false) = true)
    by (split; vm_compute; reflexivity).
  destruct T as [T1 T2]. destruct leap.
  - apply (all_from_spec _ _ _ T1). lia.
  - apply (all_from_spec _ _ _ T2). lia.
Qed.

Lemma is_leap_spec (y : Z) :
  Dt.is_leap y = true <->
  (y mod 4 = 0 /\ (y mod 100 <> 0 \/ y mod 400 = 0))%Z.
Proof.
  unfold Dt.is_leap.
  rewrite andb_true_iff, orb_true_iff, negb_true_iff, !Z.eqb_eq, Z.eqb_neq.
  tauto.
Qed.

(** The number of days before year [y], from the decomposition of [y - 1]. *)
Lemma days_before_year_split (q400 q100 q4 q1 : Z) :
  (0 <= q100 <= 3 -> 0 <= q4 <= 24 -> 0 <= q1 <= 3 ->
   Dt.days_before_year (q400 * 400 + q100 * 100 + q4 * 4 + q1 + 1)
   = q400 * 146097 + q100 * 36524 + q4 * 1461 + q1 * 365)%Z.
Proof.
  intros H100 H4 H1. unfold Dt.days_before_year. cbv zeta.
  replace (q400 * 400 + q100 * 100 + q4 * 4 + q1 + 1 - 1)%Z
    with (q400 * 400 + q100 * 100 + q4 * 4 + q1)%Z by lia.
  set (x := (q400 * 400 + q100 * 100 + q4 * 4 + q1)%Z).
  assert (E4 : (x / 4 = q400 * 100 + q100 * 25 + q4)%Z)
    by (symmetry; apply (Z.div_unique x 4 _ q1); subst x; lia).
  assert (E100 : (x / 100 = q400 * 4 + q100)%Z)
    by (symmetry; apply (Z.div_unique x 100 _ (q4 * 4 + q1)); subst x; lia).
  assert (E400 : (x / 400 = q400)%Z)
    by (symmetry; apply (Z.div_unique x 400 _ (q100 * 100 + q4 * 4 + q1)); subst x; lia).
  rewrite E4, E100, E400. subst x. lia.
Qed.

Lemma is_leap_split (q400 q100 q4 q1 : Z) :
  (0 <= q100 <= 3 -> 0 <= q4 <= 24 -> 0 <= q1 <= 3 ->
   Dt.is_leap (q400 * 400 + q100 * 100 + q4 * 4 + q1 + 1)
   = (q1 =? 3) && (negb (q4 =? 24) || (q100 =? 3)))%Z.
Proof.
  intros H100 H4 H1.
  set (y := (q400 * 400 + q100 * 100 + q4 * 4 + q1 + 1)%Z).
  assert (M4 : (y mod 4 = (q1 + 1) mod 4)%Z).
  { subst y. replace (q400 * 400 + q100 * 100 + q4 * 4 + q1 + 1)%Z
      with ((q1 + 1) + (q400 * 100 + q100 * 25 + q4) * 4)%Z by lia.
    apply Z.mod_add. lia. }
  assert (M100 : (y mod 100 = (q4 * 4 + q1 + 1) mod 100)%Z).
  { subst y. replace (q400 * 400 + q100 * 100 + q4 * 4 + q1 + 1)%Z
      with ((q4 * 4 + q1 + 1) + (q400 * 4 + q100) * 100)%Z by lia.
    apply Z.mod_add. lia. }
  assert (M400 : (y mod 400 = (q100 * 100 + q4 * 4 + q1 + 1) mod 400)%Z).
  { subst y. replace (q400 * 400 + q100 * 100 + q4 * 4 + q1 + 1)%Z
      with ((q100 * 100 + q4 * 4 + q1 + 1) + q400 * 400)%Z by lia.
    apply Z.mod_add. lia. }
  apply eq_true_iff_eq. rewrite is_leap_spec, M4, M100, M400.
  rewrite andb_true_iff, orb_true_iff, negb_true_iff, !Z.eqb_eq, Z.eqb_neq.
  assert (A4 : ((q1 + 1) mod 4 = 0 <-> q1 = 3)%Z).
  { split; [|intros ->; reflexivity]. intros E.
    destruct (Z.eq_dec q1 3) as [|N]; [assumption|].
    rewrite Z.mod_small in E by lia. lia. }
  assert (A100 : ((q4 * 4 + q1 + 1) mod 100 = 0 <-> q4 = 24 /\ q1 = 3)%Z).
  { split; [|intros [-> ->]; reflexivity]. intros E.
    destruct (Z.eq_dec (q4 * 4 + q1 + 1) 100) as [|N]; [lia|].
    rewrite Z.mod_small in E by lia. lia. }
  assert (A400 : ((q100 * 100 + q4 * 4 + q1 + 1) mod 400 = 0
                  <-> q100 = 3 /\ q4 = 24 /\ q1 = 3)%Z).
  { split; [|intros (-> & -> & ->); reflexivity]. intros E.
    destruct (Z.eq_dec (q100 * 100 + q4 * 4 + q1 + 1) 400) as [|N]; [lia|].
    rewrite Z.mod_small in E by lia. lia. }
  rewrite A4, A100, A400. lia.
Qed.

Lemma days_before_month_flag (y m : Z) :
  Dt.days_before_month y m = before_month (Dt.is_leap y) m.
Proof. reflexivity. Qed.

(** [fromordinal] gives a date in range whose ordinal is the given one. *)
Lemma fromordinal_spec (n : Z) :
  1 <= n ->
  date_ok (Dt.fromordinal n) = true /\ Dt.toordinal (Dt.fromordinal n) = n.
Proof.
  intros Hn. unfold Dt.fromordinal. cbv zeta.
  set (n0 := n - 1).
  set (n400 := n0 / 146097). set (r400 := n0 mod 146097).
  set (n100 := r400 / 36524). set (r100 := r400 mod 36524).
  set (n4 := r100 / 1461). set (r4 := r100 mod 1461).
  set (n1 := r4 / 365). set (r1 := r4 mod 365).
  assert (D400 : n0 = 146097 * n400 + r400 /\ 0 <= r400 < 146097)
    by (split; [apply Z.div_mod; lia | apply Z.mod_pos_bound; lia]).
  assert (D100 : r400 = 36524 * n100 + r100 /\ 0 <= r100 < 36524)
    by (split; [apply Z.div_mod; lia | apply Z.mod_pos_bound; lia]).
  assert (D4 : r100 = 1461 * n4 + r4 /\ 0 <= r4 < 1461)
    by (split; [apply Z.div_mod; lia | apply Z.mod_pos_bound; lia]).
  assert (D1 : r4 = 365 * n1 + r1 /\ 0 <= r1 < 365)
    by (split; [apply Z.div_mod; lia | apply Z.mod_pos_bound; lia]).
  clearbody n400 r400 n100 r100 n4 r4 n1 r1.
  assert (B : 0 <= n400 /\ 0 <= n100 <= 4 /\ 0 <= n4 <= 24 /\ 0 <= n1 <= 4)
    by (subst n0; lia).
  destruct ((n1 =? 4) || (n100 =? 4)) eqn:Special.
  - apply orb_true_iff in Special. rewrite !Z.eqb_eq in Special.
    assert (S : exists q100 q4,
               0 <= q100 <= 3 /\ 0 <= q4 <= 24
               /\ (negb (q4 =? 24) || (q100 =? 3)) = true
               /\ n400 * 400 + 1 + n100 * 100 + n4 * 4 + n1 - 1
                  = n400 * 400 + q100 * 100 + q4 * 4 + 3 + 1
               /\ n0 + 1 = n400 * 146097 + q100 * 36524 + q4 * 1461 + 3 * 365 + 366).
    { destruct (Z.eq_dec n100 4) as [E100|N100].
      - exists 3, 24. repeat split; try lia.
      - exists n100, n4. assert (n1 = 4) by lia. assert (n4 <= 23) by lia.
        repeat split; lia. }
    destruct S as (q100 & q4 & H100 & H4 & Hl & Ey & En).
    unfold date_ok, Dt.toordinal. cbn [Dt.year Dt.month Dt.day].
    rewrite Ey, days_before_month_flag.
    rewrite (days_before_year_split n400 q100 q4 3 H100 H4) by lia.
    rewrite (is_leap_split n400 q100 q4 3 H100 H4) by lia.
    rewrite Hl. change ((3 =? 3) && true) with true.
    change (before_month true 12) with 335.
    change (Dt.days_in_month true 12) with 31.
    split; [|subst n0; lia].
    rewrite !andb_true_iff, !Z.leb_le. repeat split; lia.
  - apply orb_false_iff in Special. rewrite !Z.eqb_neq in Special.
    assert (H100 : 0 <= n100 <= 3) by lia. assert (H4 : 0 <= n4 <= 24) by lia.
    assert (H1 : 0 <= n1 <= 3) by lia.
    set (leap := (n1 =? 3) && (negb (n4 =? 24) || (n100 =? 3))).
    set (y := n400 * 400 + 1 + n100 * 100 + n4 * 4 + n1).
    assert (Ey : y = n400 * 400 + n100 * 100 + n4 * 4 + n1 + 1) by (subst y; lia).
    assert (T : month_day_ok leap r1 = true)
      by (apply month_day_table; destruct leap; lia).
    assert (Shape :
      (if r1 <? before_month leap (Z.shiftr (r1 + 50) 5)
       then {| Dt.year := y; Dt.month := Z.shiftr (r1 + 50) 5 - 1;
               Dt.day := r1 - (before_month leap (Z.shiftr (r1 + 50) 5)
                               - Dt.days_in_month leap (Z.shiftr (r1 + 50) 5 - 1)) + 1 |}
       else {| Dt.year := y; Dt.month := Z.shiftr (r1 + 50) 5;
               Dt.day := r1 - before_month leap (Z.shiftr (r1 + 50) 5) + 1 |})
      = {| Dt.year := y; Dt.month := fst (month_day leap r1);
           Dt.day := snd (month_day leap r1) |}).
    { unfold month_day. cbv zeta. fold (before_month leap (Z.shiftr (r1 + 50) 5)).
      destruct (r1 <? before_month leap (Z.shiftr (r1 + 50) 5)); reflexivity. }
    unfold before_month in Shape at 1 2 3. rewrite Shape. clear Shape.
    unfold month_day_ok in T. destruct (month_day leap r1) as [m d].
    rewrite !andb_true_iff, !Z.leb_le, Z.eqb_eq in T.
    destruct T as ((((M1 & M2) & D1') & D2) & Eo).
    unfold date_ok, Dt.toordinal. cbn [Dt.year Dt.month Dt.day fst snd].
    rewrite days_before_month_flag, Ey.
    rewrite (days_before_year_split n400 n100 n4 n1 H100 H4 H1).
    rewrite (is_leap_split n400 n100 n4 n1 H100 H4 H1). fold leap.
    split; [|subst n0; lia].
    rewrite !andb_true_iff, !Z.leb_le. repeat split; lia.
Qed.

Lemma days_before_year_next (y : Z) :
  Dt.days_before_year (y + 1)
  = Dt.days_before_year y + (if Dt.is_leap y then 366 else 365).
Proof.
  unfold Dt.days_before_year. cbv zeta.
  replace (y + 1 - 1) with (y - 1 + 1) by lia.
  destruct (Dt.is_leap y) eqn:L.
  - apply is_leap_spec in L. Z.to_euclidean_division_equations. lia.
  - assert (N : ~ (y mod 4 = 0 /\ (y mod 100 <> 0 \/ y mod 400 = 0))).
    { intros H. apply is_leap_spec in H. congruence. }
    Z.to_euclidean_division_equations. lia.
Qed.

Lemma days_before_year_le (y1 y2 : Z) :
  y1 <= y2 -> Dt.days_before_year y1 <= Dt.days_before_year y2.
Proof.
  intros H. unfold Dt.days_before_year. cbv zeta.
  Z.to_euclidean_division_equations. lia.
Qed.

Ltac eval_tables :=
  repeat match goal with
  | H : context [Dt.days_in_month ?l ?m] |- _ =>
      let v := eval vm_compute in (Dt.days_in_month l m) in
      change (Dt.days_in_month l m) with v in H
  | |- context [Dt.days_in_month ?l ?m] =>
      let v := eval vm_compute in (Dt.days_in_month l m) in
      change (Dt.days_in_month l m) with v
  | |- context [before_month ?l ?m] =>
      let v := eval vm_compute in (before_month l m) in
      change (before_month l m) with v
  end.

Lemma month_cases (m : Z) :
  1 <= m <= 12 ->
  m = 1 \/ m = 2 \/ m = 3 \/ m = 4 \/ m = 5 \/ m = 6 \/ m = 7 \/ m = 8
  \/ m = 9 \/ m = 10 \/ m = 11 \/ m = 12.
Proof. lia. Qed.

Lemma day_of_year_bounds (l : bool) (m d : Z) :
  1 <= m <= 12 -> 1 <= d <= Dt.days_in_month l m ->
  1 <= before_month l m + d <= (if l then 366 else 365).
Proof.
  intros Hm Hd.
  destruct (month_cases m Hm) as [->|[->|[->|[->|[->|[->|[->|[->|[->|[->|[->| ->]]]]]]]]]]];
    destruct l; eval_tables; lia.
Qed.

Lemma before_month_next (l : bool) (m1 m2 : Z) :
  1 <= m1 -> m1 < m2 -> m2 <= 12 ->
  before_month l m1 + Dt.days_in_month l m1 <= before_month l m2.
Proof.
  intros H1 H H2.
  destruct (month_cases m1 ltac:(lia))
    as [->|[->|[->|[->|[->|[->|[->|[->|[->|[->|[->| ->]]]]]]]]]]];
  destruct (month_cases m2 ltac:(lia))
    as [->|[->|[->|[->|[->|[->|[->|[->|[->|[->|[->| ->]]]]]]]]]]];
  try lia; destruct l; eval_tables; lia.
Qed.

Lemma date_ok_spec (d : Dt.date) :
  date_ok d = true <->
  1 <= Dt.year d /\ 1 <= Dt.month d <= 12
  /\ 1 <= Dt.day d <= Dt.days_in_month (Dt.is_leap (Dt.year d)) (Dt.month d).
Proof.
  unfold date_ok. rewrite !andb_true_iff, !Z.leb_le. tauto.
Qed.

(** On dates in range the ordinal grows with the date. *)
Lemma toordinal_lt (d1 d2 : Dt.date) :
  date_ok d1 = true -> date_ok d2 = true ->
  Dt.year d1 < Dt.year d2
  \/ Dt.year d1 = Dt.year d2
     /\ (Dt.month d1 < Dt.month d2
         \/ Dt.month d1 = Dt.month d2 /\ Dt.day d1 < Dt.day d2) ->
  Dt.toordinal d1 < Dt.toordinal d2.
Proof.
  intros V1 V2 H. apply date_ok_spec in V1, V2.
  destruct d1 as [y1 m1 a1], d2 as [y2 m2 a2]. cbn [Dt.year Dt.month Dt.day] in *.
  unfold Dt.toordinal. cbn [Dt.year Dt.month Dt.day].
  rewrite !days_before_month_flag.
  destruct V1 as (Y1 & M1 & A1), V2 as (Y2 & M2 & A2).
  pose proof (day_of_year_bounds _ _ _ M1 A1) as B1.
  pose proof (day_of_year_bounds _ _ _ M2 A2) as B2.
  destruct H as [Hy | [-> [Hm | [-> Hd]]]].
  - pose proof (days_before_year_next y1) as N.
    pose proof (days_before_year_le (y1 + 1) y2 ltac:(lia)) as L.
    destruct (Dt.is_leap y1); lia.
  - pose proof (before_month_next (Dt.is_leap y2) m1 m2 ltac:(lia) Hm ltac:(lia)).
    lia.
  - lia.
Qed.

Lemma valid_spec (t : Dt.datetime) :
  valid t = true <->
  date_ok (Dt.dt_date t) = true
  /\ 0 <= Dt.hour t < 24 /\ 0 <= Dt.minute t < 60
  /\ 0 <= Dt.second t < 60 /\ 0 <= Dt.microsecond t < 1000000.
Proof.
  unfold valid. rewrite !andb_true_iff, !Z.leb_le, !Z.ltb_lt. tauto.
Qed.

Lemma toordinal_pos (d : Dt.date) : date_ok d = true -> 1 <= Dt.toordinal d.
Proof.
  intros V. apply date_ok_spec in V. destruct V as (Y & M & A).
  pose proof (day_of_year_bounds _ _ _ M A) as B.
  pose proof (days_before_year_le 1 (Dt.year d) Y) as L.
  change (Dt.days_before_year 1) with 0 in L.
  unfold Dt.toordinal. rewrite days_before_month_flag. lia.
Qed.

(** On instants in range, [<] is the order of the microsecond counts. *)
Lemma ltb_to_us (a b : Dt.datetime) :
  valid a = true -> valid b = true ->
  Dt.ltb a b = true -> Dt.to_us a < Dt.to_us b.
Proof.
  intros Va Vb H. apply valid_spec in Va, Vb.
  destruct Va as (Da & Ha & Ma & Sa & Ua), Vb as (Db & Hb & Mb & Sb & Ub).
  unfold Dt.ltb, Dt.fields in H. cbn [Dt.lex_ltb] in H.
  unfold Dt.to_us, Dt.us_per_day.
  pose proof (toordinal_lt _ _ Da Db) as T.
  destruct (Z.eq_dec (Dt.year (Dt.dt_date a)) (Dt.year (Dt.dt_date b))) as [Ey|Ny];
  [destruct (Z.eq_dec (Dt.month (Dt.dt_date a)) (Dt.month (Dt.dt_date b))) as [Em|Nm];
   [destruct (Z.eq_dec (Dt.day (Dt.dt_date a)) (Dt.day (Dt.dt_date b))) as [Ed|Nd]|]|].
  - assert (E : Dt.dt_date a = Dt.dt_date b).
    { destruct (Dt.dt_date a), (Dt.dt_date b). cbn in *. congruence. }
    rewrite E. rewrite Ey, Em, Ed in H. rewrite !Z.ltb_irrefl, !Z.eqb_refl in H.
    cbn [orb andb] in H. lia.
  - assert (L : Dt.toordinal (Dt.dt_date a) < Dt.toordinal (Dt.dt_date b))
      by (apply T; lia).
    lia.
  - assert (L : Dt.toordinal (Dt.dt_date a) < Dt.toordinal (Dt.dt_date b))
      by (apply T; lia).
    lia.
  - assert (L : Dt.toordinal (Dt.dt_date a) < Dt.toordinal (Dt.dt_date b))
      by (apply T; lia).
    lia.
Qed.

Lemma fields_inj (a b : Dt.datetime) : Dt.fields a = Dt.fields b -> a = b.
Proof.
  destruct a as [[y1 m1 d1] h1 n1 s1 u1], b as [[y2 m2 d2] h2 n2 s2 u2].
  unfold Dt.fields. cbn. intros [= -> -> -> -> -> -> ->]. reflexivity.
Qed.

Lemma ltb_iff (a b : Dt.datetime) :
  valid a = true -> valid b = true ->
  (Dt.ltb a b = true <-> Dt.to_us a < Dt.to_us b).
Proof.
  intros Va Vb. split; [apply ltb_to_us; assumption|].
  intros L. destruct (Dt.ltb a b) eqn:E; [reflexivity|].
  destruct (Dt.ltb b a) eqn:E'.
  - pose proof (ltb_to_us b a Vb Va E'). lia.
  - unfold Dt.ltb in E, E'.
    pose proof (PlotProps.lex_trichotomy _ _ E E') as Q.
    apply PlotProps.fields_eqb_eq in Q. apply fields_inj in Q. subst b. lia.
Qed.

Lemma leb_iff (a b : Dt.datetime) :
  valid a = true -> valid b = true ->
  (Dt.leb a b = true <-> Dt.to_us a <= Dt.to_us b).
Proof.
  intros Va Vb. unfold Dt.leb. rewrite negb_true_iff.
  pose proof (ltb_iff b a Vb Va) as I. destruct (Dt.ltb b a).
  - split; [discriminate|]. intros L. assert (Dt.to_us b < Dt.to_us a) by (apply I; reflexivity). lia.
  - split; [|reflexivity]. intros _.
    destruct (Z_lt_le_dec (Dt.to_us b) (Dt.to_us a)) as [L|L]; [|exact L].
    apply I in L. discriminate L.
Qed.

(** The instant of a microsecond count from day 1 on is in range and has
    that count. *)
Lemma of_us_spec (n : Z) :
  Dt.us_per_day <= n ->
  valid (Dt.of_us n) = true /\ Dt.to_us (Dt.of_us n) = n.
Proof.
  unfold Dt.us_per_day. intros Hn.
  assert (Hq : 1 <= n / 86400000000) by (apply Z.div_le_lower_bound; lia).
  destruct (fromordinal_spec _ Hq) as [V O].
  unfold Dt.of_us, Dt.to_us, Dt.us_per_day. cbv zeta.
  cbn [Dt.dt_date Dt.hour Dt.minute Dt.second Dt.microsecond].
  rewrite O. split.
  - apply valid_spec.
    cbn [Dt.dt_date Dt.hour Dt.minute Dt.second Dt.microsecond].
    split; [exact V|]. clear V O. Z.to_euclidean_division_equations. lia.
  - clear V O. Z.to_euclidean_division_equations. lia.
Qed.

Lemma to_us_lower (t : Dt.datetime) : valid t = true -> Dt.us_per_day <= Dt.to_us t.
Proof.
  intros V. apply valid_spec in V. destruct V as (D & H & M & S & U).
  pose proof (toordinal_pos _ D). unfold Dt.to_us, Dt.us_per_day. lia.
Qed.

(** Adding a duration that is not negative. *)
Lemma add_spec (t : Dt.datetime) (delta : Z) :
  valid t = true -> 0 <= delta ->
  valid (Dt.add t delta) = true /\ Dt.to_us (Dt.add t delta) = Dt.to_us t + delta.
Proof.
  intros V D. unfold Dt.add. apply of_us_spec.
  pose proof (to_us_lower t V). lia.
Qed.

Lemma round_nonneg (x : Q) : (0 <= x)%Q -> 0 <= Py.round x.
Proof.
  intros H. unfold Py.round. cbv zeta.
  assert (F : 0 <= Qfloor x).
  { change 0 with (Qfloor 0). apply Qfloor_resp_le. exact H. }
  destruct (Qlt_le_dec _ _); [exact F|].
  destruct (Qlt_le_dec _ _); [lia|]. destruct (Z.even _); lia.
Qed.

End ClockProps.

(** * Flow sampling schedule *)

Module SamplingProps.

Import Sampling.

Local Open Scope Z_scope.

Lemma filter_suffix {A : Type} (key : A -> Dt.datetime) (cutoff : Dt.datetime)
    (l : list A) :
  Nut.in_time_order (map key l) ->
  exists d, l = d ++ List.filter (fun r => Dt.leb cutoff (key r)) l.
Proof.
  induction l as [|a l IH]; intros H; [exists []; reflexivity|].
  cbn [List.filter]. destruct (Dt.leb cutoff (key a)) eqn:E.
  - exists []. cbn. f_equal. symmetry. apply forallb_filter_id.
    apply forallb_forall. intros r Hr.
    pose proof (NutProps.in_time_order_head _ _ H) as F.
    rewrite Forall_forall in F.
    apply (NutProps.leb_trans _ _ _ E). apply F.
    apply list_elem_of_In. apply in_map. exact Hr.
  - destruct (IH (NutProps.in_time_order_tail _ _ H)) as [d Hd].
    exists (a :: d). cbn. f_equal. exact Hd.
Qed.

Lemma spaced_snoc (delta : Z) (l : list Dt.datetime) (x : Dt.datetime) :
  spaced delta l ->
  (forall a, last l = Some a -> Dt.leb (Dt.add a delta) x = true) ->
  spaced delta (l ++ [x]).
Proof.
  induction l as [|a l IH]; intros H L; [exact I|].
  destruct l as [|b l].
  - split; [apply L; reflexivity | exact I].
  - destruct H as [H1 H2]. split; [exact H1|]. apply IH; [exact H2|].
    intros c Hc. apply L. exact Hc.
Qed.

Lemma spaced_app_r (delta : Z) (l1 l2 : list Dt.datetime) :
  spaced delta (l1 ++ l2) -> spaced delta l2.
Proof.
  induction l1 as [|a l1 IH]; [tauto|].
  intros H. apply IH. cbn in H. destruct (l1 ++ l2); [exact I | apply H].
Qed.

Lemma last_In {A : Type} (l : list A) (a : A) : last l = Some a -> In a l.
Proof.
  intros H. rewrite (PlotProps.last_removelast l a H).
  apply in_or_app. right. left. reflexivity.
Qed.

(** One tick keeps the schedule. *)
Lemma tick_on_schedule (FMIN FMAX : Q) (c : Flow.channel) (ts : Dt.datetime)
    (reading : option Q) :
  let delta := Dt.timedelta_seconds (inject_Z (Flow.flow_sample_period c)) in
  0 <= delta ->
  Clock.valid ts = true ->
  on_schedule delta c ->
  Forall (fun s => Dt.to_us (Flow.s_ts s) <= Dt.to_us ts) (Flow.flow_samples c) ->
  let c' := _flow_tick FMIN FMAX c ts reading in
  on_schedule delta c'
  /\ Forall (fun s => Dt.to_us (Flow.s_ts s) <= Dt.to_us ts) (Flow.flow_samples c')
  /\ Flow.flow_sample_period c' = Flow.flow_sample_period c.
Proof.
  intros delta Hd Vts (Vs & Sp & Or & Vn & Nx) Le c'.
  assert (Take : (forall next, Flow.flow_next_sample c = Some next ->
                               Dt.to_us next <= Dt.to_us ts) ->
    let c2 := Flow._flow_take_sample FMIN FMAX c ts reading in
    on_schedule delta c2
    /\ Forall (fun s => Dt.to_us (Flow.s_ts s) <= Dt.to_us ts) (Flow.flow_samples c2)
    /\ Flow.flow_sample_period c2 = Flow.flow_sample_period c).
  { intros Due. unfold Flow._flow_take_sample. cbv zeta. fold delta.
    destruct (ClockProps.add_spec ts delta Vts Hd) as [Va Ea].
    destruct reading as [voltage|]; cbn [Flow.flow_samples Flow.flow_next_sample
      Flow.flow_sample_period].
    - set (smp := Flow.convert FMIN FMAX ts voltage (Flow.shunt_ohms c)).
      set (cutoff := Dt.sub ts (Dt.timedelta_hours Flow.MAX_FLOW_HISTORY_HOURS)).
      assert (Or' : Nut.in_time_order (map Flow.s_ts (Flow.flow_samples c ++ [smp]))).
      { rewrite map_app. apply NutProps.in_time_order_snoc; [exact Or|].
        apply Forall_map. rewrite Forall_forall in Vs, Le. apply Forall_forall.
        intros s Hs. apply ClockProps.leb_iff; [apply Vs; exact Hs | exact Vts |].
        apply Le. exact Hs. }
      assert (Sp' : spaced delta (map Flow.s_ts (Flow.flow_samples c ++ [smp]))).
      { rewrite map_app. apply spaced_snoc; [exact Sp|].
        intros a Ha. rewrite PlotProps.last_map in Ha.
        destruct (last (Flow.flow_samples c)) as [s|] eqn:El; [|discriminate Ha].
        injection Ha as <-. pose proof (last_In _ _ El) as Hs.
        destruct (Nx s Hs) as (next & En & Ln).
        rewrite Forall_forall in Vs.
        destruct (ClockProps.add_spec (Flow.s_ts s) delta
                    (Vs s (proj2 (list_elem_of_In _ _) Hs)) Hd) as [Vb Eb].
        apply ClockProps.leb_iff; [exact Vb | exact Vts |].
        change (Flow.s_ts smp) with ts. rewrite Eb. pose proof (Due next En). lia. }
      destruct (filter_suffix Flow.s_ts cutoff (Flow.flow_samples c ++ [smp]) Or')
        as [d Hd'].
      set (kept := List.filter (fun r => Dt.leb cutoff (Flow.s_ts r))
                     (Flow.flow_samples c ++ [smp])) in *.
      assert (Sub : forall s, In s kept -> s = smp \/ In s (Flow.flow_samples c)).
      { intros s Hs. subst kept. apply filter_In in Hs as [Hs _].
        apply in_app_or in Hs as [Hs | [<- | []]]; [right; exact Hs | left; reflexivity]. }
      split; [split; [|split; [|split; [|split]]]|split].
      + apply Forall_forall. intros s Hs. apply list_elem_of_In in Hs.
        destruct (Sub s Hs) as [-> | Hs']; [exact Vts|].
        rewrite Forall_forall in Vs. apply Vs. apply list_elem_of_In. exact Hs'.
      + rewrite Hd', map_app in Sp'. exact (spaced_app_r _ _ _ Sp').
      + rewrite Hd', map_app in Or'. exact (NutProps.in_time_order_app_r _ _ Or').
      + intros next [= <-]. exact Va.
      + intros s Hs. exists (Dt.add ts delta). split; [reflexivity|]. rewrite Ea.
        destruct (Sub s Hs) as [-> | Hs']; [change (Flow.s_ts smp) with ts; lia|].
        rewrite Forall_forall in Le.
        pose proof (Le s (proj2 (list_elem_of_In _ _) Hs')). lia.
      + apply Forall_forall. intros s Hs. apply list_elem_of_In in Hs.
        destruct (Sub s Hs) as [-> | Hs']; [change (Flow.s_ts smp) with ts; lia|].
        rewrite Forall_forall in Le. apply Le. apply list_elem_of_In. exact Hs'.
      + reflexivity.
    - split; [split; [|split; [|split; [|split]]]|split];
        try assumption; try reflexivity.
      + intros next [= <-]. exact Va.
      + intros s Hs. exists (Dt.add ts delta). split; [reflexivity|]. rewrite Ea.
        rewrite Forall_forall in Le.
        pose proof (Le s (proj2 (list_elem_of_In _ _) Hs)). lia. }
  subst c'. unfold _flow_tick.
  destruct (Flow.flow_next_sample c) as [next|] eqn:En.
  - destruct (Dt.leb next ts) eqn:El.
    + apply Take. intros n [= <-].
      apply ClockProps.leb_iff; [apply Vn; reflexivity | exact Vts | exact El].
    + split; [|split; [exact Le | reflexivity]].
      rewrite <- En in Vn, Nx. exact (conj Vs (conj Sp (conj Or (conj Vn Nx)))).
  - apply Take. discriminate.
Qed.

Lemma run_on_schedule (FMIN FMAX : Q) (ticks : list (Dt.datetime * option Q)) :
  forall c,
  let delta := Dt.timedelta_seconds (inject_Z (Flow.flow_sample_period c)) in
  0 <= delta ->
  Forall (fun t => Clock.valid (fst t) = true) ticks ->
  Nut.in_time_order (map fst ticks) ->
  on_schedule delta c ->
  (forall t, head ticks = Some t ->
     Forall (fun s => Dt.to_us (Flow.s_ts s) <= Dt.to_us (fst t)) (Flow.flow_samples c)) ->
  on_schedule delta (run FMIN FMAX ticks c).
Proof.
  induction ticks as [|t ticks IH]; intros c delta Hd V O S F; [exact S|].
  change (run FMIN FMAX (t :: ticks) c)
    with (run FMIN FMAX ticks (_flow_tick FMIN FMAX c (fst t) (snd t))).
  pose proof (Forall_inv V) as Vt. pose proof (Forall_inv_tail V) as Vr.
  destruct (tick_on_schedule FMIN FMAX c (fst t) (snd t) Hd Vt S (F t eq_refl))
    as (S1 & F1 & P1).
  cbv zeta in IH. specialize (IH (_flow_tick FMIN FMAX c (fst t) (snd t))).
  rewrite P1 in IH. fold delta in IH. apply IH; [exact Hd | exact Vr | | exact S1 |].
  - exact (NutProps.in_time_order_tail _ _ O).
  - intros t2 Ht2. destruct ticks as [|t2' ticks]; [discriminate|].
    injection Ht2 as <-. destruct O as [O1 _].
    apply (ClockProps.leb_iff _ _ Vt (Forall_inv Vr)) in O1.
    eapply Forall_impl; [exact F1|]. cbn. intros s Hs. lia.
Qed.

(** With a sampling period that is not negative and ticks that come in
    time order, the samples kept in a fermenter's history are at least one
    period apart and in time order, and the next sample is due no earlier
    than one period after every sample kept, whichever readings failed. *)
Theorem samples_one_period_apart (FLOW_MIN_SCCM FLOW_MAX_SCCM shunt_ohms : Q)
    (period : Z) (ticks : list (Dt.datetime * option Q)) :
  0 <= period ->
  Forall (fun t => Clock.valid (fst t) = true) ticks ->
  Nut.in_time_order (map fst ticks) ->
  let delta := Dt.timedelta_seconds (inject_Z period) in
  let c := run FLOW_MIN_SCCM FLOW_MAX_SCCM ticks (start shunt_ohms period) in
  spaced delta (map Flow.s_ts (Flow.flow_samples c))
  /\ Nut.in_time_order (map Flow.s_ts (Flow.flow_samples c))
  /\ forall s, In s (Flow.flow_samples c) ->
       exists next, Flow.flow_next_sample c = Some next
                    /\ Dt.leb (Dt.add (Flow.s_ts s) delta) next = true.
Proof.
  intros Hp V O delta c.
  assert (Hd : 0 <= delta).
  { apply ClockProps.round_nonneg. apply Qmult_le_0_compat; [|discriminate].
    change 0%Q with (inject_Z 0). rewrite <- Zle_Qle. exact Hp. }
  assert (S0 : on_schedule delta (start shunt_ohms period)).
  { split; [constructor|]. split; [exact I|]. split; [exact I|].
    split; [discriminate|]. intros s []. }
  pose proof (run_on_schedule FLOW_MIN_SCCM FLOW_MAX_SCCM ticks
                (start shunt_ohms period) Hd V O S0) as R.
  destruct R as (Vs & Sp & Or & Vn & Nx); [intros t _; constructor|].
  fold c in Vs, Sp, Or, Vn, Nx. split; [exact Sp|]. split; [exact Or|].
  intros s Hs. destruct (Nx s Hs) as (next & En & Ln). exists next.
  split; [exact En|]. rewrite Forall_forall in Vs.
  destruct (ClockProps.add_spec (Flow.s_ts s) delta
              (Vs s (proj2 (list_elem_of_In _ _) Hs)) Hd) as [Vb Eb].
  apply ClockProps.leb_iff; [exact Vb | apply Vn; exact En |]. rewrite Eb. exact Ln.
Qed.

Lemma samples_one_period_apart_witness :
  let ticks :=
    [(Dt.mk 2025 1 1 8 0 0, Some 0.8%Q); (Dt.mk 2025 1 1 8 0 5, Some 0.9%Q);
     (Dt.mk 2025 1 1 8 0 10, None); (Dt.mk 2025 1 1 8 0 15, Some 1.1%Q);
     (Dt.mk 2025 1 1 8 0 20, Some 1.2%Q)] in
  let delta := Dt.timedelta_seconds (inject_Z 10) in
  let c := run 0 50 ticks (start 148 10) in
  spaced delta (map Flow.s_ts (Flow.flow_samples c))
  /\ Nut.in_time_order (map Flow.s_ts (Flow.flow_samples c))
  /\ forall s, In s (Flow.flow_samples c) ->
       exists next, Flow.flow_next_sample c = Some next
                    /\ Dt.leb (Dt.add (Flow.s_ts s) delta) next = true.
Proof.
  intros ticks.
  apply (samples_one_period_apart 0 50 148 10 ticks).
  - lia.
  - repeat constructor.
  - cbn. repeat split; reflexivity.
Defined.

End SamplingProps.


(** * Dosing: deadline, error path and stepper calls *)

Module DoseProps.

Import Panel.

Local Open Scope Q_scope.

Lemma filter_positive_num (l : list Q) :
  List.filter Dose.positive (map Dose.Num l)
  = map Dose.Num (List.filter (fun d => Py.ltb 0 d) l).
Proof.
  induction l as [|d l IH]; [reflexivity|]. cbn.
  destruct (Py.ltb 0 d); cbn; rewrite IH; reflexivity.
Qed.

Lemma dur_total_num (l : list Q) :
  Dose.dur_total (map Dose.Num l) = Dose.Num (dur_total l).
Proof.
  unfold Dose.dur_total, dur_total. rewrite filter_positive_num.
  induction (List.filter (fun d => Py.ltb 0 d) l) as [|d r IH]; [reflexivity|].
  cbn. rewrite IH. reflexivity.
Qed.

Lemma sum_shape (l : list Dose.value) :
  Forall (fun d => Dose.positive d = true) l ->
  (exists q, foldr Dose.plus (Dose.Num 0) l = Dose.Num q)
  \/ foldr Dose.plus (Dose.Num 0) l = Dose.PosInf.
Proof.
  induction l as [|d l IH]; intros F; [left; exists 0%Q; reflexivity|].
  pose proof (Forall_inv F) as Hd.
  destruct (IH (Forall_inv_tail F)) as [[q E] | E]; cbn; rewrite E;
    destruct d; try discriminate Hd; eauto.
Qed.

Lemma sum_infinite (l : list Dose.value) :
  Forall (fun d => Dose.positive d = true) l -> In Dose.PosInf l ->
  foldr Dose.plus (Dose.Num 0) l = Dose.PosInf.
Proof.
  induction l as [|d l IH]; intros F I; [destruct I|].
  pose proof (Forall_inv F) as Hd. pose proof (Forall_inv_tail F) as Fl.
  destruct I as [-> | I]; cbn.
  - destruct (sum_shape l Fl) as [[q ->] | ->]; reflexivity.
  - rewrite (IH Fl I). destruct d; try discriminate Hd; reflexivity.
Qed.

(** Among the values that are summed, an infinite one makes the sum
    infinite. *)
Lemma dur_total_infinite (doses : list Dose.value) :
  In Dose.PosInf doses -> Dose.dur_total doses = Dose.PosInf.
Proof.
  unfold Dose.dur_total. intros H. apply sum_infinite.
  - apply Forall_forall. intros d Hd. apply list_elem_of_In in Hd.
    apply filter_In in Hd. apply Hd.
  - apply filter_In. split; [exact H | reflexivity].
Qed.

Lemma max_ordinal_value : Dose.max_ordinal = 3652059%Z.
Proof. vm_compute. reflexivity. Qed.

(** The deadline of a finite sum that is not negative: the sum is added
    unless the result is later than 9999-12-31. *)
Lemma deadline_cases (tnow : Dt.datetime) (total : Q) :
  Clock.valid tnow = true -> (0 <= total)%Q ->
  let delta := Dt.timedelta_seconds total in
  Dose.deadline tnow (Dose.Num total)
  = if (Dt.to_us tnow + delta <? (Dose.max_ordinal + 1) * Dt.us_per_day)%Z
    then inr (Dt.add tnow delta) else inl Dose.OverflowError.
Proof.
  intros V Ht delta.
  assert (Hd : (0 <= delta)%Z).
  { apply ClockProps.round_nonneg. apply Qmult_le_0_compat; [exact Ht | discriminate]. }
  pose proof (ClockProps.to_us_lower tnow V) as Hl.
  unfold Dose.deadline, Dose.timedelta, Dose.add. cbv zeta. fold delta.
  rewrite max_ordinal_value. unfold Dt.us_per_day in *.
  destruct (Z.ltb_spec (Dt.to_us tnow + delta) ((3652059 + 1) * 86400000000)) as [L|L].
  - assert (E1 : ((-999999999 <=? delta / 86400000000)
                  && (delta / 86400000000 <=? 999999999))%Z = true).
    { apply andb_true_iff. rewrite !Z.leb_le.
      Z.to_euclidean_division_equations. lia. }
    rewrite E1.
    assert (E2 : ((1 <=? (Dt.to_us tnow + delta) / 86400000000)
                  && ((Dt.to_us tnow + delta) / 86400000000 <=? 3652059))%Z = true).
    { apply andb_true_iff. rewrite !Z.leb_le.
      Z.to_euclidean_division_equations. lia. }
    rewrite E2. reflexivity.
  - destruct ((-999999999 <=? delta / 86400000000)
              && (delta / 86400000000 <=? 999999999))%Z; [|reflexivity].
    assert (E2 : ((1 <=? (Dt.to_us tnow + delta) / 86400000000)
                  && ((Dt.to_us tnow + delta) / 86400000000 <=? 3652059))%Z = false).
    { apply andb_false_iff. right. apply Z.leb_gt.
      Z.to_euclidean_division_equations. lia. }
    rewrite E2. reflexivity.
Qed.

(** A finite sum raises nothing but OverflowError. *)
Lemma deadline_error (tnow : Dt.datetime) (total : Q) (e : Dose.exn) :
  Dose.deadline tnow (Dose.Num total) = inl e -> e = Dose.OverflowError.
Proof.
  unfold Dose.deadline, Dose.timedelta, Dose.add. cbv zeta.
  destruct (_ && _); [|intros [= <-]; reflexivity].
  destruct (_ && _); [discriminate | intros [= <-]; reflexivity].
Qed.

Lemma deadline_value (tnow : Dt.datetime) (total : Q) (until : Dt.datetime) :
  Dose.deadline tnow (Dose.Num total) = inr until ->
  until = Dt.add tnow (Dt.timedelta_seconds total).
Proof.
  unfold Dose.deadline, Dose.timedelta, Dose.add. cbv zeta.
  destruct (_ && _); [|discriminate].
  destruct (_ && _); [intros [= <-]; reflexivity | discriminate].
Qed.

(** The dosing step on a new minute, by the sum of the positive values. *)
Lemma schedule_cases (tnow : Dt.datetime) (p : Panel) :
  _last_min p <> Some (Dt.ymd_hhmm tnow) ->
  let total := dur_total (Cal.nut_fire_for_minute (cal_nut p) tnow) in
  Dose.dosing_schedule tnow p
  = if Py.ltb 0 total then
      match Dose.deadline tnow (Dose.Num total) with
      | inl e => Dose.Raises e p []
      | inr until =>
          Dose.Returns
            (set__last_min (Some (Dt.ymd_hhmm tnow))
               (set_nut_running_until (Some until) p))
            [Dose.StartStepper (name p) (freq_nut p)]
      end
    else Dose.Returns (set__last_min (Some (Dt.ymd_hhmm tnow)) p) [].
Proof.
  intros Hm total. unfold Dose.dosing_schedule. cbv zeta.
  destruct (decide (_last_min p = Some (Dt.ymd_hhmm tnow))) as [E|_];
    [contradiction|].
  unfold Dose.fire. subst total.
  destruct (Cal.nut_fire_for_minute (cal_nut p) tnow) as [|d ds] eqn:Ed.
  - reflexivity.
  - cbn [map]. change (Dose.Num d :: map Dose.Num ds) with (map Dose.Num (d :: ds)).
    cbv zeta. rewrite dur_total_num. cbn [Dose.positive].
    destruct (Py.ltb 0 (dur_total (d :: ds))); [|reflexivity].
    destruct (Dose.deadline tnow (Dose.Num (dur_total (d :: ds)))); reflexivity.
Qed.

(** A step that returns leaves the panel that [Panel.dosing_schedule]
    computes. *)
Lemma schedule_returns (tnow : Dt.datetime) (p p' : Panel)
    (calls : list Dose.request) :
  Dose.dosing_schedule tnow p = Dose.Returns p' calls ->
  p' = Panel.dosing_schedule tnow p.
Proof.
  unfold Dose.dosing_schedule, Panel.dosing_schedule. cbv zeta.
  destruct (decide (_last_min p = Some (Dt.ymd_hhmm tnow))) as [E|E].
  - intros [= <- _]. reflexivity.
  - unfold Dose.fire.
    destruct (Cal.nut_fire_for_minute (cal_nut p) tnow) as [|d ds] eqn:Ed.
    + intros [= <- _]. reflexivity.
    + cbn [map]. change (Dose.Num d :: map Dose.Num ds) with (map Dose.Num (d :: ds)).
      cbv zeta. rewrite dur_total_num. cbn [Dose.positive].
      destruct (Py.ltb 0 (dur_total (d :: ds))); [|intros [= <- _]; reflexivity].
      destruct (Dose.deadline tnow (Dose.Num (dur_total (d :: ds)))) as [e|u] eqn:Eu;
        [discriminate|].
      intros [= <- _]. apply deadline_value in Eu. rewrite Eu. reflexivity.
Qed.

(** C2 (amended). On each minute boundary the strictly positive values of
    the dosing events that fired at that minute are summed; when that sum is
    not positive the deadline is left as it is. A positive sum S sets the
    deadline to [now] plus S seconds, whatever it was before, and starts the
    stepper, unless that instant is later than 9999-12-31 (or the sum is
    infinite): then line 1368 raises OverflowError, which nothing catches,
    and neither the deadline nor the minute marker is set. Within the same
    minute nothing is done again. When all fired values are positive the
    sum is the sum of all of them, and the events (09:00, 30) and
    (09:00, 20) on date D give the deadline D 09:00:50 at D 09:00. *)
Theorem C2_dosing_deadline :
  (forall (p : Panel) (now : Dt.datetime),
      let current_min := Dt.ymd_hhmm now in
      let fired :=
        map Cal.value
          (List.filter (fun e => String.eqb (Cal.time e) (Dt.hhmm now))
             (Cal.get (cal_nut p) (Dt.ymd (Dt.dt_date now)))) in
      let total := foldr Qplus 0 (List.filter (fun d => Py.ltb 0 d) fired) in
      (_last_min p = Some current_min ->
       Dose.dosing_schedule now p = Dose.Returns p []) /\
      (_last_min p <> Some current_min ->
       (~ 0 < total ->
        Dose.dosing_schedule now p
        = Dose.Returns (set__last_min (Some current_min) p) []) /\
       (0 < total ->
        match Dose.deadline now (Dose.Num total) with
        | inr until =>
            until = Dt.add now (Dt.timedelta_seconds total) /\
            Dose.dosing_schedule now p
            = Dose.Returns
                (set__last_min (Some current_min)
                   (set_nut_running_until (Some until) p))
                [Dose.StartStepper (name p) (freq_nut p)]
        | inl e =>
            e = Dose.OverflowError /\
            Dose.dosing_schedule now p = Dose.Raises Dose.OverflowError p []
        end) /\
       (Clock.valid now = true -> 0 < total ->
        (Dose.deadline now (Dose.Num total) = inl Dose.OverflowError <->
         ((Dose.max_ordinal + 1) * Dt.us_per_day
          <= Dt.to_us now + Dt.timedelta_seconds total)%Z)) /\
       (Forall (fun d => 0 < d) fired -> total = foldr Qplus 0 fired))) /\
  (forall (now : Dt.datetime) (doses : list Dose.value) (p : Panel),
      In Dose.PosInf doses ->
      Dose.fire now doses p = Dose.Raises Dose.OverflowError p []) /\
  (let p := set_cal_nut Ex.cal_two_doses Ex.f1 in
   let now := Ex.at_ Ex.D 9 0 0 in
   match Dose.dosing_schedule now p with
   | Dose.Returns p' calls =>
       nut_running_until p' = Some (Ex.at_ Ex.D 9 0 50)
       /\ calls = [Dose.StartStepper "F1" 1000]
   | Dose.Raises _ _ _ => False
   end /\
   match Dose.dosing_schedule now
           (set_nut_running_until (Some (Ex.at_ Ex.D 10 0 0)) p) with
   | Dose.Returns p' calls => nut_running_until p' = Some (Ex.at_ Ex.D 9 0 50)
   | Dose.Raises _ _ _ => False
   end /\
   nut_running_until (fst (update_process Ex.tick_0900 (p, Ex.w0)))
   = Some (Ex.at_ Ex.D 9 0 50) /\
   match Dose.dosing_schedule now (set_cal_nut Ex.cal_huge_dose Ex.f1) with
   | Dose.Returns _ _ => False
   | Dose.Raises e p' calls =>
       e = Dose.OverflowError /\ nut_running_until p' = None
       /\ _last_min p' = None /\ calls = []
   end).
Proof.
  split; [|split].
  - intros p now. cbv zeta.
    rewrite <- PanelProps.nut_fire_for_minute_filter.
    set (fired := Cal.nut_fire_for_minute (cal_nut p) now).
    fold (dur_total fired).
    split.
    + intros E. unfold Dose.dosing_schedule. cbv zeta.
      destruct (decide (_last_min p = Some (Dt.ymd_hhmm now))); [reflexivity|].
      contradiction.
    + intros Hm. pose proof (schedule_cases now p Hm) as S. cbv zeta in S.
      fold fired in S.
      split; [|split; [|split; [|apply PanelProps.dur_total_all_positive]]].
      * intros Hn. destruct (Py.ltb 0 (dur_total fired)) eqn:El; [|exact S].
        apply py_ltb_true in El. contradiction.
      * intros Hp. apply py_ltb_true in Hp. rewrite Hp in S.
        destruct (Dose.deadline now (Dose.Num (dur_total fired))) as [e|u] eqn:Eu.
        -- apply deadline_error in Eu. subst e. split; [reflexivity | exact S].
        -- apply deadline_value in Eu. split; [exact Eu | exact S].
      * intros V Hp. rewrite (deadline_cases now (dur_total fired) V)
          by (apply Qlt_le_weak; exact Hp). cbv zeta.
        destruct (Z.ltb_spec (Dt.to_us now + Dt.timedelta_seconds (dur_total fired))
                    ((Dose.max_ordinal + 1) * Dt.us_per_day)) as [L|L].
        -- split; [discriminate | lia].
        -- split; [intros _; exact L | reflexivity].
  - intros now doses p H. unfold Dose.fire.
    destruct doses as [|d ds]; [destruct H|].
    cbv zeta. rewrite (dur_total_infinite _ H). reflexivity.
  - vm_compute. repeat split; reflexivity.
Qed.

Lemma C2_dosing_deadline_witness :
  let p := set_cal_nut Ex.cal_two_doses Ex.f1 in
  let now := Ex.at_ Ex.D 9 0 0 in
  Dose.dosing_schedule now p
  = Dose.Returns
      (set__last_min (Some "2024-03-10 09:00")
         (set_nut_running_until (Some (Ex.at_ Ex.D 9 0 50)) p))
      [Dose.StartStepper "F1" 1000].
Proof.
  cbv zeta. destruct C2_dosing_deadline as [H _].
  destruct (H (set_cal_nut Ex.cal_two_doses Ex.f1) (Ex.at_ Ex.D 9 0 0))
    as [_ H2].
  destruct H2 as (_ & H3 & _); [discriminate|].
  assert (Hp : 0 < foldr Qplus 0
                 (List.filter (fun d => Py.ltb 0 d)
                    (map Cal.value
                       (List.filter
                          (fun e => String.eqb (Cal.time e)
                                      (Dt.hhmm (Ex.at_ Ex.D 9 0 0)))
                          (Cal.get (cal_nut (set_cal_nut Ex.cal_two_doses Ex.f1))
                             (Dt.ymd (Dt.dt_date (Ex.at_ Ex.D 9 0 0))))))))
    by (vm_compute; reflexivity).
  specialize (H3 Hp).
  destruct (Dose.deadline _ _) as [e|u] eqn:Eu.
  - vm_compute in Eu. discriminate Eu.
  - destruct H3 as [-> ->]. vm_compute. reflexivity.
Defined.

(** When the minute is new and the positive doses due now sum to more than
    zero, the dosing part of the tick starts the stepper (line 1369) unless
    the deadline overflows. The deadline stays and the indicator is on only
    if the sum, rounded to microseconds, is at least one microsecond (or the
    manual toggle is set). With a smaller sum, the toggle off and the
    indicator off before, the start of line 1369 is the only call: no stop
    follows, so the stepper is left running with the indicator off and no
    deadline. *)
Theorem dose_starts_stepper (tnow : Dt.datetime) (p : Panel) :
  Clock.valid tnow = true ->
  _last_min p <> Some (Dt.ymd_hhmm tnow) ->
  let total := dur_total (Cal.nut_fire_for_minute (cal_nut p) tnow) in
  Py.ltb 0 total = true ->
  let delta := Dt.timedelta_seconds total in
  let should_run := (1 <=? delta)%Z || manual_nut_on p in
  ((Dose.max_ordinal + 1) * Dt.us_per_day <= Dt.to_us tnow + delta ->
   Dose.dosing tnow p = Dose.Raises Dose.OverflowError p [])%Z
  /\ ((Dt.to_us tnow + delta < (Dose.max_ordinal + 1) * Dt.us_per_day)%Z ->
      exists p' calls,
        Dose.dosing tnow p
        = Dose.Returns p' (Dose.StartStepper (name p) (freq_nut p) :: calls)
        /\ nut_running_until p'
           = (if (1 <=? delta)%Z then Some (Dt.add tnow delta) else None)
        /\ _nut_led_on p' = should_run
        /\ calls
           = (if should_run && negb (_nut_led_on p)
              then [Dose.StartStepper (name p) (freq_nut p)]
              else if negb should_run && _nut_led_on p
                   then [Dose.StopStepper (name p)]
                   else [])
        /\ (delta = 0%Z -> manual_nut_on p = false -> _nut_led_on p = false ->
            calls = [] /\ _nut_led_on p' = false
            /\ nut_running_until p' = None)).
Proof.
  intros V Hm total Ht delta should_run.
  pose proof (schedule_cases tnow p Hm) as S. cbv zeta in S. fold total in S.
  rewrite Ht in S.
  assert (Hq : (0 <= total)%Q).
  { apply py_ltb_true in Ht. apply Qlt_le_weak. exact Ht. }
  rewrite (deadline_cases tnow total V Hq) in S. cbv zeta in S. fold delta in S.
  assert (Hd : (0 <= delta)%Z).
  { apply ClockProps.round_nonneg. apply Qmult_le_0_compat; [exact Hq | discriminate]. }
  split.
  - intros L. apply Z.ltb_ge in L. rewrite L in S.
    unfold Dose.dosing. rewrite S. reflexivity.
  - intros L. apply Z.ltb_lt in L. rewrite L in S.
    destruct (ClockProps.add_spec tnow delta V Hd) as [Va Ea].
    assert (Hl : Dt.ltb tnow (Dt.add tnow delta) = (1 <=? delta)%Z).
    { apply eq_true_iff_eq. rewrite (ClockProps.ltb_iff _ _ V Va), Ea, Z.leb_le. lia. }
    unfold Dose.dosing. rewrite S. unfold Dose.dosing_state, schedule_active.
    cbn [nut_running_until set__last_min set_nut_running_until]. rewrite Hl.
    fold should_run.
    destruct (1 <=? delta)%Z eqn:E1.
    + cbn [orb] in *. subst should_run.
      eexists. eexists. split; [reflexivity|].
      split; [reflexivity|]. split; [reflexivity|]. split; [reflexivity|].
      intros E0. rewrite E0 in E1. discriminate E1.
    + cbn [orb] in *. subst should_run.
      eexists. eexists. split; [reflexivity|].
      split; [reflexivity|]. split; [reflexivity|]. split; [reflexivity|].
      intros _ Hman Hled. cbn. rewrite Hman, Hled. repeat split.
Qed.

Lemma dose_starts_stepper_witness :
  let p := set_cal_nut Ex.cal_two_doses Ex.f1 in
  let tnow := Ex.at_ Ex.D 9 0 0 in
  exists p' calls,
    Dose.dosing tnow p
    = Dose.Returns p' (Dose.StartStepper (name p) (freq_nut p) :: calls)
    /\ _nut_led_on p' = true.
Proof.
  cbv zeta.
  destruct (dose_starts_stepper (Ex.at_ Ex.D 9 0 0)
              (set_cal_nut Ex.cal_two_doses Ex.f1)) as [_ H].
  - reflexivity.
  - discriminate.
  - vm_compute. reflexivity.
  - destruct H as (p' & calls & E & _ & Hl & _); [vm_compute; reflexivity|].
    exists p', calls. split; [exact E|]. rewrite Hl. vm_compute. reflexivity.
Defined.

End DoseProps.
